(** * ProyectoUDE: the JSON to CSV converter [json_to_csv] of [solution.py]

    The converter reads a JSON file, builds a pandas [DataFrame] from the
    parsed value (one strategy for a JSON object, one for a JSON array) and
    writes it with [DataFrame.to_csv(path, index=True)].  It reports the
    outcome as a boolean and prints diagnostics on the way.

    The development follows the function statement by statement:
    - Python values as [json.load] produces them ([pyval]);
    - the calls into the interpreter and into the libraries whose text is not
      part of the repository (codecs, the JSON parser, [repr] of a string,
      numeric formatting of a column) are the fields of the class [Runtime];
    - the table constructors of pandas are modelled on the shapes the
      converter is written for (lists of objects, lists of scalars, objects
      of objects, objects of scalars) and delegate to [Runtime] elsewhere;
    - the file system, the console and the order of the calls are an
      explicit [world], threaded through a small monad with Python's three
      ways of leaving a statement: fall through, [return], [raise];
    - standard output is the class [Console]: [print] raises what the stream
      answers to a line it cannot take. *)

From Stdlib Require Import ZArith List Ascii String Lia Permutation.
From stdpp Require Import base option list gmap strings pretty.

#[local] Set Warnings "-register-all".

(** ** Python values *)

(** What [json.load] can return.  A float is kept as the text Python prints
    for it; a [dict] keeps its insertion order, as CPython does. *)
Inductive pyval :=
| PNone
| PBool (b : bool)
| PInt (n : Z)
| PFloat (text : string)
| PStr (s : string)
| PList (items : list pyval)
| PDict (items : list (string * pyval)).

(** [type(v).__name__] *)
Definition type_name (v : pyval) : string :=
  match v with
  | PNone => "NoneType"
  | PBool _ => "bool"
  | PInt _ => "int"
  | PFloat _ => "float"
  | PStr _ => "str"
  | PList _ => "list"
  | PDict _ => "dict"
  end.

(** [isinstance(data, dict)], [isinstance(data, list)] *)
Definition isinstance_dict (v : pyval) : bool :=
  match v with PDict _ => true | _ => false end.

Definition isinstance_list (v : pyval) : bool :=
  match v with PList _ => true | _ => false end.

(** pandas' [is_list_like]: among JSON values, lists and dicts. *)
Definition is_list_like (v : pyval) : bool :=
  isinstance_dict v || isinstance_list v.

(** Exceptions.  Every exception the calls of [json_to_csv] raise derives
    from [Exception]; [json.JSONDecodeError] is told apart because the
    function has a handler of its own for it. *)
Inductive exn :=
| JSONDecodeError (msg : string)
| Exception (cls msg : string).

Definition AttributeError (v : pyval) (attr : string) : exn :=
  Exception "AttributeError"
    ("'" +:+ type_name v +:+ "' object has no attribute '" +:+ attr +:+ "'").

(** What [dict(v)], [iter(v)] and the like raise on a number, a boolean or
    [None]. *)
Definition TypeError_not_iterable (v : pyval) : exn :=
  Exception "TypeError" ("'" +:+ type_name v +:+ "' object is not iterable").

(** What [open] raises for an encoding no codec is registered for. *)
Definition LookupError (encoding : string) : exn :=
  Exception "LookupError" ("unknown encoding: " +:+ encoding).

(** Among JSON values, the ones Python can iterate over. *)
Definition is_iterable (v : pyval) : bool :=
  match v with
  | PStr _ | PList _ | PDict _ => true
  | _ => false
  end.

(** Row and column labels of a frame: JSON keys, or positions. *)
Inductive label :=
| LStr (s : string)
| LInt (n : Z).

#[global] Instance label_eq_dec : EqDecision label.
Proof. solve_decision. Defined.

(** A cell is a value or missing ([NaN]). *)
Definition cell : Type := option pyval.

Record DataFrame := mkFrame {
  index : list label;
  columns : list label;
  values : list (list cell)
}.

(** [df.shape] *)
Definition shape (df : DataFrame) : nat * nat :=
  (length (index df), length (columns df)).

(** ** The interpreter and the libraries *)

Class Runtime := {
  (** [codecs.lookup(encoding)] finds a codec *)
  codec_lookup : string -> bool;
  (** UTF-8 is built in *)
  codec_lookup_utf8 : codec_lookup "utf-8" = true;
  (** [bytes.decode(encoding)] as [TextIOWrapper.read] performs it *)
  codec_decode : string -> string -> exn + string;
  (** [str.encode(encoding)] as a text file opened for writing performs it;
      on failure, the bytes that reached the file before the error *)
  codec_encode : string -> string -> (exn * string) + string;
  (** [json.loads] *)
  json_loads : string -> exn + pyval;
  (** [pathlib.Path(p).stem] *)
  path_stem : string -> string;
  (** [repr] of a [str] *)
  str_repr : string -> string;
  (** text pandas writes for a number or a boolean; it depends on the dtype
      inferred for the whole column (an [int] in a column with a missing
      value is written as a float) *)
  number_text : list cell -> pyval -> string;
  (** the frame constructor on a list that mixes scalars with lists or
      dicts, that starts with a list, or that has a string or a list among
      its dicts *)
  frame_irregular : option (list label) -> list pyval -> exn + DataFrame;
  (** [os.linesep], pandas' default line terminator *)
  linesep : string
}.

Definition join (sep : string) (l : list string) : string :=
  String.concat sep l.

Section Repr.
Context `{Runtime}.

(** [repr(v)], which is also [str(v)] for lists and dicts. *)
Fixpoint py_repr (v : pyval) : string :=
  match v with
  | PNone => "None"
  | PBool b => if b then "True" else "False"
  | PInt n => pretty n
  | PFloat t => t
  | PStr s => str_repr s
  | PList l => "[" +:+ join ", " (map py_repr l) +:+ "]"
  | PDict d =>
      "{" +:+ join ", "
        (map (fun kv => str_repr (fst kv) +:+ ": " +:+ py_repr (snd kv)) d)
      +:+ "}"
  end.
End Repr.

(** ** Ordered dictionaries *)

Fixpoint dict_get {V} (d : list (string * V)) (k : string) : option V :=
  match d with
  | [] => None
  | (k', v) :: d' => if decide (k' = k) then Some v else dict_get d' k
  end.

(** [d[k] = v]: a new key goes to the end, an old one keeps its place. *)
Fixpoint dict_set {V} (d : list (string * V)) (k : string) (v : V)
  : list (string * V) :=
  match d with
  | [] => [(k, v)]
  | (k', v') :: d' =>
      if decide (k' = k) then (k, v) :: d' else (k', v') :: dict_set d' k v
  end.

Definition keys {V} (d : list (string * V)) : list string := map fst d.

(** ** pandas: building the table *)

(** [lib.fast_unique_multiple_list(_gen)] with [sort=False]: one pass, a
    value is appended the first time it is met. *)
Fixpoint fast_unique {A} `{EqDecision A} (uniques buf : list A) : list A :=
  match buf with
  | [] => uniques
  | val :: buf' =>
      fast_unique (if decide (val ∈ uniques) then uniques else uniques ++ [val]) buf'
  end.

Definition fast_unique_multiple_list {A} `{EqDecision A}
  (lists : list (list A)) : list A :=
  fold_left fast_unique lists [].

(** [default_index(n)]: [RangeIndex(0, n)] *)
Definition default_index (n : nat) : list label :=
  map (fun i => LInt (Z.of_nat i)) (seq 0 n).

Definition empty_frame : DataFrame := mkFrame [] [] [].

(** The elements of a list that starts with a dict, as dicts.  The
    constructor takes them in order: a dict is a row; a number, a boolean
    or [None] cannot be iterated, and that ends the construction with a
    [TypeError].  What a string or a list among the dicts becomes is not
    decided here ([None]): it is left to the runtime. *)
Fixpoint records (data : list pyval)
  : option (exn + list (list (string * pyval))) :=
  match data with
  | [] => Some (inr [])
  | PDict d :: data' =>
      match records data' with
      | Some (inr ds) => Some (inr (d :: ds))
      | r => r
      end
  | v :: _ =>
      if is_iterable v then None else Some (inl (TypeError_not_iterable v))
  end.

(** [_list_of_dict_to_arrays]: columns are the keys in first-seen order,
    [dicts_to_array] fills a row with the values it has and [NaN]. *)
Definition frame_of_records (idx : option (list label))
  (rows : list (list (string * pyval))) : DataFrame :=
  let cols := fast_unique_multiple_list (map keys rows) in
  mkFrame (default (default_index (length rows)) idx)
          (map LStr cols)
          (map (fun d => map (dict_get d) cols) rows).

(** A list of scalars is one column, labelled [0]. *)
Definition frame_of_scalars (idx : option (list label)) (data : list pyval)
  : DataFrame :=
  mkFrame (default (default_index (length data)) idx)
          [LInt 0]
          (map (fun v => [Some v]) data).

Section Pandas.
Context `{Runtime}.

(** [pd.DataFrame(data, index=idx)] for a list [data]. *)
Definition DataFrame_of_list (idx : option (list label)) (data : list pyval)
  : exn + DataFrame :=
  match data with
  | [] => inr (mkFrame (default [] idx) [] (map (fun _ => []) (default [] idx)))
  | PDict _ :: _ =>
      match records data with
      | Some (inr rows) => inr (frame_of_records idx rows)
      | Some (inl e) => inl e
      | None => frame_irregular idx data
      end
  | PList _ :: _ => frame_irregular idx data
  | _ :: _ =>
      if forallb (fun v => negb (is_list_like v)) data
      then inr (frame_of_scalars idx data)
      else frame_irregular idx data
  end.

(** [_from_nested_dict]: [new_data[col][index] = v] over all items. *)
Definition nested_add (idx : string)
  (new_data : list (string * list (string * pyval)))
  (item : string * pyval) : list (string * list (string * pyval)) :=
  dict_set new_data (fst item)
    (dict_set (default [] (dict_get new_data (fst item))) idx (snd item)).

Fixpoint from_nested_dict
  (new_data : list (string * list (string * pyval)))
  (data : list (string * pyval))
  : exn + list (string * list (string * pyval)) :=
  match data with
  | [] => inr new_data
  | (idx, PDict s) :: data' =>
      from_nested_dict (fold_left (nested_add idx) s new_data) data'
  | (_, v) :: _ => inl (AttributeError v "items")
  end.

(** [pd.DataFrame(data, index=idx)] for a dict of dicts
    [{col: {row: v}}]: one column per key, one row per label of [idx], in
    that order; a column has [NaN] where it has no entry for the row. *)
Definition frame_of_nested (idx : list string)
  (data : list (string * list (string * pyval))) : DataFrame :=
  mkFrame (map LStr idx)
          (map LStr (keys data))
          (map (fun r => map (fun c => dict_get (snd c) r) data) idx).

(** [pd.DataFrame.from_dict(data, orient='index')]: for a dict of dicts
    the rows are the keys of [data], in its order, whatever their dicts
    hold; the columns come from [_from_nested_dict]. *)
Definition DataFrame_from_dict_index (data : list (string * pyval))
  : exn + DataFrame :=
  match data with
  | [] => inr empty_frame
  | (_, PDict _) :: _ =>
      match from_nested_dict [] data with
      | inr new_data => inr (frame_of_nested (keys data) new_data)
      | inl e => inl e
      end
  | _ :: _ =>
      DataFrame_of_list (Some (map (fun kv => LStr (fst kv)) data))
                        (map snd data)
  end.
End Pandas.

(** ** pandas and csv: writing the table *)

Definition delimiter : ascii := ",".
Definition quotechar : ascii := Eval cbv in ascii_of_nat 34.

Fixpoint str_mem (c : ascii) (s : string) : bool :=
  match s with
  | EmptyString => false
  | String d s' => Ascii.eqb c d || str_mem c s'
  end.

Fixpoint str_exists (p : ascii -> bool) (s : string) : bool :=
  match s with
  | EmptyString => false
  | String c s' => p c || str_exists p s'
  end.

(** [doublequote=True]: a quote character inside a field is written twice. *)
Fixpoint double_quotes (s : string) : string :=
  match s with
  | EmptyString => EmptyString
  | String c s' =>
      if Ascii.eqb c quotechar
      then String c (String c (double_quotes s'))
      else String c (double_quotes s')
  end.

Definition label_text (l : label) : string :=
  match l with
  | LStr s => s
  | LInt n => pretty n
  end.

Section Csv.
Context `{Runtime}.

(** [csv.QUOTE_MINIMAL]: the characters that force quoting. *)
Definition special (c : ascii) : bool :=
  Ascii.eqb c delimiter || Ascii.eqb c quotechar || str_mem c linesep.

Definition quote_field (s : string) : string :=
  if str_exists special s
  then String quotechar (double_quotes s +:+ String quotechar EmptyString)
  else s.

(** [csv.writer.writerow]; a record made of one empty field is written as
    a pair of quotes, so that the line is not blank. *)
Definition writerow (fields : list string) : string :=
  match fields with
  | [EmptyString] => String quotechar (String quotechar EmptyString)
  | _ => join (String delimiter EmptyString) (map quote_field fields)
  end +:+ linesep.

(** The text of one cell: [na_rep=''] for a missing value and for [None],
    [str(v)] for what pandas keeps as an object. *)
Definition cell_text (col : list cell) (c : cell) : string :=
  match c with
  | None => EmptyString
  | Some PNone => EmptyString
  | Some (PStr s) => s
  | Some (PList l) => py_repr (PList l)
  | Some (PDict d) => py_repr (PDict d)
  | Some v => number_text col v
  end.

(** Column [j] of the frame, top to bottom. *)
Definition column_cells (df : DataFrame) (j : nat) : list cell :=
  map (fun row => default None (row !! j)) (values df).

(** [header=True, index=True, index_label=None]: the index has no name,
    so its header field is empty. *)
Definition header_fields (df : DataFrame) : list string :=
  EmptyString :: map label_text (columns df).

Definition row_fields (df : DataFrame) (l : label) (row : list cell)
  : list string :=
  label_text l :: imap (fun j c => cell_text (column_cells df j) c) row.

Definition csv_records (df : DataFrame) : list (list string) :=
  header_fields df :: zip_with (row_fields df) (index df) (values df).

(** The text [df.to_csv(index=True)] produces. *)
Definition csv_text (df : DataFrame) : string :=
  String.concat EmptyString (map writerow (csv_records df)).
End Csv.

(** ** The world: files, console, order of calls *)

Inductive node :=
| File (bytes : string)
| Directory (st_size : nat).

(** What the script [main.py] prints, by source line. *)
Inductive script_message :=
| ScriptBanner                           (* lines 32-35 *)
| ScriptReading (path : string)          (* lines 38-39 *)
| ScriptIncompatible                     (* lines 53 and 80 *)
| ScriptHead (rows : list (label * list cell)) (* lines 58-62 *)
| ScriptSaving (path : string)           (* lines 67-71 *)
| ScriptDone                             (* line 73 *)
| ScriptNotFound (path : string)         (* lines 77-78 *)
| ScriptUnexpected (e : exn).            (* line 83 *)

(** What [main()] of [solution.py] and the script
    [OtraVersion/json_a_csv.py] print, by source line. *)
Inductive caller_message :=
| MainBanner                                  (* solution.py, lines 158-159 *)
| MainFolderMissing (folder : string)         (* lines 181-182 *)
| MainFolderCreated (folder : string)         (* line 185 *)
| MainSuccess (json_name csv_name : string)   (* lines 195-197 *)
| MainFailure                                 (* line 199 *)
| OtraGenerated (path : string).              (* json_a_csv.py, line 13 *)

(** What [json_to_csv] prints, by source line. *)
Inductive message :=
| MsgMissing (path : string)                        (* line 63 *)
| MsgReading (path : string)                        (* line 66 *)
| MsgIncompatible                                   (* line 88 *)
| MsgLoaded (shape : nat * nat) (names : list label) (* lines 101-103 *)
| MsgHead (rows : list (label * list cell))         (* lines 108-109 *)
| MsgSaving (path : string)                         (* line 115 *)
| MsgDone (path : string) (size : nat)              (* lines 122-124 *)
| MsgNotCreated                                     (* line 127 *)
| MsgDecodeError (e : exn)                          (* line 134 *)
| MsgUnexpected (e : exn)                           (* line 139 *)
| MsgScript (m : script_message)                    (* main.py *)
| MsgCaller (m : caller_message).                   (* main(), json_a_csv.py *)

Inductive event :=
| EvExists (path : string)
| EvOpen (path mode : string)
| EvJsonLoad
| EvGetsize (path : string)
| EvPrint (m : message).

Record world := mkWorld {
  fs : gmap string node;
  no_read : gset string;     (* paths the process may not open for reading *)
  no_write : gset string;    (* paths the process may not open for writing *)
  log : list event
}.

Definition set_fs (f : gmap string node -> gmap string node) (w : world) : world :=
  mkWorld (f (fs w)) (no_read w) (no_write w) (log w).

Definition add_log (ev : event) (w : world) : world :=
  mkWorld (fs w) (no_read w) (no_write w) (log w ++ [ev]).

(** ** Statements *)

(** How a statement ends: control falls through with a value, the function
    returns, or an exception is raised. *)
Inductive completion (A : Type) :=
| Next (a : A)
| Return (v : pyval)
| Raise (e : exn).
Arguments Next {A} a.
Arguments Return {A} v.
Arguments Raise {A} e.

Definition M (A : Type) : Type := world -> completion A * world.

Definition ret {A} (a : A) : M A := fun w => (Next a, w).

Definition bind {A B} (m : M A) (k : A -> M B) : M B :=
  fun w =>
    match m w with
    | (Next a, w') => k a w'
    | (Return v, w') => (Return v, w')
    | (Raise e, w') => (Raise e, w')
    end.

Definition return_ {A} (v : pyval) : M A := fun w => (Return v, w).
Definition raise {A} (e : exn) : M A := fun w => (Raise e, w).

Definition lift {A} (r : exn + A) : M A :=
  match r with
  | inr a => ret a
  | inl e => raise e
  end.

Definition emit (ev : event) : M unit := fun w => (Next tt, add_log ev w).

(** ** Standard output

    [print] writes to [sys.stdout], and the stream may refuse the text: one
    that cannot encode a character raises [UnicodeEncodeError], a closed
    pipe [BrokenPipeError].  [stdout_error m] is the exception the stream
    answers to the lines of [m], if any.  A message stands for the
    consecutive calls of [print] listed with it, and is logged when all of
    its lines were taken. *)
Class Console := stdout_error : message -> option exn.

Definition print `{Console} (m : message) : M unit :=
  fun w =>
    match stdout_error m with
    | Some e => (Raise e, w)
    | None => (Next tt, add_log (EvPrint m) w)
    end.

(** A standard output that takes every line, as a UTF-8 terminal does. *)
Class Encodes `{Console} : Prop :=
  stdout_encodes : ∀ m, stdout_error m = None.

(** [try: body except ...: handler]; the handler receives the exception and
    dispatches on its class. *)
Definition try_except {A} (body : M A) (handler : exn -> M A) : M A :=
  fun w =>
    match body w with
    | (Raise e, w') => handler e w'
    | r => r
    end.

(** A call: the value returned ([None] when the body runs off its end) or
    the exception that leaves the function. *)
Definition call (body : M unit) (w : world) : (exn + pyval) * world :=
  match body w with
  | (Next _, w') => (inr PNone, w')
  | (Return v, w') => (inr v, w')
  | (Raise e, w') => (inl e, w')
  end.

Declare Scope py_scope.
Delimit Scope py_scope with py.
Notation "x <- m ;; k" := (bind m (fun x => k))
  (at level 100, m at next level, k at level 200, right associativity) : py_scope.
Notation "m ;; k" := (bind m (fun _ => k))
  (at level 100, k at level 200, right associativity) : py_scope.
Open Scope py_scope.

(** ** Operating system and library calls *)

Record handle := mkHandle { h_bytes : string; h_encoding : string }.

Definition os_path_exists (p : string) : M bool :=
  emit (EvExists p);;
  fun w => (Next (bool_decide (is_Some (fs w !! p))), w).

Section Open.
Context `{Runtime}.

(** [open(p, 'r', encoding=enc)]: the file is opened first, then the codec
    is looked up for the text layer. *)
Definition open_r (p enc : string) : M handle :=
  emit (EvOpen p "r");;
  fun w =>
    match fs w !! p with
    | None => (Raise (Exception "FileNotFoundError" p), w)
    | Some (Directory _) => (Raise (Exception "IsADirectoryError" p), w)
    | Some (File b) =>
        if decide (p ∈ no_read w)
        then (Raise (Exception "PermissionError" p), w)
        else if codec_lookup enc
        then (Next (mkHandle b enc), w)
        else (Raise (LookupError enc), w)
    end.
End Open.

(** [os.path.getsize(p)] *)
Definition os_path_getsize (p : string) : M nat :=
  emit (EvGetsize p);;
  fun w =>
    match fs w !! p with
    | None => (Raise (Exception "FileNotFoundError" p), w)
    | Some (Directory n) => (Next n, w)
    | Some (File b) => (Next (String.length b), w)
    end.

(** [df.head()]: the first five rows. *)
Definition head (df : DataFrame) : list (label * list cell) :=
  take 5 (zip (index df) (values df)).

Section Calls.
Context `{Runtime} `{Console}.

(** [json.load(file)]: read and decode the whole file, then parse. *)
Definition json_load (file : handle) : M pyval :=
  emit EvJsonLoad;;
  text <- lift (codec_decode (h_encoding file) (h_bytes file));;
  lift (json_loads text).

(** [df.to_csv(p, index=True, encoding=enc)]: the file is opened (created
    or truncated) and the text is written through the codec; an encoding
    error leaves what was written before it. *)
Definition to_csv (df : DataFrame) (p enc : string) : M unit :=
  emit (EvOpen p "w");;
  fun w =>
    if decide (p ∈ no_write w) then (Raise (Exception "PermissionError" p), w)
    else
      match fs w !! p with
      | Some (Directory _) => (Raise (Exception "IsADirectoryError" p), w)
      | _ =>
          match codec_encode enc (csv_text df) with
          | inr bytes => (Next tt, set_fs <[p := File bytes]> w)
          | inl (e, written) => (Raise e, set_fs <[p := File written]> w)
          end
      end.

(** ** [json_to_csv] (solution.py, lines 36-140) *)

Definition json_to_csv_body (json_file_path : string)
  (csv_file_path : option string) (encoding : string) : M unit :=
  try_except
    ((* step 1: the input must exist *)
     found <- os_path_exists json_file_path;;
     (if negb found
      then print (MsgMissing json_file_path);; return_ (PBool false)
      else ret tt);;
     print (MsgReading json_file_path);;
     (* step 2: read the JSON *)
     file <- open_r json_file_path encoding;;
     data <- json_load file;;
     (* step 3: one constructor per root kind *)
     df <- match data with
           | PDict d => lift (DataFrame_from_dict_index d)
           | PList l => lift (DataFrame_of_list None l)
           | _ => print MsgIncompatible;; return_ (PBool false)
           end;;
     (* step 4: the default output name *)
     let csv_file_path :=
       match csv_file_path with
       | None => path_stem json_file_path +:+ "_converted.csv"
       | Some p => p
       end in
     (* step 5: diagnostics *)
     print (MsgLoaded (shape df) (columns df));;
     print (MsgHead (head df));;
     (* step 6: write *)
     print (MsgSaving csv_file_path);;
     to_csv df csv_file_path encoding;;
     (* step 7: check the result *)
     created <- os_path_exists csv_file_path;;
     if created
     then
       file_size <- os_path_getsize csv_file_path;;
       print (MsgDone csv_file_path file_size);;
       return_ (PBool true)
     else
       print MsgNotCreated;;
       return_ (PBool false))
    (fun e =>
       match e with
       | JSONDecodeError _ => print (MsgDecodeError e);; return_ (PBool false)
       | Exception _ _ => print (MsgUnexpected e);; return_ (PBool false)
       end).

Definition json_to_csv (json_file_path : string)
  (csv_file_path : option string) (encoding : string)
  : world -> (exn + pyval) * world :=
  call (json_to_csv_body json_file_path csv_file_path encoding).
End Calls.

(** ** The script [main.py]

    The same conversion written as a module body: no test for the input
    before [open], fixed paths, three handlers. *)

Section Script.
Context `{Runtime} `{Console}.

Definition say (m : script_message) : M unit :=
  print (MsgScript m).

(** [raise json.JSONDecodeError] names the class without the three
    arguments its constructor requires, so what is raised is the
    [TypeError] of the failed instantiation. *)
Definition raise_JSONDecodeError_class {A} : M A :=
  raise (Exception "TypeError"
    "JSONDecodeError.__init__() missing 3 required positional arguments: 'msg', 'doc', and 'pos'").

Definition main_py (json_file_path csv_file_path : string) : M unit :=
  try_except
    (say ScriptBanner;;
     say (ScriptReading json_file_path);;
     file <- open_r json_file_path "utf-8";;
     data <- json_load file;;
     df <- match data with
           | PDict d => lift (DataFrame_from_dict_index d)
           | PList l => lift (DataFrame_of_list None l)
           | _ => say ScriptIncompatible;; raise_JSONDecodeError_class
           end;;
     say (ScriptHead (head df));;
     say (ScriptSaving csv_file_path);;
     to_csv df csv_file_path "utf-8";;
     say ScriptDone)
    (fun e =>
       match e with
       | Exception cls _ =>
           if decide (cls = "FileNotFoundError")
           then say (ScriptNotFound json_file_path)
           else say (ScriptUnexpected e)
       | JSONDecodeError _ => say ScriptIncompatible
       end).
End Script.

(** ** Vocabulary of the statements *)

(** The first occurrences of a list, in order. *)
Fixpoint first_seen {A} `{EqDecision A} (b : list A) : list A :=
  match b with
  | [] => []
  | x :: b' => x :: filter (fun y => y ≠ x) (first_seen b')
  end.

(** The entry of column [c] for row [r] in a dict of columns. *)
Definition entry (nd : list (string * list (string * pyval))) (c r : string)
  : option pyval :=
  dict_get nd c ≫= fun col => dict_get col r.

(** What [_from_nested_dict] builds when every value is a dict. *)
Definition nest (rows nd : list (string * list (string * pyval)))
  : list (string * list (string * pyval)) :=
  fold_left (fun acc kd => fold_left (nested_add (fst kd)) (snd kd) acc) rows nd.

(** A JSON object whose values are the objects [rows]. *)
Definition object_of (rows : list (string * list (string * pyval)))
  : list (string * pyval) :=
  map (fun kd => (fst kd, PDict (snd kd))) rows.

(** The inputs the converter is written for, with their rows: an array of
    objects, labelled by position, or an object of objects, labelled by
    key.  Keys of an object are distinct, as in every Python dict. *)
Inductive table_input : pyval -> list (label * list (string * pyval)) -> Prop :=
| array_of_objects ds :
    Forall (fun d => NoDup (keys d)) ds ->
    table_input (PList (map PDict ds)) (zip (default_index (length ds)) ds)
| object_of_objects rows :
    NoDup (keys rows) ->
    Forall (fun kd => NoDup (keys (snd kd))) rows ->
    table_input (PDict (object_of rows))
                (map (fun kd => (LStr (fst kd), snd kd)) rows).

(** The csv reader's view of a quoted field, after the opening quote: a
    doubled quote is a quote, a single one ends the field. *)
Fixpoint read_quoted (s : string) : string :=
  match s with
  | EmptyString => EmptyString
  | String c s' =>
      if Ascii.eqb c quotechar then
        match s' with
        | String d s'' =>
            if Ascii.eqb d quotechar then String d (read_quoted s'') else EmptyString
        | EmptyString => EmptyString
        end
      else String c (read_quoted s')
  end.

Definition read_field (s : string) : string :=
  match s with
  | String c s' => if Ascii.eqb c quotechar then read_quoted s' else s
  | EmptyString => s
  end.

(** All the keys of the rows, in reading order. *)
Definition all_keys {V} (ds : list (list (string * V))) : list string :=
  concat (map keys ds).

(** The events of a call up to the opening of the input, up to the parse,
    and from the table to the opening of the output. *)
Definition opening (inp : string) : list event :=
  [EvExists inp; EvPrint (MsgReading inp); EvOpen inp "r"].

Definition loading (inp : string) : list event :=
  [EvExists inp; EvPrint (MsgReading inp); EvOpen inp "r"; EvJsonLoad].

Definition saving (df : DataFrame) (p : string) : list event :=
  [EvPrint (MsgLoaded (shape df) (columns df)); EvPrint (MsgHead (head df));
   EvPrint (MsgSaving p); EvOpen p "w"].

(** The events of the script up to the opening of the input. *)
Definition script_opening (inp : string) : list event :=
  [EvPrint (MsgScript ScriptBanner); EvPrint (MsgScript (ScriptReading inp));
   EvOpen inp "r"].

(** How a statement may end: with an exception, with [return] of a boolean
    or, when [next] is set, by falling through to the next statement. *)
Definition ends_in {A} (next : bool) (c : completion A) : Prop :=
  match c with
  | Next _ => next = true
  | Return v => ∃ b, v = PBool b
  | Raise _ => True
  end.

(** A statement that does not return: it falls through or raises. *)
Definition falls {A} (c : completion A) : Prop :=
  match c with
  | Return _ => False
  | _ => True
  end.

(** The first element of a list that is not a dict. *)
Fixpoint first_stranger (l : list pyval) : option pyval :=
  match l with
  | [] => None
  | PDict _ :: l' => first_stranger l'
  | v :: _ => Some v
  end.

(** The roots that end in [False] before anything is written: neither an
    array nor an object, or an array that starts with an object and whose
    first element that is not one is a number, a boolean or [None]. *)
Definition rejected_shape (data : pyval) : bool :=
  match data with
  | PDict _ => false
  | PList (PDict _ :: l) =>
      match first_stranger l with
      | Some v => negb (is_iterable v)
      | None => false
      end
  | PList _ => false
  | _ => true
  end.

Section Vocabulary.
Context `{Runtime}.

(** The path the CSV goes to (step 4). *)
Definition output_path (json_file_path : string) (csv_file_path : option string)
  : string :=
  match csv_file_path with
  | None => path_stem json_file_path +:+ "_converted.csv"
  | Some p => p
  end.

(** The input exists, may be read, its encoding is known, it decodes, and
    parses to [data]. *)
Definition reads (w : world) (inp enc : string) (data : pyval) : Prop :=
  ∃ bytes text,
    fs w !! inp = Some (File bytes) ∧ (inp ∉ no_read w) ∧
    codec_lookup enc = true ∧
    codec_decode enc bytes = inr text ∧ json_loads text = inr data.

(** [p] may be opened for writing and [text] encodes to [bytes]. *)
Definition writes (w : world) (p enc text bytes : string) : Prop :=
  (p ∉ no_write w) ∧ (∀ n, fs w !! p ≠ Some (Directory n)) ∧
  codec_encode enc text = inr bytes.

(** The constructor chosen for the root value (step 3). *)
Definition table_of (data : pyval) : option (exn + DataFrame) :=
  match data with
  | PDict d => Some (DataFrame_from_dict_index d)
  | PList l => Some (DataFrame_of_list None l)
  | _ => None
  end.

(** The message of the handler that catches [e]. *)
Definition handler_message (e : exn) : message :=
  match e with
  | JSONDecodeError _ => MsgDecodeError e
  | Exception _ _ => MsgUnexpected e
  end.

(** Where the statements before the write arrive. *)
Inductive verdict :=
| VMissing
| VRaised (e : exn)
| VIncompatible
| VTable (df : DataFrame).

Definition load (w : world) (inp enc : string) : list event * verdict :=
  match fs w !! inp with
  | None => ([EvExists inp; EvPrint (MsgMissing inp)], VMissing)
  | Some n =>
      let opened := [EvExists inp; EvPrint (MsgReading inp); EvOpen inp "r"] in
      match n with
      | Directory _ => (opened, VRaised (Exception "IsADirectoryError" inp))
      | File b =>
          if decide (inp ∈ no_read w)
          then (opened, VRaised (Exception "PermissionError" inp))
          else if negb (codec_lookup enc)
          then (opened, VRaised (LookupError enc))
          else
            let loading := opened ++ [EvJsonLoad] in
            match codec_decode enc b with
            | inl e => (loading, VRaised e)
            | inr text =>
                match json_loads text with
                | inl e => (loading, VRaised e)
                | inr data =>
                    match table_of data with
                    | Some (inr df) => (loading, VTable df)
                    | Some (inl e) => (loading, VRaised e)
                    | None => (loading ++ [EvPrint MsgIncompatible], VIncompatible)
                    end
                end
            end
      end
  end.

(** The events of steps 5 to 7, the bytes left in the output file if it
    was opened, and whether the steps reached [return True]. *)
Definition save (w : world) (df : DataFrame) (p enc : string)
  : list event * option string * bool :=
  let saving := [EvPrint (MsgLoaded (shape df) (columns df));
                 EvPrint (MsgHead (head df)); EvPrint (MsgSaving p); EvOpen p "w"] in
  let refused e := (saving ++ [EvPrint (MsgUnexpected e)], None, false) in
  if decide (p ∈ no_write w) then refused (Exception "PermissionError" p)
  else
    match fs w !! p with
    | Some (Directory _) => refused (Exception "IsADirectoryError" p)
    | _ =>
        match codec_encode enc (csv_text df) with
        | inr bytes =>
            (saving ++ [EvExists p; EvGetsize p;
                        EvPrint (MsgDone p (String.length bytes))],
             Some bytes, true)
        | inl (e, written) =>
            (saving ++ [EvPrint (handler_message e)], Some written, false)
        end
    end.

(** The world after a call: one file written at most, events appended. *)
Definition after (w : world) (written : option (string * string))
  (evs : list event) : world :=
  mkWorld (match written with
           | Some (p, bytes) => <[p := File bytes]> (fs w)
           | None => fs w
           end) (no_read w) (no_write w) (log w ++ evs).

(** [json_to_csv] without the monad, on a standard output that takes every
    line. *)
Definition closed_form (inp : string) (out : option string) (enc : string)
  (w : world) : (exn + pyval) * world :=
  match load w inp enc with
  | (evs, VMissing) | (evs, VIncompatible) =>
      (inr (PBool false), after w None evs)
  | (evs, VRaised e) =>
      (inr (PBool false), after w None (evs ++ [EvPrint (handler_message e)]))
  | (evs, VTable df) =>
      let p := output_path inp out in
      let '(evs', written, ok) := save w df p enc in
      (inr (PBool ok), after w ((fun b => (p, b)) <$> written) (evs ++ evs'))
  end.

(** The record written for a row [d] labelled [lbl]: the label, then one
    field for each column of [cols], in that order. *)
Definition emitted (df : DataFrame) (cols : list string) (lbl : label)
  (d : list (string * pyval)) : list string :=
  label_text lbl ::
  imap (fun j c => cell_text (column_cells df j) (dict_get d c)) cols.
End Vocabulary.

(** ** A reference runtime

    CPython on a POSIX system, as far as the examples below need it: UTF-8
    files, the JSON grammar without [\u] escapes, paths separated by [/],
    a standard output that takes every line and one that encodes ASCII
    only.  The general theorems hold for every [Runtime] and [Console];
    these instances make them run on concrete files. *)
Module Ref.

Definition is_ws (c : ascii) : bool :=
  Ascii.eqb c " " || Ascii.eqb c "010" || Ascii.eqb c "013" || Ascii.eqb c "009".

Fixpoint skip_ws (s : string) : string :=
  match s with
  | String c s' => if is_ws c then skip_ws s' else s
  | EmptyString => s
  end.

Definition is_digit (c : ascii) : bool :=
  (48 <=? nat_of_ascii c)%nat && (nat_of_ascii c <=? 57)%nat.

Definition is_number_char (c : ascii) : bool :=
  is_digit c || str_mem c "+-.eE".

(** The longest prefix made of [p] characters, and the rest. *)
Fixpoint span (p : ascii -> bool) (s : string) : string * string :=
  match s with
  | String c s' =>
      if p c then let '(a, b) := span p s' in (String c a, b)
      else (EmptyString, s)
  | EmptyString => (EmptyString, EmptyString)
  end.

Fixpoint digits_value (acc : Z) (s : string) : Z :=
  match s with
  | String c s' => digits_value (10 * acc + (Z.of_nat (nat_of_ascii c) - 48)) s'
  | EmptyString => acc
  end.

Fixpoint str_forall (p : ascii -> bool) (s : string) : bool :=
  match s with
  | String c s' => p c && str_forall p s'
  | EmptyString => true
  end.

(** A JSON number: an integer literal is an [int], anything else a float
    whose text is kept as written. *)
Definition parse_number (lit : string) : option pyval :=
  let digits := match lit with String "-" d => d | _ => lit end in
  match digits with
  | EmptyString => None
  | String "0" (String _ _) =>
      if str_forall is_digit digits then None else Some (PFloat lit)
  | String c _ =>
      if negb (is_digit c) then None
      else if str_forall is_digit digits
      then Some (PInt (match lit with
                       | String "-" _ => - digits_value 0 digits
                       | _ => digits_value 0 digits
                       end))
      else Some (PFloat lit)
  end.

Definition unescape (c : ascii) : option ascii :=
  if Ascii.eqb c quotechar then Some quotechar
  else if Ascii.eqb c "\" then Some "\"%char
  else if Ascii.eqb c "/" then Some "/"%char
  else if Ascii.eqb c "n" then Some "010"%char
  else if Ascii.eqb c "r" then Some "013"%char
  else if Ascii.eqb c "t" then Some "009"%char
  else if Ascii.eqb c "b" then Some "008"%char
  else if Ascii.eqb c "f" then Some "012"%char
  else None.

(** The characters of a string literal after its opening quote. *)
Fixpoint parse_string (s : string) : option (string * string) :=
  match s with
  | EmptyString => None
  | String c rest =>
      if Ascii.eqb c quotechar then Some (EmptyString, rest)
      else if Ascii.eqb c "\" then
        match rest with
        | String e rest' =>
            match unescape e, parse_string rest' with
            | Some d, Some (body, tl) => Some (String d body, tl)
            | _, _ => None
            end
        | EmptyString => None
        end
      else if (nat_of_ascii c <? 32)%nat then None
      else
        match parse_string rest with
        | Some (body, tl) => Some (String c body, tl)
        | None => None
        end
  end.

Definition strip_prefix (p s : string) : option string :=
  if String.prefix p s
  then Some (String.substring (String.length p) (String.length s - String.length p) s)
  else None.

(** The three constants [json.loads] accepts beyond the grammar of JSON,
    each parsed to the float it names. *)
Definition parse_constant (t : string) : option (pyval * string) :=
  match strip_prefix "NaN" t, strip_prefix "Infinity" t,
        strip_prefix "-Infinity" t with
  | Some tl, _, _ => Some (PFloat "nan", tl)
  | _, Some tl, _ => Some (PFloat "inf", tl)
  | _, _, Some tl => Some (PFloat "-inf", tl)
  | _, _, _ => None
  end.

(** [strict] leaves the constants out: the grammar of RFC 8259. *)
Fixpoint parse_value (strict : bool) (fuel : nat) (s : string)
  : option (pyval * string) :=
  match fuel with
  | O => None
  | S fuel' =>
      match skip_ws s with
      | EmptyString => None
      | String c rest =>
          if Ascii.eqb c "{" then
            match skip_ws rest with
            | String "}" rest' => Some (PDict [], rest')
            | _ => parse_members strict fuel' rest []
            end
          else if Ascii.eqb c "[" then
            match skip_ws rest with
            | String "]" rest' => Some (PList [], rest')
            | _ => parse_elements strict fuel' rest []
            end
          else if Ascii.eqb c quotechar then
            match parse_string rest with
            | Some (body, tl) => Some (PStr body, tl)
            | None => None
            end
          else
            let t := String c rest in
            match strip_prefix "true" t, strip_prefix "false" t,
                  strip_prefix "null" t with
            | Some tl, _, _ => Some (PBool true, tl)
            | _, Some tl, _ => Some (PBool false, tl)
            | _, _, Some tl => Some (PNone, tl)
            | _, _, _ =>
                match (if strict then None else parse_constant t) with
                | Some r => Some r
                | None =>
                    let '(lit, tl) := span is_number_char t in
                    match parse_number lit with
                    | Some v => Some (v, tl)
                    | None => None
                    end
                end
            end
      end
  end
with parse_elements (strict : bool) (fuel : nat) (s : string) (acc : list pyval)
  : option (pyval * string) :=
  match fuel with
  | O => None
  | S fuel' =>
      match parse_value strict fuel' s with
      | Some (v, rest) =>
          match skip_ws rest with
          | String "," rest' => parse_elements strict fuel' rest' (acc ++ [v])
          | String "]" rest' => Some (PList (acc ++ [v]), rest')
          | _ => None
          end
      | None => None
      end
  end
with parse_members (strict : bool) (fuel : nat) (s : string)
  (acc : list (string * pyval)) : option (pyval * string) :=
  match fuel with
  | O => None
  | S fuel' =>
      match skip_ws s with
      | String c rest =>
          if Ascii.eqb c quotechar then
            match parse_string rest with
            | Some (k, tl) =>
                match skip_ws tl with
                | String ":" tl' =>
                    match parse_value strict fuel' tl' with
                    | Some (v, rest') =>
                        match skip_ws rest' with
                        | String "," rest'' =>
                            parse_members strict fuel' rest'' (dict_set acc k v)
                        | String "}" rest'' => Some (PDict (dict_set acc k v), rest'')
                        | _ => None
                        end
                    | None => None
                    end
                | _ => None
                end
            | None => None
            end
          else None
      | EmptyString => None
      end
  end.

Definition loads (s : string) : exn + pyval :=
  match parse_value false (2 * String.length s + 2) s with
  | Some (v, rest) =>
      match skip_ws rest with
      | EmptyString => inr v
      | _ => inl (JSONDecodeError "Extra data")
      end
  | None => inl (JSONDecodeError "Expecting value")
  end.

(** A text of the JSON grammar (RFC 8259): one value of the strict
    grammar, and white space. *)
Definition rfc8259 (s : string) : bool :=
  match parse_value true (2 * String.length s + 2) s with
  | Some (_, rest) => bool_decide (skip_ws rest = EmptyString)
  | None => false
  end.

Definition is_utf8 (enc : string) : bool :=
  bool_decide (enc = "utf-8") || bool_decide (enc = "utf8") || bool_decide (enc = "UTF-8").

Definition decode (enc bytes : string) : exn + string :=
  if is_utf8 enc then inr bytes else inl (LookupError enc).

Definition encode (enc text : string) : (exn * string) + string :=
  if is_utf8 enc then inr text else inl (LookupError enc, EmptyString).

(** [Path(p).stem] for a POSIX path: the last component that is neither
    empty nor [.], without its last suffix. *)
Fixpoint split_path (cur : string) (s : string) : list string :=
  match s with
  | EmptyString => [cur]
  | String c s' =>
      if Ascii.eqb c "/" then cur :: split_path EmptyString s'
      else split_path (cur +:+ String c EmptyString) s'
  end.

Definition path_name (p : string) : string :=
  List.last
    (filter (fun c => c ≠ EmptyString ∧ c ≠ ".") (split_path EmptyString p))
    EmptyString.

(** Position of the last [.] of [s], counted from the left. *)
Fixpoint rfind_dot (i : nat) (s : string) : option nat :=
  match s with
  | EmptyString => None
  | String c s' =>
      match rfind_dot (S i) s' with
      | Some j => Some j
      | None => if Ascii.eqb c "." then Some i else None
      end
  end.

Definition stem (p : string) : string :=
  let name := path_name p in
  match rfind_dot 0 name with
  | Some i =>
      if (0 <? i)%nat && (i <? String.length name - 1)%nat
      then String.substring 0 i name
      else name
  | None => name
  end.

Definition hex_digit (n : nat) : ascii :=
  ascii_of_nat (if (n <? 10)%nat then 48 + n else 87 + n).

Fixpoint repr_body (q : ascii) (s : string) : string :=
  match s with
  | EmptyString => EmptyString
  | String c s' =>
      (if Ascii.eqb c q || Ascii.eqb c "\" then String "\" (String c EmptyString)
       else if Ascii.eqb c "010" then "\n"
       else if Ascii.eqb c "013" then "\r"
       else if Ascii.eqb c "009" then "\t"
       else if (nat_of_ascii c <? 32)%nat || (nat_of_ascii c =? 127)%nat
       then String "\" (String "x" (String (hex_digit (nat_of_ascii c / 16))
              (String (hex_digit (nat_of_ascii c mod 16)) EmptyString)))
       else String c EmptyString) +:+ repr_body q s'
  end.

(** [repr] of a string: single quotes, unless the string has a single
    quote and no double quote. *)
Definition repr_str (s : string) : string :=
  let q := if str_mem "'" s && negb (str_mem quotechar s)
           then quotechar else "'"%char in
  String q (repr_body q s +:+ String q EmptyString).

Definition is_number (c : cell) : bool :=
  match c with
  | None | Some PNone | Some (PInt _) | Some (PFloat _) => true
  | _ => false
  end.

Definition is_int (c : cell) : bool :=
  match c with Some (PInt _) => true | _ => false end.

(** A column of numbers with a float or a hole in it has dtype float64,
    and its integers are written with a fraction (exact below 10^16). *)
Definition num_text (col : list cell) (v : pyval) : string :=
  match v with
  | PInt n =>
      if forallb is_number col && negb (forallb is_int col)
      then pretty n +:+ ".0"
      else pretty n
  | PBool b => if b then "True" else "False"
  | PFloat t => if bool_decide (t = "nan") then EmptyString else t
  | _ => EmptyString
  end.

Definition as_row (v : pyval) : exn + list pyval :=
  match v with
  | PList l => inr l
  | _ => inl (Exception "TypeError"
                ("object of type '" +:+ type_name v +:+ "' has no len()"))
  end.

Fixpoint as_rows (data : list pyval) : exn + list (list pyval) :=
  match data with
  | [] => inr []
  | v :: data' =>
      match as_row v, as_rows data' with
      | inr r, inr rs => inr (r :: rs)
      | inl e, _ => inl e
      | _, inl e => inl e
      end
  end.

(** [dict(x)] for an element of a list that starts with a dict.  A
    sequence must be made of pairs; the keys of the pairs are taken as
    their text. *)
Definition key_text (v : pyval) : exn + string :=
  match v with
  | PStr k => inr k
  | PInt n => inr (pretty n)
  | PFloat t => inr t
  | PBool b => inr (if b then "True" else "False")
  | PNone => inr "None"
  | _ => inl (Exception "TypeError" ("unhashable type: '" +:+ type_name v +:+ "'"))
  end.

Definition not_a_pair (i n : nat) : exn :=
  Exception "ValueError"
    ("dictionary update sequence element #" +:+ pretty (Z.of_nat i) +:+
     " has length " +:+ pretty (Z.of_nat n) +:+ "; 2 is required").

Definition pair_of (i : nat) (item : pyval) : exn + (string * pyval) :=
  match item with
  | PList [k; v] =>
      match key_text k with
      | inr text => inr (text, v)
      | inl e => inl e
      end
  | PList l => inl (not_a_pair i (length l))
  | PStr (String a (String b EmptyString)) =>
      inr (String a EmptyString, PStr (String b EmptyString))
  | PStr s => inl (not_a_pair i (String.length s))
  | PDict [(k1, _); (k2, _)] => inr (k1, PStr k2)
  | PDict d => inl (not_a_pair i (length d))
  | _ =>
      inl (Exception "TypeError"
             ("cannot convert dictionary update sequence element #" +:+
              pretty (Z.of_nat i) +:+ " to a sequence"))
  end.

Fixpoint pairs_of (i : nat) (items : list pyval) (acc : list (string * pyval))
  : exn + list (string * pyval) :=
  match items with
  | [] => inr acc
  | item :: items' =>
      match pair_of i item with
      | inr (k, v) => pairs_of (S i) items' (dict_set acc k v)
      | inl e => inl e
      end
  end.

Definition dict_of (v : pyval) : exn + list (string * pyval) :=
  match v with
  | PDict d => inr d
  | PList items => pairs_of 0 items []
  | PStr s =>
      pairs_of 0 (map (fun c => PStr (String c EmptyString)) (list_ascii_of_string s)) []
  | _ => inl (TypeError_not_iterable v)
  end.

Fixpoint dicts_of (data : list pyval) : exn + list (list (string * pyval)) :=
  match data with
  | [] => inr []
  | v :: data' =>
      match dict_of v with
      | inr d =>
          match dicts_of data' with
          | inr ds => inr (d :: ds)
          | inl e => inl e
          end
      | inl e => inl e
      end
  end.

(** Lists of lists are rows, padded with [NaN] to the longest one; a list
    that starts with a dict is a list of rows, each element taken through
    [dict]; a list of scalars and containers is one column of objects. *)
Definition irregular (idx : option (list label)) (data : list pyval)
  : exn + DataFrame :=
  match data with
  | PDict _ :: _ =>
      match dicts_of data with
      | inr rows => inr (frame_of_records idx rows)
      | inl e => inl e
      end
  | PList _ :: _ =>
      match as_rows data with
      | inr rows =>
          let width := foldr (fun r n => Nat.max (length r) n) 0%nat rows in
          inr (mkFrame (default (default_index (length rows)) idx)
                       (default_index width)
                       (map (fun r => map (fun j => r !! j) (seq 0 width)) rows))
      | inl e => inl e
      end
  | _ => inr (frame_of_scalars idx data)
  end.

#[global] Instance runtime : Runtime := {|
  codec_lookup := is_utf8;
  codec_lookup_utf8 := eq_refl;
  codec_decode := decode;
  codec_encode := encode;
  json_loads := loads;
  path_stem := stem;
  str_repr := repr_str;
  number_text := num_text;
  frame_irregular := irregular;
  linesep := String "010" EmptyString
|}.

(** A standard output that takes every line: a UTF-8 terminal. *)
Definition console : Console := fun _ => None.

Definition console_encodes : @Encodes console := fun _ => eq_refl.




(** JSON text written with [']' for the double quote. *)
Fixpoint json (s : string) : string :=
  match s with
  | EmptyString => EmptyString
  | String c s' => String (if Ascii.eqb c "'" then quotechar else c) (json s')
  end.

(** A world with the given files, all permissions, and an empty log. *)
Definition disk (files : list (string * string)) : world :=
  mkWorld (list_to_map (map (fun f => (fst f, File (snd f))) files)) ∅ ∅ [].

(** What a call leaves in a file. *)
Definition file_at (p : string) (w : world) : option string :=
  match fs w !! p with
  | Some (File b) => Some b
  | _ => None
  end.

(** A text file given by its lines, each ended by a line feed. *)
Definition lines (l : list string) : string :=
  String.concat EmptyString (map (fun s => s +:+ String "010" EmptyString) l).

(** The two documents of the specification's examples, on disk. *)
Definition pokedex_array : world :=
  disk [("dataset/pokedex.json",
         json "[{'name':'Bulbasaur','type':'Grass'},{'name':'Charmander','hp':39,'type':'Fire'}]")].

Definition pokedex_object : world :=
  disk [("dataset/pokedex.json",
         json "{'001':{'name':'Bulbasaur'},'004':{'name':'Charmander'}}")].

End Ref.

(** ** The callers

    [main()] of [solution.py] and the script [OtraVersion/json_a_csv.py] use
    the same primitives and print lines of their own.  Their steps are
    recorded in one trace: what the primitives and [json_to_csv] log, the
    lines the caller prints, and the directories it creates. *)

Inductive step :=
| Inner (ev : event)
| Said (m : caller_message)
| Makedirs (path : string).

Record session := mkSession {
  s_fs : gmap string node;
  s_no_read : gset string;
  s_no_write : gset string;
  trace : list step
}.

Definition Caller (A : Type) : Type := session -> completion A * session.

Definition retC {A} (a : A) : Caller A := fun s => (Next a, s).

Definition bindC {A B} (m : Caller A) (k : A -> Caller B) : Caller B :=
  fun s =>
    match m s with
    | (Next a, s') => k a s'
    | (Return v, s') => (Return v, s')
    | (Raise e, s') => (Raise e, s')
    end.

Definition add_step (st : step) (s : session) : session :=
  mkSession (s_fs s) (s_no_read s) (s_no_write s) (trace s ++ [st]).

(** [print] in a caller: the same standard output. *)
Definition tell `{Console} (m : caller_message) : Caller unit :=
  fun s =>
    match stdout_error (MsgCaller m) with
    | Some e => (Raise e, s)
    | None => (Next tt, add_step (Said m) s)
    end.

(** The world a primitive sees, and the session after it: its events join
    the trace. *)
Definition world_of (s : session) : world :=
  mkWorld (s_fs s) (s_no_read s) (s_no_write s) [].

Definition absorb (s : session) (w : world) : session :=
  mkSession (fs w) (no_read w) (no_write w) (trace s ++ map Inner (log w)).

Definition inner {A} (m : M A) : Caller A :=
  fun s => let '(c, w) := m (world_of s) in (c, absorb s w).

(** A call of a function of the program from a caller: its value, or its
    exception raised again at the call site. *)
Definition call_function (f : world -> (exn + pyval) * world) : Caller pyval :=
  fun s =>
    match f (world_of s) with
    | (inr v, w) => (Next v, absorb s w)
    | (inl e, w) => (Raise e, absorb s w)
    end.

(** Running a caller to its end. *)
Definition run_caller (body : Caller unit) (s : session)
  : (exn + pyval) * session :=
  match body s with
  | (Next _, s') => (inr PNone, s')
  | (Return v, s') => (inr v, s')
  | (Raise e, s') => (inl e, s')
  end.

Declare Scope caller_scope.
Delimit Scope caller_scope with caller.
Notation "x <- m ;; k" := (bindC m (fun x => k))
  (at level 100, m at next level, k at level 200, right associativity) : caller_scope.
Notation "m ;; k" := (bindC m (fun _ => k))
  (at level 100, k at level 200, right associativity) : caller_scope.

(** [bool(v)]: the truth value [if v:] tests. *)
Definition truthy (v : pyval) : bool :=
  match v with
  | PNone => false
  | PBool b => b
  | PInt n => negb (Z.eqb n 0)
  | PFloat t => negb (bool_decide (t = "0.0") || bool_decide (t = "-0.0"))
  | PStr s => negb (bool_decide (s = EmptyString))
  | PList l => match l with [] => false | _ => true end
  | PDict d => match d with [] => false | _ => true end
  end.

(** [posixpath.join]: a component that starts with the separator replaces
    what stands before it; otherwise it is appended, after a separator
    unless the path is empty or ends with one. *)
Definition starts_with_sep (s : string) : bool :=
  match s with
  | String c _ => Ascii.eqb c "/"
  | EmptyString => false
  end.

Fixpoint ends_with_sep (s : string) : bool :=
  match s with
  | EmptyString => false
  | String c EmptyString => Ascii.eqb c "/"
  | String _ s' => ends_with_sep s'
  end.

Definition join_component (path b : string) : string :=
  if starts_with_sep b then b
  else if bool_decide (path = EmptyString) || ends_with_sep path then path +:+ b
  else path +:+ "/" +:+ b.

Definition os_path_join (a : string) (p : list string) : string :=
  fold_left join_component p a.

(** [df.to_csv(index=False)]: the column names, then the cells of each
    row. *)
Section CsvNoIndex.
Context `{Runtime}.

Definition csv_records_no_index (df : DataFrame) : list (list string) :=
  map label_text (columns df) ::
  map (fun row => imap (fun j c => cell_text (column_cells df j) c) row) (values df).

Definition csv_text_no_index (df : DataFrame) : string :=
  String.concat EmptyString (map writerow (csv_records_no_index df)).

(** [df.to_csv(p, index=False)], with pandas' default encoding. *)
Definition to_csv_no_index (df : DataFrame) (p : string) : M unit :=
  emit (EvOpen p "w");;
  fun w =>
    if decide (p ∈ no_write w) then (Raise (Exception "PermissionError" p), w)
    else
      match fs w !! p with
      | Some (Directory _) => (Raise (Exception "IsADirectoryError" p), w)
      | _ =>
          match codec_encode "utf-8" (csv_text_no_index df) with
          | inr bytes => (Next tt, set_fs <[p := File bytes]> w)
          | inl (e, written) => (Raise e, set_fs <[p := File written]> w)
          end
      end.
End CsvNoIndex.

(** The values of a dict as dicts, if they all are. *)
Fixpoint as_columns (d : list (string * pyval))
  : option (list (string * list (string * pyval))) :=
  match d with
  | [] => Some []
  | (k, PDict col) :: d' =>
      match as_columns d' with
      | Some cols => Some ((k, col) :: cols)
      | None => None
      end
  | _ :: _ => None
  end.

Section Callers.
Context `{Runtime} `{Console}.

(** Size the file system reports for a directory it has just created. *)
Variable new_directory_size : nat.

(** [pd.DataFrame(d)] for a dict that is neither a dict of dicts nor a dict
    of scalars. *)
Variable frame_of_mixed_dict : list (string * pyval) -> exn + DataFrame.

(** [os.makedirs(p, exist_ok=True)] *)
Definition os_makedirs (p : string) : Caller unit :=
  fun s =>
    let s' := add_step (Makedirs p) s in
    match s_fs s !! p with
    | Some (Directory _) => (Next tt, s')
    | Some (File _) => (Raise (Exception "FileExistsError" p), s')
    | None =>
        if decide (p ∈ s_no_write s)
        then (Raise (Exception "PermissionError" p), s')
        else (Next tt,
              mkSession (<[p := Directory new_directory_size]> (s_fs s))
                        (s_no_read s) (s_no_write s) (trace s'))
    end.

(** ** [main()] (solution.py, lines 143-199)

    [current_dir] is [os.path.dirname(os.path.abspath(__file__))]. *)
Definition main (current_dir : string) : Caller unit :=
  (tell MainBanner;;
   let datasets_folder := "dataset" in
   let json_input_filename := "pokemonDB_dataset.json" in
   let csv_output_filename := "pokemonDB_converted.csv" in
   let json_file_path :=
     os_path_join current_dir [datasets_folder; json_input_filename] in
   let csv_file_path :=
     os_path_join current_dir [datasets_folder; csv_output_filename] in
   let dataset_path := os_path_join current_dir [datasets_folder] in
   found <- inner (os_path_exists dataset_path);;
   (if negb found
    then tell (MainFolderMissing datasets_folder);;
         os_makedirs dataset_path;;
         tell (MainFolderCreated datasets_folder)
    else retC tt);;
   success <- call_function (json_to_csv json_file_path (Some csv_file_path) "utf-8");;
   if truthy success
   then tell (MainSuccess json_input_filename csv_output_filename)
   else tell MainFailure)%caller.

(** ** [OtraVersion/json_a_csv.py] *)

(** [pd.DataFrame(data)] for a dict: the keys are the columns.  For a dict
    of dicts no row labels are given, and they are the union of the inner
    keys, first seen first ([union_indexes(indexes, sort=False)]). *)
Definition DataFrame_of_dict (d : list (string * pyval)) : exn + DataFrame :=
  match as_columns d with
  | Some cols =>
      inr (frame_of_nested
             (fast_unique_multiple_list (map (fun c => keys (snd c)) cols)) cols)
  | None =>
      if forallb (fun kv => negb (is_list_like (snd kv))) d
      then inl (Exception "ValueError"
                  "If using all scalar values, you must pass an index")
      else frame_of_mixed_dict d
  end.

(** [pd.DataFrame(data)] for whatever the document holds. *)
Definition DataFrame_of (data : pyval) : exn + DataFrame :=
  match data with
  | PList l => DataFrame_of_list None l
  | PDict d => DataFrame_of_dict d
  | PNone => inr empty_frame
  | _ => inl (Exception "ValueError" "DataFrame constructor not properly called!")
  end.

Definition json_a_csv : Caller unit :=
  (let ENTRADA_JSON := "datos.json" in
   let SALIDA_CSV := "salida.csv" in
   f <- inner (open_r ENTRADA_JSON "utf-8");;
   data <- inner (json_load f);;
   df <- inner (lift (DataFrame_of data));;
   inner (to_csv_no_index df SALIDA_CSV);;
   tell (OtraGenerated SALIDA_CSV))%caller.
End Callers.

(** ** Vocabulary of the callers *)

(** The three paths [main()] computes from the directory of the script. *)
Definition dataset_path (current_dir : string) : string :=
  os_path_join current_dir ["dataset"].

Definition json_path (current_dir : string) : string :=
  os_path_join current_dir ["dataset"; "pokemonDB_dataset.json"].

Definition csv_path (current_dir : string) : string :=
  os_path_join current_dir ["dataset"; "pokemonDB_converted.csv"].

(** What [join] puts before a relative component. *)
Definition joint (path : string) : string :=
  if bool_decide (path = EmptyString) || ends_with_sep path then path else path +:+ "/".

(** The conversion [main()] asks for, seen from a session. *)
Definition conversion `{Runtime} `{Console} (cd : string) (s : session) : (exn + pyval) * world :=
  json_to_csv (json_path cd) (Some (csv_path cd)) "utf-8" (world_of s).

(** The last line of [main()]. *)
Definition verdict_line (b : bool) : caller_message :=
  if b then MainSuccess "pokemonDB_dataset.json" "pokemonDB_converted.csv"
  else MainFailure.

(** The session once [main()] has found or made the folder. *)
Definition with_folder (size : nat) (cd : string) (s : session) : session :=
  match s_fs s !! dataset_path cd with
  | Some _ =>
      mkSession (s_fs s) (s_no_read s) (s_no_write s)
        (trace s ++ [Said MainBanner; Inner (EvExists (dataset_path cd))])
  | None =>
      mkSession (<[dataset_path cd := Directory size]> (s_fs s))
        (s_no_read s) (s_no_write s)
        (trace s ++ [Said MainBanner; Inner (EvExists (dataset_path cd));
                     Said (MainFolderMissing "dataset"); Makedirs (dataset_path cd);
                     Said (MainFolderCreated "dataset")])
  end.

(** The boolean a conversion answers. *)
Definition answer `{Runtime} (w : world) (inp out enc : string) : bool :=
  match (load w inp enc).2 with
  | VTable df => (save w df out enc).2
  | _ => false
  end.

(** The files a conversion leaves: those it found, and the CSV if the write
    got as far as opening it. *)
Definition files_after `{Runtime} (w : world) (inp out enc : string)
  : gmap string node :=
  match (load w inp enc).2 with
  | VTable df =>
      match (save w df out enc).1.2 with
      | Some bytes => <[out := File bytes]> (fs w)
      | None => fs w
      end
  | _ => fs w
  end.

(** ** Sessions for the examples *)

Module Home.

(** A session on the given files, all permissions, nothing done yet. *)
Definition session_of (files : list (string * node)) : session :=
  mkSession (list_to_map files) ∅ ∅ [].

(** The size ext4 reports for a new directory. *)
Definition new_directory_size : nat := 4096.

(** pandas refuses a dict that mixes dicts with other values. *)
Definition frame_of_mixed_dict (d : list (string * pyval)) : exn + DataFrame :=
  inl (Exception "ValueError"
         "Mixing dicts with non-Series may lead to ambiguous ordering.").

(** The directory of the script and the Pokédex of the examples in its
    [dataset] folder. *)
Definition here : string := "/home/ude".

Definition with_dataset : session :=
  session_of
    [("/home/ude/dataset", Directory 4096);
     ("/home/ude/dataset/pokemonDB_dataset.json",
      File (Ref.json "[{'name':'Bulbasaur','type':'Grass'},{'name':'Charmander','hp':39,'type':'Fire'}]"))].

End Home.

(** * Properties *)

Section FastUnique.
Context {A : Type} `{EqDecision A}.
Implicit Types (u b : list A).

Lemma fast_unique_app u b1 b2 :
  fast_unique u (b1 ++ b2) = fast_unique (fast_unique u b1) b2.
Proof. revert u. induction b1 as [|x b1 IH]; intros u; simpl; [done|]. apply IH. Qed.

Lemma fast_unique_multiple_list_concat (ls : list (list A)) :
  fast_unique_multiple_list ls = fast_unique [] (concat ls).
Proof.
  unfold fast_unique_multiple_list. generalize (@nil A) as u.
  induction ls as [|l ls IH]; intros u; simpl; [done|].
  rewrite IH, fast_unique_app. done.
Qed.

Lemma fast_unique_first_seen u b :
  fast_unique u b = u ++ filter (fun y => y ∉ u) (first_seen b).
Proof.
  revert u. induction b as [|x b IH]; intros u; simpl.
  - by rewrite app_nil_r.
  - rewrite IH. destruct (decide (x ∈ u)) as [Hx|Hx].
    + rewrite filter_cons_False by (intros ?; done).
      f_equal. rewrite list_filter_filter. apply list_filter_iff.
      intros y. split; [|tauto]. intros Hy. split; [done|]. intros ->. done.
    + rewrite filter_cons_True by done. rewrite <- app_assoc. simpl. do 2 f_equal.
      rewrite list_filter_filter. apply list_filter_iff.
      intros y. rewrite elem_of_app, list_elem_of_singleton. tauto.
Qed.

Lemma fast_unique_nil b : fast_unique [] b = first_seen b.
Proof.
  rewrite fast_unique_first_seen. simpl.
  induction (first_seen b) as [|y l IH]; [done|].
  rewrite filter_cons_True by apply not_elem_of_nil. by rewrite IH.
Qed.

Lemma elem_of_first_seen b x : x ∈ first_seen b ↔ x ∈ b.
Proof.
  induction b as [|y b IH]; simpl; [done|].
  rewrite !elem_of_cons, list_elem_of_filter, IH.
  destruct (decide (x = y)); tauto.
Qed.

Lemma NoDup_first_seen b : NoDup (first_seen b).
Proof.
  induction b as [|y b IH]; simpl; [constructor|].
  constructor; [|by apply NoDup_filter].
  rewrite list_elem_of_filter. tauto.
Qed.

Lemma filter_eq_cons_app (P : A -> Prop) `{!∀ x, Decision (P x)} l a x r :
  filter P l = a ++ x :: r →
  ∃ a' r', l = a' ++ x :: r' ∧ filter P a' = a ∧ filter P r' = r ∧ P x.
Proof.
  revert a. induction l as [|y l IH]; intros a Hf.
  - by destruct a.
  - rewrite filter_cons in Hf. destruct (decide (P y)) as [Hy|Hy].
    + destruct a as [|z a]; simpl in Hf.
      * injection Hf as -> Hr. exists [], l. by rewrite filter_nil.
      * injection Hf as -> Hr. destruct (IH _ Hr) as (a' & r' & -> & Ha & Hr' & Hx).
        exists (z :: a'), r'. rewrite filter_cons_True by done. by rewrite Ha.
    + destruct (IH _ Hf) as (a' & r' & -> & Ha & Hr' & Hx).
      exists (y :: a'), r'. by rewrite filter_cons_False.
Qed.

(** In [first_seen b], [x] stands before [y] only if [x] occurs in [b]
    before any occurrence of [y]. *)
Lemma first_seen_order b l1 x l2 y l3 :
  first_seen b = l1 ++ x :: l2 ++ y :: l3 →
  ∃ pre post, b = pre ++ x :: post ∧ (x ∉ pre) ∧ (y ∉ pre).
Proof.
  revert l1 l2 l3. induction b as [|z b IH]; intros l1 l2 l3 Hb; simpl in Hb.
  - by destruct l1.
  - destruct l1 as [|z' l1]; simpl in Hb.
    + injection Hb as -> _. exists [], b. split_and!; [done|apply not_elem_of_nil..].
    + injection Hb as <- Hb.
      apply filter_eq_cons_app in Hb as (a' & r' & Hfs & _ & Hr & Hx).
      apply filter_eq_cons_app in Hr as (a'' & r'' & -> & _ & _ & Hy).
      destruct (IH _ _ _ Hfs) as (pre & post & -> & Hxp & Hyp).
      exists (z :: pre), post. split_and!; [done|..]; rewrite not_elem_of_cons; done.
Qed.
End FastUnique.

Section Dict.
Context {V : Type}.
Implicit Types (d : list (string * V)) (k : string) (v : V).

Lemma dict_get_Some_elem d k v : dict_get d k = Some v → (k, v) ∈ d.
Proof.
  induction d as [|[k' v'] d IH]; simpl; [done|].
  destruct (decide (k' = k)) as [->|]; intros Hg.
  - injection Hg as ->. apply list_elem_of_here.
  - apply list_elem_of_further. auto.
Qed.

Lemma dict_get_None d k : dict_get d k = None ↔ k ∉ keys d.
Proof.
  unfold keys. induction d as [|[k' v'] d IH]; simpl.
  - split; [intros _; apply not_elem_of_nil|done].
  - rewrite not_elem_of_cons. destruct (decide (k' = k)) as [->|Hne].
    + split; [done|]. intros [? _]. done.
    + rewrite IH. split; [intros ?; split; [congruence|done]|tauto].
Qed.

Lemma dict_get_is_Some d k : is_Some (dict_get d k) ↔ k ∈ keys d.
Proof.
  rewrite <- not_eq_None_Some, dict_get_None.
  destruct (decide (k ∈ keys d)); tauto.
Qed.

Lemma dict_get_elem d k v : NoDup (keys d) → (k, v) ∈ d → dict_get d k = Some v.
Proof.
  unfold keys. induction d as [|[k' v'] d IH]; simpl; intros Hnd Hin.
  - by apply elem_of_nil in Hin.
  - apply NoDup_cons in Hnd as [Hk' Hnd]. apply elem_of_cons in Hin as [Heq|Hin].
    + injection Heq as -> ->. by rewrite decide_True.
    + rewrite decide_False; [auto|]. intros ->. apply Hk'.
      change (k ∈ fst <$> d). apply list_elem_of_fmap. by exists (k, v).
Qed.

Lemma dict_get_set d k v k' :
  dict_get (dict_set d k v) k' = if decide (k = k') then Some v else dict_get d k'.
Proof.
  induction d as [|[k0 v0] d IH]; simpl.
  - done.
  - destruct (decide (k0 = k)) as [->|Hne]; simpl.
    + destruct (decide (k = k')); done.
    + rewrite IH. destruct (decide (k0 = k')) as [->|]; [|done].
      by rewrite decide_False by done.
Qed.

Lemma keys_dict_set d k v :
  keys (dict_set d k v) = fast_unique (keys d) [k].
Proof.
  unfold keys. simpl. induction d as [|[k0 v0] d IH]; simpl.
  - done.
  - destruct (decide (k0 = k)) as [->|Hne]; simpl.
    + rewrite decide_True by apply list_elem_of_here. done.
    + rewrite IH. destruct (decide (k ∈ map fst d)) as [Hk|Hk].
      * rewrite decide_True by (by apply list_elem_of_further). done.
      * rewrite decide_False; [done|]. rewrite not_elem_of_cons. split; [congruence|done].
Qed.
End Dict.

Section Nested.
Context `{Runtime}.
Implicit Types (nd : list (string * list (string * pyval))).
Implicit Types (rows : list (string * list (string * pyval))).

Lemma from_nested_dict_objects rows nd :
  from_nested_dict nd (object_of rows) = inr (nest rows nd).
Proof.
  revert nd. induction rows as [|[k d] rows IH]; intros nd; simpl; [done|]. apply IH.
Qed.

Lemma entry_nested_add idx nd item c r :
  entry (nested_add idx nd item) c r =
  if decide (fst item = c ∧ idx = r) then Some (snd item) else entry nd c r.
Proof.
  unfold entry, nested_add. rewrite dict_get_set.
  destruct (decide (fst item = c)) as [->|Hc]; simpl.
  - rewrite dict_get_set. destruct (decide (idx = r)) as [->|Hr].
    + by rewrite decide_True.
    + rewrite decide_False by tauto. by destruct (dict_get nd c).
  - by rewrite decide_False by tauto.
Qed.

Lemma keys_fold_nested_add idx s nd :
  keys (fold_left (nested_add idx) s nd) = fast_unique (keys nd) (keys s).
Proof.
  revert nd. induction s as [|[c v] s IH]; intros nd; simpl; [done|].
  rewrite IH. unfold nested_add at 1. by rewrite keys_dict_set.
Qed.

Lemma entry_fold_nested_add idx s nd c r :
  NoDup (keys s) →
  entry (fold_left (nested_add idx) s nd) c r =
  if decide (idx = r)
  then match dict_get s c with Some v => Some v | None => entry nd c r end
  else entry nd c r.
Proof.
  revert nd. induction s as [|[c' v] s IH]; intros nd Hnd; simpl.
  - by destruct (decide (idx = r)).
  - apply NoDup_cons in Hnd as [Hc' Hnd]. rewrite IH by done.
    rewrite entry_nested_add. simpl.
    destruct (decide (idx = r)) as [->|Hr].
    + destruct (decide (c' = c)) as [->|Hc].
      * rewrite decide_True by done. simpl in Hc'.
        apply dict_get_None in Hc'. by rewrite Hc'.
      * by rewrite decide_False by tauto.
    + by rewrite decide_False by tauto.
Qed.

Lemma keys_nest rows nd :
  keys (nest rows nd) = fold_left fast_unique (map (fun kd => keys (snd kd)) rows) (keys nd).
Proof.
  revert nd. induction rows as [|[k d] rows IH]; intros nd; simpl; [done|].
  unfold nest in IH. by rewrite IH, keys_fold_nested_add.
Qed.

Lemma entry_nest rows nd c r :
  NoDup (keys rows) →
  Forall (fun kd => NoDup (keys (snd kd))) rows →
  entry (nest rows nd) c r =
  match dict_get rows r ≫= fun d => dict_get d c with
  | Some v => Some v
  | None => entry nd c r
  end.
Proof.
  revert nd. induction rows as [|[k d] rows IH]; intros nd Hnd Hall; simpl; [done|].
  apply NoDup_cons in Hnd as [Hk Hnd]. apply Forall_cons in Hall as [Hd Hall].
  unfold nest in IH. rewrite IH by done. rewrite entry_fold_nested_add by done.
  destruct (decide (k = r)) as [->|Hr]; simpl.
  - simpl in Hk. apply dict_get_None in Hk. rewrite Hk. simpl. done.
  - destruct (dict_get rows r ≫= _); done.
Qed.
End Nested.

(** In the sections that assume [Encodes], standard output takes every
    line: what is stated there is stated of a run on such a terminal.  What
    happens when a line is refused is the subject of the section
    [Exceptions]. *)

Section Run.
Context `{Runtime} `{Console} `{!Encodes}.

Lemma print_emit m : print m = emit (EvPrint m).
Proof. unfold print. by rewrite stdout_encodes. Qed.

Ltac use_eqs :=
  repeat match goal with
         | Heq : ?x = _ |- context [?x] => rewrite Heq
         end.

Ltac run :=
  repeat (simpl; rewrite ?print_emit;
          unfold bind, emit, return_, raise, ret, lift, add_log, set_fs,
            open_r, json_load, to_csv, os_path_getsize, os_path_exists;
          simpl; use_eqs).

Ltac same_log := run; repeat rewrite <- app_assoc; simpl; reflexivity.

Lemma json_to_csv_closed_form inp out enc w :
  json_to_csv inp out enc w = closed_form inp out enc w.
Proof.
  destruct w as [f nr nw lg].
  unfold closed_form, load, save, json_to_csv, call, json_to_csv_body, try_except, after,
    output_path.
  run.
  destruct (f !! inp) as [[b|n]|] eqn:Hin; run; [|same_log..].
  destruct (decide (inp ∈ nr)); run; [same_log|].
  destruct (codec_lookup enc); run; [|same_log].
  destruct (codec_decode enc b) as [e1|text]; run; [destruct e1; same_log|].
  destruct (json_loads text) as [e2|data]; run; [destruct e2; same_log|].
  set (p := match out with Some p => p | None => path_stem inp +:+ "_converted.csv" end).
  generalize dependent p; intros p.
  destruct data as [| | | | |l|d]; try same_log.
  - simpl. destruct (DataFrame_of_list None l) as [e3|df]; run; [destruct e3; same_log|].
    destruct (decide (p ∈ nw)); run; [same_log|].
    destruct (f !! p) as [[b'|n']|] eqn:Hout; run; try same_log.
    + destruct (codec_encode enc (csv_text df)) as [[e4 wr]|bytes]; run; [destruct e4; same_log|].
      repeat (rewrite lookup_insert_eq; run). same_log.
    + destruct (codec_encode enc (csv_text df)) as [[e4 wr]|bytes]; run; [destruct e4; same_log|].
      repeat (rewrite lookup_insert_eq; run). same_log.
  - simpl. destruct (DataFrame_from_dict_index d) as [e3|df]; run; [destruct e3; same_log|].
    destruct (decide (p ∈ nw)); run; [same_log|].
    destruct (f !! p) as [[b'|n']|] eqn:Hout; run; try same_log.
    + destruct (codec_encode enc (csv_text df)) as [[e4 wr]|bytes]; run; [destruct e4; same_log|].
      repeat (rewrite lookup_insert_eq; run). same_log.
    + destruct (codec_encode enc (csv_text df)) as [[e4 wr]|bytes]; run; [destruct e4; same_log|].
      repeat (rewrite lookup_insert_eq; run). same_log.
Qed.
End Run.

Section Frames.
Context `{Runtime}.
Implicit Types (ds : list (list (string * pyval))).
Implicit Types (rows : list (string * list (string * pyval))).

Lemma records_objects ds : records (map PDict ds) = Some (inr ds).
Proof. induction ds as [|d ds IH]; simpl; [done|]. by rewrite IH. Qed.

Lemma DataFrame_of_list_objects ds :
  DataFrame_of_list None (map PDict ds) = inr (frame_of_records None ds).
Proof.
  destruct ds as [|d ds]; [done|].
  unfold DataFrame_of_list. change (map PDict (d :: ds)) with (PDict d :: map PDict ds).
  cbv iota beta. change (PDict d :: map PDict ds) with (map PDict (d :: ds)).
  by rewrite records_objects.
Qed.

Lemma keys_object_of rows : keys (object_of rows) = keys rows.
Proof. unfold keys, object_of. rewrite map_map. by apply map_ext. Qed.

Lemma DataFrame_from_dict_index_objects rows :
  DataFrame_from_dict_index (object_of rows) =
  inr (frame_of_nested (keys rows) (nest rows [])).
Proof.
  destruct rows as [|[k d] rows]; [done|].
  unfold DataFrame_from_dict_index.
  change (object_of ((k, d) :: rows)) with ((k, PDict d) :: object_of rows).
  cbv iota beta. change ((k, PDict d) :: object_of rows) with (object_of ((k, d) :: rows)).
  by rewrite from_nested_dict_objects, keys_object_of.
Qed.

Lemma columns_frame_of_records idx ds :
  columns (frame_of_records idx ds) = map LStr (first_seen (all_keys ds)).
Proof.
  unfold frame_of_records. simpl.
  by rewrite fast_unique_multiple_list_concat, fast_unique_nil.
Qed.

Lemma keys_nest_nil rows :
  keys (nest rows []) = first_seen (all_keys (map snd rows)).
Proof.
  rewrite keys_nest. unfold all_keys. rewrite map_map.
  change (fold_left fast_unique (map (fun kd => keys (snd kd)) rows) (keys []))
    with (fast_unique_multiple_list (map (fun kd => keys (snd kd)) rows)).
  by rewrite fast_unique_multiple_list_concat, fast_unique_nil.
Qed.

Lemma NoDup_keys_nest rows : NoDup (keys (nest rows [])).
Proof. rewrite keys_nest_nil. apply NoDup_first_seen. Qed.

Lemma entry_nest_nil rows c r :
  NoDup (keys rows) →
  Forall (fun kd => NoDup (keys (snd kd))) rows →
  entry (nest rows []) c r = dict_get rows r ≫= fun d => dict_get d c.
Proof.
  intros Hnd Hall. rewrite entry_nest by done.
  by destruct (dict_get rows r ≫= _).
Qed.

(** A column read through its name. *)
Lemma map_columns_entry (nd : list (string * list (string * pyval))) r :
  NoDup (keys nd) →
  map (fun c => dict_get (snd c) r) nd = map (fun c => entry nd c r) (keys nd).
Proof.
  intros Hnd. unfold keys. rewrite map_map. apply map_ext_in.
  intros [c col] Hin. simpl. unfold entry.
  apply list_elem_of_In in Hin. by rewrite (dict_get_elem _ _ _ Hnd Hin).
Qed.

Lemma elem_of_all_keys {V} (ds : list (list (string * V))) k :
  k ∈ all_keys ds ↔ ∃ d, d ∈ ds ∧ k ∈ keys d.
Proof.
  unfold all_keys. rewrite list_elem_of_In, in_concat. split.
  - intros (ks & Hks & Hk). apply in_map_iff in Hks as (d & <- & Hd).
    exists d. by rewrite !list_elem_of_In.
  - intros (d & Hd & Hk). exists (keys d). rewrite <- !list_elem_of_In.
    split; [|done]. change (keys d ∈ keys <$> ds). apply list_elem_of_fmap. eauto.
Qed.

Lemma columns_frame_of_nested idx rows :
  columns (frame_of_nested idx (nest rows [])) =
  map LStr (first_seen (all_keys (map snd rows))).
Proof. unfold frame_of_nested. simpl. by rewrite keys_nest_nil. Qed.
End Frames.

Section Records.
Context `{Runtime}.
Implicit Types (ds : list (list (string * pyval))).
Implicit Types (rows : list (string * list (string * pyval))).

Lemma row_fields_emitted df cols lbl d :
  row_fields df lbl (map (dict_get d) cols) = emitted df cols lbl d.
Proof.
  unfold row_fields, emitted. f_equal.
  change (map (dict_get d) cols) with (dict_get d <$> cols). by rewrite imap_fmap.
Qed.

Lemma emitted_length df cols lbl d :
  length (emitted df cols lbl d) = S (length cols).
Proof. unfold emitted. simpl. by rewrite length_imap. Qed.

Lemma emitted_lookup df cols lbl d j c :
  cols !! j = Some c →
  emitted df cols lbl d !! S j = Some (cell_text (column_cells df j) (dict_get d c)).
Proof. intros Hc. unfold emitted. simpl. by rewrite list_lookup_imap, Hc. Qed.

Lemma csv_records_frame_of_records ds :
  let df := frame_of_records None ds in
  csv_records df =
  header_fields df ::
  map (fun r => emitted df (first_seen (all_keys ds)) (fst r) (snd r))
      (zip (default_index (length ds)) ds).
Proof.
  intros df. unfold csv_records. f_equal.
  assert (values df = map (fun d => map (dict_get d) (first_seen (all_keys ds))) ds) as ->.
  { unfold df, frame_of_records. simpl.
    by rewrite fast_unique_multiple_list_concat, fast_unique_nil. }
  change (index df) with (default_index (length ds)).
  generalize (default_index (length ds)) as idx.
  generalize (first_seen (all_keys ds)) as cols. clearbody df. intros cols.
  induction ds as [|d ds' IH]; intros [|l idx]; simpl; try done.
  by rewrite row_fields_emitted, IH.
Qed.

(** The records of the table of an object of objects: one for each outer
    key, in the order of the document. *)
Lemma csv_records_frame_of_nested rows :
  NoDup (keys rows) →
  Forall (fun kd => NoDup (keys (snd kd))) rows →
  let df := frame_of_nested (keys rows) (nest rows []) in
  csv_records df =
  header_fields df ::
  map (fun kd => emitted df (first_seen (all_keys (map snd rows))) (LStr (fst kd)) (snd kd))
      rows.
Proof.
  intros Hnd Hall df. unfold csv_records. f_equal.
  change (index df) with (map LStr (keys rows)).
  change (values df)
    with (map (fun r => map (fun c => dict_get (snd c) r) (nest rows [])) (keys rows)).
  clearbody df.
  assert (∀ l, (∀ kd, kd ∈ l → dict_get rows (fst kd) = Some (snd kd)) →
    zip_with (row_fields df) (map LStr (keys l))
      (map (fun r => map (fun c => dict_get (snd c) r) (nest rows [])) (keys l)) =
    map (fun kd => emitted df (first_seen (all_keys (map snd rows))) (LStr (fst kd)) (snd kd))
      l) as Hl.
  { induction l as [|kd l IH]; intros Hget; simpl; [done|]. f_equal.
    - rewrite <- row_fields_emitted. f_equal.
      rewrite map_columns_entry by apply NoDup_keys_nest.
      rewrite keys_nest_nil. apply map_ext. intros c.
      rewrite entry_nest_nil by done. rewrite Hget by apply list_elem_of_here. done.
    - apply IH. intros kd0 Hin. apply Hget. by apply list_elem_of_further. }
  apply Hl. intros [k d] Hin. by apply dict_get_elem.
Qed.

Lemma keys_subseteq_all_keys {V} (ds : list (list (string * V))) d :
  d ∈ ds → keys d ⊆ first_seen (all_keys ds).
Proof.
  intros Hd k Hk. apply elem_of_first_seen, elem_of_all_keys. eauto.
Qed.

(** The table of an input the converter is written for, and the records
    of its CSV. *)
Lemma length_default_index n : length (default_index n) = n.
Proof. unfold default_index. by rewrite length_map, length_seq. Qed.

Lemma snd_zip_default_index {A} (l : list A) :
  map snd (zip (default_index (length l)) l) = l.
Proof.
  change (snd <$> zip (default_index (length l)) l = l).
  apply snd_zip. by rewrite length_default_index.
Qed.

Lemma table_of_table_input data (labelled : list (label * list (string * pyval))) :
  table_input data labelled →
  ∃ df cols,
    table_of data = Some (inr df) ∧
    columns df = map LStr cols ∧
    cols = first_seen (all_keys (map snd labelled)) ∧
    csv_records df =
      header_fields df :: map (fun r => emitted df cols (fst r) (snd r)) labelled.
Proof.
  destruct 1 as [ds Hds|rows Hnd Hall].
  - exists (frame_of_records None ds), (first_seen (all_keys ds)). split_and!.
    + simpl. by rewrite DataFrame_of_list_objects.
    + apply columns_frame_of_records.
    + by rewrite snd_zip_default_index.
    + apply csv_records_frame_of_records.
  - exists (frame_of_nested (keys rows) (nest rows [])),
      (first_seen (all_keys (map snd rows))). split_and!.
    + simpl. by rewrite DataFrame_from_dict_index_objects.
    + apply columns_frame_of_nested.
    + by rewrite map_map.
    + rewrite csv_records_frame_of_nested by done. by rewrite map_map.
Qed.
End Records.

Section Paths.
Context `{Runtime} `{Console} `{!Encodes}.

Lemma load_reads w inp enc data :
  reads w inp enc data →
  load w inp enc =
  match table_of data with
  | Some (inr df) => (loading inp, VTable df)
  | Some (inl e) => (loading inp, VRaised e)
  | None => (loading inp ++ [EvPrint MsgIncompatible], VIncompatible)
  end.
Proof.
  intros (bytes & text & Hfs & Hr & Hcodec & Hdec & Hjs). unfold load.
  rewrite Hfs, decide_False, Hcodec, Hdec, Hjs by done. done.
Qed.

Lemma save_writes w df p enc bytes :
  writes w p enc (csv_text df) bytes →
  save w df p enc =
  (saving df p ++ [EvExists p; EvGetsize p; EvPrint (MsgDone p (String.length bytes))],
   Some bytes, true).
Proof.
  intros (Hw & Hdir & Henc). unfold save.
  rewrite decide_False, Henc by done.
  destruct (fs w !! p) as [[b|n]|] eqn:Hp; try done. by destruct (Hdir n).
Qed.

Lemma save_true w df p enc evs written :
  save w df p enc = (evs, written, true) →
  ∃ bytes, writes w p enc (csv_text df) bytes ∧ written = Some bytes.
Proof.
  unfold save, writes. destruct (decide (p ∈ no_write w)); [done|].
  destruct (fs w !! p) as [[b|m]|] eqn:Hp; try done;
    destruct (codec_encode enc (csv_text df)) as [[e wr]|bytes]; try done;
    intros [= <- <-]; exists bytes; split_and!; done.
Qed.

Lemma save_starts w df p enc :
  ∃ tl, (save w df p enc).1.1 = saving df p ++ tl.
Proof.
  unfold save. destruct (decide (p ∈ no_write w)); [by eexists|].
  destruct (fs w !! p) as [[b|m]|]; [|by eexists|];
    destruct (codec_encode enc (csv_text df)) as [[e wr]|bytes]; by eexists.
Qed.

(** A call that gets as far as the table. *)
Lemma json_to_csv_table inp out enc w data df :
  reads w inp enc data →
  table_of data = Some (inr df) →
  json_to_csv inp out enc w =
  let '(evs, written, ok) := save w df (output_path inp out) enc in
  (inr (PBool ok),
   after w ((fun b => (output_path inp out, b)) <$> written) (loading inp ++ evs)).
Proof.
  intros Hr Ht. rewrite json_to_csv_closed_form. unfold closed_form.
  rewrite (load_reads _ _ _ _ Hr), Ht. done.
Qed.

Lemma json_to_csv_reports inp out enc w data df :
  reads w inp enc data →
  table_of data = Some (inr df) →
  EvPrint (MsgLoaded (shape df) (columns df)) ∈ log (json_to_csv inp out enc w).2.
Proof.
  intros Hr Ht. rewrite (json_to_csv_table _ _ _ _ _ _ Hr Ht).
  destruct (save_starts w df (output_path inp out) enc) as [tl Htl].
  destruct (save w df (output_path inp out) enc) as [[evs written] ok].
  simpl in Htl. subst evs.
  change (EvPrint (MsgLoaded (shape df) (columns df))
          ∈ log w ++ loading inp ++ saving df (output_path inp out) ++ tl).
  rewrite !elem_of_app. right. right. left. apply list_elem_of_here.
Qed.

Lemma json_to_csv_written inp out enc w data df bytes :
  reads w inp enc data →
  table_of data = Some (inr df) →
  writes w (output_path inp out) enc (csv_text df) bytes →
  json_to_csv inp out enc w =
  (inr (PBool true),
   after w (Some (output_path inp out, bytes))
     (loading inp ++ saving df (output_path inp out) ++
      [EvExists (output_path inp out); EvGetsize (output_path inp out);
       EvPrint (MsgDone (output_path inp out) (String.length bytes))])).
Proof.
  intros Hr Ht Hw. rewrite (json_to_csv_table _ _ _ _ _ _ Hr Ht).
  by rewrite (save_writes _ _ _ _ _ Hw).
Qed.

Lemma json_to_csv_True inp out enc w data df bytes :
  reads w inp enc data →
  table_of data = Some (inr df) →
  writes w (output_path inp out) enc (csv_text df) bytes →
  (json_to_csv inp out enc w).1 = inr (PBool true) ∧
  fs (json_to_csv inp out enc w).2 !! output_path inp out = Some (File bytes).
Proof.
  intros Hr Ht Hw. rewrite (json_to_csv_written _ _ _ _ _ _ _ Hr Ht Hw).
  split; [done|]. simpl. apply lookup_insert_eq.
Qed.

(** The first element that is not a dict, with the dicts before it. *)
Lemma first_stranger_Some l v :
  first_stranger l = Some v →
  ∃ ds post, l = map PDict ds ++ v :: post ∧ isinstance_dict v = false.
Proof.
  induction l as [|x l IH]; simpl; [done|].
  destruct x; try (intros [= <-]; by exists [], l).
  intros Hv. destruct (IH Hv) as (ds & post & -> & Hd).
  by exists (items :: ds), post.
Qed.

Lemma records_stranger l v :
  first_stranger l = Some v →
  is_iterable v = false →
  records l = Some (inl (TypeError_not_iterable v)).
Proof.
  induction l as [|x l IH]; simpl; [done|].
  destruct x; try (intros [= <-] Hv; simpl in Hv; try done; by rewrite ?Hv).
  intros Hv Hit. by rewrite IH.
Qed.

Lemma load_same w w' inp enc :
  fs w' !! inp = fs w !! inp → no_read w' = no_read w →
  load w' inp enc = load w inp enc.
Proof. intros Hfs Hr. unfold load. by rewrite Hfs, Hr. Qed.
End Paths.

Section Claims.
Context `{Runtime} `{Console} `{!Encodes}.

(** C7.  When the input path does not exist, [json_to_csv] answers [False]
    after the test [os.path.exists] and the message of line 63 alone: the
    file is neither opened nor parsed, and no file changes. *)
Theorem missing_input_checked_first inp out enc w :
  fs w !! inp = None →
  json_to_csv inp out enc w =
  (inr (PBool false), after w None [EvExists inp; EvPrint (MsgMissing inp)]).
Proof.
  intros Hfs. rewrite json_to_csv_closed_form. unfold closed_form, load.
  by rewrite Hfs.
Qed.

(** C4, as the code has it.  When the parser refuses the text of the
    input, that is when [json.load] raises [JSONDecodeError], [json_to_csv]
    answers [False], prints the parser's diagnostic (line 134), and leaves
    every file as it was: nothing is opened for writing.  The parser is
    Python's, and it takes more than the grammar of JSON: a text with the
    constants [NaN], [Infinity] or [-Infinity] is not refused. *)
Theorem malformed_json_rejected inp out enc w bytes text msg :
  fs w !! inp = Some (File bytes) →
  inp ∉ no_read w →
  codec_lookup enc = true →
  codec_decode enc bytes = inr text →
  json_loads text = inl (JSONDecodeError msg) →
  json_to_csv inp out enc w =
  (inr (PBool false),
   after w None (loading inp ++ [EvPrint (MsgDecodeError (JSONDecodeError msg))])) ∧
  fs (json_to_csv inp out enc w).2 = fs w.
Proof.
  intros Hfs Hr Hcodec Hdec Hjs.
  assert (json_to_csv inp out enc w =
    (inr (PBool false),
     after w None (loading inp ++ [EvPrint (MsgDecodeError (JSONDecodeError msg))]))) as ->.
  { rewrite json_to_csv_closed_form. unfold closed_form, load.
    by rewrite Hfs, decide_False, Hcodec, Hdec, Hjs by done. }
  done.
Qed.

(** C3, as the code has it.  [json_to_csv] answers [False] and writes
    nothing when the root is neither an array nor an object (message of
    line 88), and when the root is an array that starts with an object and
    whose first element that is not an object is a number, a boolean or
    [null]: the constructor cannot iterate over it, and the generic
    handler reports its [TypeError].  The elements of an array are not
    inspected by the function itself. *)
Theorem unsupported_shape_rejected inp out enc w data :
  reads w inp enc data →
  rejected_shape data = true →
  ∃ evs,
    json_to_csv inp out enc w = (inr (PBool false), after w None evs) ∧
    (∀ p, EvOpen p "w" ∉ evs) ∧
    (is_list_like data = false → evs = loading inp ++ [EvPrint MsgIncompatible]) ∧
    (∀ d l, data = PList (PDict d :: l) →
       ∃ ds v post,
         l = map PDict ds ++ v :: post ∧
         isinstance_dict v = false ∧ is_iterable v = false ∧
         evs = loading inp ++ [EvPrint (MsgUnexpected (TypeError_not_iterable v))]).
Proof.
  intros Hr Hrej. rewrite json_to_csv_closed_form. unfold closed_form.
  rewrite (load_reads _ _ _ _ Hr).
  assert (∀ (p : string) (m : message),
    EvOpen p "w" ∉ loading inp ++ [EvPrint m]) as Hnow.
  { intros p m. unfold loading. simpl. rewrite !not_elem_of_cons.
    split_and!; try done; apply not_elem_of_nil. }
  destruct data as [| | | | |l|d]; simpl in Hrej; try done; cbn [table_of];
    try (eexists; split_and!; [reflexivity|intros p; apply Hnow|done|by intros ? ? [=]]).
  destruct l as [|[| | | | |l'|d] l]; try done.
  destruct (first_stranger l) as [v|] eqn:Hv; [|done].
  apply negb_true_iff in Hrej.
  destruct (first_stranger_Some _ _ Hv) as (ds & post & Hl & Hd).
  unfold DataFrame_of_list. cbn [records]. rewrite (records_stranger _ _ Hv Hrej).
  eexists; split_and!; [reflexivity|intros p; apply Hnow|done|].
  intros d' l0 [= -> <-]. by exists ds, v, post.
Qed.

(** C8, as the code has it.  A call that builds the table and writes it
    returns the boolean [True], not a count: the number of rows only
    appears in the diagnostic of line 102, as the first component of
    [df.shape]. *)
Theorem success_returns_True inp out enc w data df bytes :
  reads w inp enc data →
  table_of data = Some (inr df) →
  writes w (output_path inp out) enc (csv_text df) bytes →
  (json_to_csv inp out enc w).1 = inr (PBool true) ∧
  fs (json_to_csv inp out enc w).2 !! output_path inp out = Some (File bytes) ∧
  EvPrint (MsgLoaded (length (index df), length (columns df)) (columns df))
    ∈ log (json_to_csv inp out enc w).2.
Proof.
  intros Hr Ht Hw.
  destruct (json_to_csv_True _ _ _ _ _ _ _ Hr Ht Hw) as [Hret Hfile].
  split_and!; [done..|]. by apply (json_to_csv_reports _ _ _ _ data).
Qed.

(** C9.  Run twice on an input that is the same file both times (as it is
    whenever the output path is not the input path), [json_to_csv] leaves
    after the second call exactly the files the first call left, the
    output among them, and returns the same value. *)
Theorem convert_twice inp out enc w :
  let first := json_to_csv inp out enc w in
  let second := json_to_csv inp out enc first.2 in
  fs first.2 !! inp = fs w !! inp →
  fs second.2 = fs first.2 ∧ second.1 = first.1.
Proof.
  intros first second. unfold second, first. clear first second.
  rewrite !json_to_csv_closed_form.
  remember (closed_form inp out enc w) as first eqn:Hfirst.
  unfold closed_form in Hfirst.
  destruct (load w inp enc) as [evs v] eqn:Hload.
  assert (∀ evs0, load (after w None evs0) inp enc = load w inp enc) as Hsame.
  { intros evs0. by apply load_same. }
  destruct v as [|e| |df]; subst first; simpl;
    try (intros _; unfold closed_form; rewrite Hsame, Hload; done).
  set (p := output_path inp out).
  destruct (save w df p enc) as [[evs' written] ok] eqn:Hsave. simpl.
  intros Hinp. unfold closed_form. rewrite (load_same w), Hload by done.
  fold p.
  destruct written as [bytes|]; simpl in *.
  - assert (save (after w (Some (p, bytes)) (evs ++ evs')) df p enc = (evs', Some bytes, ok)) as ->.
    { revert Hsave. unfold save. simpl. rewrite lookup_insert_eq.
      destruct (decide (p ∈ no_write w)); [done|].
      destruct (fs w !! p) as [[b|m]|]; done. }
    simpl. by rewrite insert_insert_eq.
  - assert (save (after w None (evs ++ evs')) df p enc = (evs', None, ok)) as ->; [|done].
    by rewrite <- Hsave.
Qed.

Lemma read_quoted_double_quotes s :
  read_quoted (double_quotes s +:+ String quotechar EmptyString) = s.
Proof.
  induction s as [|c s IH]; [done|]. simpl.
  destruct (Ascii.eqb c quotechar) eqn:Hc; simpl; rewrite Hc.
  - by rewrite IH.
  - by rewrite IH.
Qed.

(** Quoting loses nothing: the reader gets the field back. *)
Lemma read_field_quote_field s : read_field (quote_field s) = s.
Proof.
  unfold quote_field. destruct (str_exists special s) eqn:Hs.
  - simpl. apply read_quoted_double_quotes.
  - destruct s as [|c s]; [done|]. simpl in *.
    apply orb_false_iff in Hs as [Hc _]. unfold special in Hc.
    apply orb_false_iff in Hc as [Hc _]. apply orb_false_iff in Hc as [_ Hc].
    by rewrite Hc.
Qed.

Lemma writerow_fields f1 f2 fields :
  writerow (f1 :: f2 :: fields) =
  join (String delimiter EmptyString) (map quote_field (f1 :: f2 :: fields)) +:+ linesep.
Proof. unfold writerow. by destruct f1. Qed.

(** C1.  For a JSON array whose elements are all objects, the table
    [json_to_csv] builds and reports has one row per element, and its
    columns are the keys of the elements, each once, in the order of their
    first appearance across the rows: a column stands before another only
    if its key shows up in the rows, read in order, before any occurrence
    of the other.  That table is what the function writes. *)
Theorem array_of_objects_table inp out enc w (ds : list (list (string * pyval))) :
  reads w inp enc (PList (map PDict ds)) →
  ∃ df cols,
    DataFrame_of_list None (map PDict ds) = inr df ∧
    EvPrint (MsgLoaded (length ds, length cols) (map LStr cols))
      ∈ log (json_to_csv inp out enc w).2 ∧
    length (index df) = length ds ∧
    length (values df) = length ds ∧
    columns df = map LStr cols ∧
    NoDup cols ∧
    (∀ k, k ∈ cols ↔ ∃ d, d ∈ ds ∧ k ∈ keys d) ∧
    (∀ l1 x l2 y l3,
       cols = l1 ++ x :: l2 ++ y :: l3 →
       ∃ pre post, all_keys ds = pre ++ x :: post ∧ (x ∉ pre) ∧ (y ∉ pre)) ∧
    (∀ bytes,
       writes w (output_path inp out) enc (csv_text df) bytes →
       (json_to_csv inp out enc w).1 = inr (PBool true) ∧
       fs (json_to_csv inp out enc w).2 !! output_path inp out = Some (File bytes)).
Proof.
  intros Hr. exists (frame_of_records None ds), (first_seen (all_keys ds)).
  assert (table_of (PList (map PDict ds)) = Some (inr (frame_of_records None ds))) as Ht.
  { simpl. by rewrite DataFrame_of_list_objects. }
  pose proof (columns_frame_of_records None ds) as Hcols.
  split_and!.
  - apply DataFrame_of_list_objects.
  - pose proof (json_to_csv_reports inp out enc w _ _ Hr Ht) as Hlog.
    unfold shape in Hlog. rewrite Hcols in Hlog. rewrite length_map in Hlog.
    simpl in Hlog. by rewrite length_default_index in Hlog.
  - simpl. apply length_default_index.
  - simpl. apply length_map.
  - done.
  - apply NoDup_first_seen.
  - intros k. by rewrite elem_of_first_seen, elem_of_all_keys.
  - intros l1 x l2 y l3. apply first_seen_order.
  - intros bytes Hw. by apply (json_to_csv_True _ _ _ _ _ _ _ Hr Ht Hw).
Qed.

(** C2, as the code has it.  For a JSON object whose values are all
    objects, empty ones included, the table has one row per outer key and
    the rows are labelled by the outer keys, in the order of the document;
    each record of the CSV starts with the outer key of its row and goes on
    with the fields of that key's object.  The label column leads the CSV,
    and its header field is empty: pandas writes no name for an index that
    has none, so the header of the example reads [,name], not
    [index,name]. *)
Theorem object_of_objects_table inp out enc w
  (rows : list (string * list (string * pyval))) :
  NoDup (keys rows) →
  Forall (fun kd => NoDup (keys (snd kd))) rows →
  reads w inp enc (PDict (object_of rows)) →
  ∃ df cols body,
    DataFrame_from_dict_index (object_of rows) = inr df ∧
    columns df = map LStr cols ∧
    EvPrint (MsgLoaded (length rows, length cols) (map LStr cols))
      ∈ log (json_to_csv inp out enc w).2 ∧
    index df = map LStr (keys rows) ∧
    csv_records df = (EmptyString :: cols) :: body ∧
    body = map (fun kd =>
                  fst kd :: imap (fun j c =>
                              cell_text (column_cells df j) (dict_get (snd kd) c)) cols)
               rows ∧
    (∀ bytes,
       writes w (output_path inp out) enc (csv_text df) bytes →
       (json_to_csv inp out enc w).1 = inr (PBool true) ∧
       fs (json_to_csv inp out enc w).2 !! output_path inp out = Some (File bytes)).
Proof.
  intros Hnd Hall Hr.
  set (df := frame_of_nested (keys rows) (nest rows [])).
  set (cols := first_seen (all_keys (map snd rows))).
  assert (table_of (PDict (object_of rows)) = Some (inr df)) as Ht.
  { simpl. by rewrite DataFrame_from_dict_index_objects. }
  assert (columns df = map LStr cols) as Hcols by apply columns_frame_of_nested.
  exists df, cols. eexists. split_and!.
  - apply DataFrame_from_dict_index_objects.
  - done.
  - pose proof (json_to_csv_reports inp out enc w _ _ Hr Ht) as Hlog.
    unfold shape in Hlog. rewrite Hcols in Hlog.
    change (index df) with (map LStr (keys rows)) in Hlog.
    unfold keys in Hlog. by rewrite !length_map in Hlog.
  - done.
  - unfold df. rewrite csv_records_frame_of_nested by done. fold df cols.
    unfold header_fields. rewrite Hcols, map_map. simpl. rewrite map_id. done.
  - done.
  - intros bytes Hw. by apply (json_to_csv_True _ _ _ _ _ _ _ Hr Ht Hw).
Qed.

(** C5, as the code has it.  For an array of objects and for an object of
    objects, the CSV has one record for every row, in the order of the
    rows, and the record of a row is the label of the row ([index=True])
    followed by exactly one field per column of the table, in the table's
    column order, the same for all rows: the text of the row's own value
    where the row has the key, the empty field where it has not.  The keys
    of every row are among the columns. *)
Theorem one_field_per_column inp out enc w data
  (labelled : list (label * list (string * pyval))) :
  table_input data labelled →
  reads w inp enc data →
  ∃ df cols body,
    table_of data = Some (inr df) ∧
    columns df = map LStr cols ∧
    NoDup cols ∧
    csv_records df = (EmptyString :: cols) :: body ∧
    length body = length labelled ∧
    (∀ i lbl d,
       labelled !! i = Some (lbl, d) →
       ∃ fields,
         body !! i = Some fields ∧
         keys d ⊆ cols ∧
         hd_error fields = Some (label_text lbl) ∧
         length fields = S (length cols) ∧
         ∀ j c, cols !! j = Some c →
                fields !! S j =
                Some (match dict_get d c with
                      | Some v => cell_text (column_cells df j) (Some v)
                      | None => EmptyString
                      end)) ∧
    (∀ bytes,
       writes w (output_path inp out) enc (csv_text df) bytes →
       (json_to_csv inp out enc w).1 = inr (PBool true) ∧
       fs (json_to_csv inp out enc w).2 !! output_path inp out = Some (File bytes)).
Proof.
  intros Hin Hr.
  destruct (table_of_table_input _ _ Hin) as (df & cols & Ht & Hcols & -> & Hcsv).
  exists df, (first_seen (all_keys (map snd labelled))). eexists. split_and!.
  - done.
  - done.
  - apply NoDup_first_seen.
  - rewrite Hcsv. unfold header_fields. rewrite Hcols, map_map. simpl. by rewrite map_id.
  - apply length_map.
  - intros i lbl d Hi.
    exists (emitted df (first_seen (all_keys (map snd labelled))) lbl d). split_and!.
    + change (map ?f ?l) with (f <$> l). by rewrite list_lookup_fmap, Hi.
    + apply keys_subseteq_all_keys.
      change (d ∈ snd <$> labelled). apply list_elem_of_fmap. exists (lbl, d).
      split; [done|]. by apply list_elem_of_lookup_2 with i.
    + done.
    + apply emitted_length.
    + intros j c Hc. rewrite (emitted_lookup _ _ _ _ _ _ Hc).
      by destruct (dict_get d c).
  - intros bytes Hw. by apply (json_to_csv_True _ _ _ _ _ _ _ Hr Ht Hw).
Qed.

(** C6, as the code has it.  A field value that is itself an object or an
    array is never dropped: whatever the row and the key, it is written
    whole in the field of its column in the record of its row, as the text
    Python's [str] gives it (the [repr] of the parsed value: single quotes
    around strings, [True], [False], [None]).  That text is JSON only when
    the two notations happen to agree, as for an array of integers.  The
    csv writer quotes the text when it has to, and the quoting loses
    nothing. *)
Theorem nested_value_written_as_repr inp out enc w data
  (labelled : list (label * list (string * pyval))) :
  table_input data labelled →
  reads w inp enc data →
  ∃ df cols body,
    table_of data = Some (inr df) ∧
    columns df = map LStr cols ∧
    csv_text df = String.concat EmptyString (map writerow ((EmptyString :: cols) :: body)) ∧
    length body = length labelled ∧
    (∀ i lbl d c v,
       labelled !! i = Some (lbl, d) →
       dict_get d c = Some v →
       is_list_like v = true →
       ∃ j fields,
         cols !! j = Some c ∧
         body !! i = Some fields ∧
         fields !! S j = Some (py_repr v) ∧
         writerow fields =
           join (String delimiter EmptyString) (map quote_field fields) +:+ linesep ∧
         read_field (quote_field (py_repr v)) = py_repr v) ∧
    (∀ bytes,
       writes w (output_path inp out) enc (csv_text df) bytes →
       (json_to_csv inp out enc w).1 = inr (PBool true) ∧
       fs (json_to_csv inp out enc w).2 !! output_path inp out = Some (File bytes)).
Proof.
  intros Hin Hr.
  destruct (table_of_table_input _ _ Hin) as (df & cols & Ht & Hcols & -> & Hcsv).
  exists df, (first_seen (all_keys (map snd labelled))). eexists. split_and!.
  - done.
  - done.
  - unfold csv_text. rewrite Hcsv. unfold header_fields.
    rewrite Hcols, map_map. simpl. by rewrite map_id.
  - apply length_map.
  - intros i lbl d c v Hi Hv Hnested.
    assert (c ∈ first_seen (all_keys (map snd labelled))) as Hc.
    { apply (keys_subseteq_all_keys _ d).
      - change (d ∈ snd <$> labelled). apply list_elem_of_fmap. exists (lbl, d).
        split; [done|]. by apply list_elem_of_lookup_2 with i.
      - apply dict_get_is_Some. eauto. }
    apply list_elem_of_lookup_1 in Hc as [j Hj].
    exists j, (emitted df (first_seen (all_keys (map snd labelled))) lbl d). split_and!.
    + done.
    + change (map ?f ?l) with (f <$> l). by rewrite list_lookup_fmap, Hi.
    + rewrite (emitted_lookup _ _ _ _ _ _ Hj), Hv. by destruct v.
    + unfold emitted.
      destruct (first_seen (all_keys (map snd labelled))) as [|c0 cols'];
        [done|]. apply writerow_fields.
    + apply read_field_quote_field.
  - intros bytes Hw. by apply (json_to_csv_True _ _ _ _ _ _ _ Hr Ht Hw).
Qed.
End Claims.

(** * What can leave the function *)

Section Exceptions.
Context `{Runtime} `{Console}.


Lemma ends_in_weaken {A} (c : completion A) : ends_in false c → ends_in true c.
Proof. by destruct c. Qed.


Lemma falls_bind {A B} (m : M A) (k : A -> M B) w :
  (∀ w0, falls (m w0).1) →
  (∀ a w0, falls (k a w0).1) →
  falls (bind m k w).1.
Proof.
  intros Hm Hk. unfold bind. specialize (Hm w).
  destruct (m w) as [[a|v|e] w']; simpl in *; [apply Hk|done..].
Qed.

Lemma print_falls m w : falls (print m w).1.
Proof. unfold print. by destruct (stdout_error m). Qed.

Lemma lift_falls {A} (r : exn + A) w : falls (lift r w).1.
Proof. by destruct r. Qed.


Lemma open_r_falls p enc w : falls (open_r p enc w).1.
Proof.
  unfold open_r, bind, emit. simpl.
  destruct (fs w !! p) as [[b|n]|]; simpl; try done.
  destruct (decide (p ∈ no_read w)); [done|]. by destruct (codec_lookup enc).
Qed.

Lemma json_load_falls f w : falls (json_load f w).1.
Proof.
  unfold json_load, bind, emit. simpl.
  destruct (codec_decode (h_encoding f) (h_bytes f)) as [e|text]; simpl; [done|].
  by destruct (json_loads text).
Qed.

Lemma to_csv_falls df p enc w : falls (to_csv df p enc w).1.
Proof.
  unfold to_csv, bind, emit. simpl.
  destruct (decide (p ∈ no_write w)) as [Hno|Hno]; [done|].
  destruct (fs w !! p) as [[b|size]|]; simpl; try done;
    by destruct (codec_encode enc (csv_text df)) as [[e wr]|bytes].
Qed.




(** The body of the [try] of [main.py] has no [return]; whatever it raises
    goes to a handler, and a handler prints and does nothing else. *)
Lemma main_py_try_falls inp out w :
  ∃ body handler,
    main_py inp out = try_except body handler ∧
    falls (body w).1 ∧
    ∀ e, ∃ m, handler e = say m ∧
              (m = ScriptNotFound inp ∨ m = ScriptIncompatible ∨
               ∃ cause, m = ScriptUnexpected cause).
Proof.
  unfold main_py. eexists _, _. split_and!; [reflexivity| |].
  - unfold say.
    apply falls_bind; [intros; apply print_falls|]. intros _ w1.
    apply falls_bind; [intros; apply print_falls|]. intros _ w2.
    apply falls_bind; [intros; apply open_r_falls|]. intros file w3.
    apply falls_bind; [intros; apply json_load_falls|]. intros data w4.
    apply falls_bind.
    { intros w5. destruct data; try apply lift_falls;
        (apply falls_bind; [intros; apply print_falls|]; by intros _ w6). }
    intros df w5.
    apply falls_bind; [intros; apply print_falls|]. intros _ w6.
    apply falls_bind; [intros; apply print_falls|]. intros _ w7.
    apply falls_bind; [intros; apply to_csv_falls|]. intros _ w8.
    apply print_falls.
  - intros [msg|cls msg].
    + exists ScriptIncompatible. split; [done|]. by right; left.
    + destruct (decide (cls = "FileNotFoundError")).
      * exists (ScriptNotFound inp). split; [done|]. by left.
      * exists (ScriptUnexpected (Exception cls msg)). split; [done|]. right; right. by eexists.
Qed.

(** X16.  The script [main.py] ends normally unless the [print] of one of
    its three handlers raises: the handlers print outside any [try], and
    an exception of theirs is the only one that can end the script.  On a
    standard output that takes the lines of [main.py] the script never ends
    in an exception. *)
Theorem main_py_raises_only_from_a_handler inp out w :
  let r := (call (main_py inp out) w).1 in
  (r = inr PNone ∨
   ∃ e m, r = inl e ∧ stdout_error (MsgScript m) = Some e ∧
          (m = ScriptNotFound inp ∨ m = ScriptIncompatible ∨
           ∃ cause, m = ScriptUnexpected cause)) ∧
  ((∀ m, stdout_error (MsgScript m) = None) → r = inr PNone).
Proof.
  intros r.
  assert (r = inr PNone ∨
          ∃ e m, r = inl e ∧ stdout_error (MsgScript m) = Some e ∧
                 (m = ScriptNotFound inp ∨ m = ScriptIncompatible ∨
                  ∃ cause, m = ScriptUnexpected cause)) as Hr.
  { unfold r, call.
    destruct (main_py_try_falls inp out w) as (body & handler & -> & Hbody & Hh).
    unfold try_except.
    destruct (body w) as [[a|v|e] w']; simpl in Hbody; [by left|done|].
    destruct (Hh e) as (m & -> & Hm). unfold say, print.
    destruct (stdout_error (MsgScript m)) as [e'|] eqn:He; simpl; [|by left].
    right. by exists e', m. }
  split; [done|].
  intros Hquiet. destruct Hr as [Hr|(e & m & _ & He & _)]; [done|].
  by rewrite Hquiet in He.
Qed.
End Exceptions.

(** * The script *)

Section ScriptFacts.
Context `{Runtime} `{Console} `{!Encodes}.

Ltac use_eqs :=
  repeat match goal with
         | Heq : ?x = _ |- context [?x] => rewrite Heq
         end.

Ltac run :=
  repeat (simpl; unfold say; rewrite ?print_emit;
          unfold bind, emit, return_, raise, ret, lift, add_log, set_fs,
            open_r, json_load, to_csv, raise_JSONDecodeError_class;
          simpl; use_eqs).

Ltac same_log := run; repeat rewrite <- app_assoc; simpl; reflexivity.

(** X13.  [main.py] has no test of its own for the input: [open] raises
    [FileNotFoundError], the first handler reports it, nothing is parsed
    and the script ends normally. *)
Lemma main_py_missing_input inp out w :
  fs w !! inp = None →
  call (main_py inp out) w =
  (inr PNone,
   after w None (script_opening inp ++ [EvPrint (MsgScript (ScriptNotFound inp))])).
Proof.
  intros Hfs. destruct w as [f nr nw lg]. simpl in Hfs.
  unfold call, main_py, try_except, after, script_opening. run. same_log.
Qed.

(** X14.  Malformed JSON in [main.py]: the second handler prints a fixed
    message, without the parser's diagnostic, and nothing is written. *)
Lemma main_py_malformed_json inp out w bytes text msg :
  fs w !! inp = Some (File bytes) →
  inp ∉ no_read w →
  codec_decode "utf-8" bytes = inr text →
  json_loads text = inl (JSONDecodeError msg) →
  call (main_py inp out) w =
  (inr PNone,
   after w None (script_opening inp ++
                 [EvJsonLoad; EvPrint (MsgScript ScriptIncompatible)])).
Proof.
  intros Hfs Hr Hdec Hjs. destruct w as [f nr nw lg]. simpl in Hfs, Hr.
  unfold call, main_py, try_except, after, script_opening. run.
  rewrite decide_False by done. rewrite codec_lookup_utf8. run. same_log.
Qed.

(** X15.  A root that is neither an array nor an object, in [main.py]:
    the message is printed, then [raise json.JSONDecodeError] fails to
    build the exception and the generic handler reports a [TypeError];
    the handler for [JSONDecodeError] is not entered. *)
Lemma main_py_scalar_root inp out w data :
  reads w inp "utf-8" data →
  is_list_like data = false →
  ∃ e, call (main_py inp out) w =
       (inr PNone,
        after w None (script_opening inp ++
                      [EvJsonLoad; EvPrint (MsgScript ScriptIncompatible);
                       EvPrint (MsgScript (ScriptUnexpected (Exception "TypeError" e)))])).
Proof.
  intros (bytes & text & Hfs & Hr & Hcodec & Hdec & Hjs) Hscalar.
  destruct w as [f nr nw lg]. simpl in Hfs, Hr.
  eexists. unfold call, main_py, try_except, after, script_opening. run.
  rewrite decide_False by done. run.
  destruct data; try done; same_log.
Qed.
End ScriptFacts.

(** * More on [json_to_csv] *)

Section Function.
Context `{Runtime} `{Console} `{!Encodes}.

(** X1.  Whatever the input and whatever happens, a call of [json_to_csv]
    leaves every file as it was, except possibly the one at the output
    path; it changes no permission and only adds to what was printed. *)
Theorem only_the_output_changes inp out enc w :
  let w' := (json_to_csv inp out enc w).2 in
  (fs w' = fs w ∨ ∃ bytes, fs w' = <[output_path inp out := File bytes]> (fs w)) ∧
  no_read w' = no_read w ∧ no_write w' = no_write w ∧
  ∃ evs, log w' = log w ++ evs.
Proof.
  intros w'. unfold w'. rewrite json_to_csv_closed_form. unfold closed_form.
  destruct (load w inp enc) as [evs v].
  destruct v as [|e| |df]; simpl; try (split_and!; [by left|done|done|by eexists]).
  destruct (save w df (output_path inp out) enc) as [[evs' written] ok]. simpl.
  split_and!; [|done|done|by eexists].
  destruct written as [bytes|]; simpl; [right; by exists bytes|by left].
Qed.

(** X2.  An input path that exists but cannot be opened (a directory, or
    a file without read permission) passes the existence test; [open]
    raises, the general handler prints the exception, and the function
    returns [False] with every file as it was. *)
Theorem unreadable_input_reported inp out enc w :
  (∃ n, fs w !! inp = Some (Directory n)) ∨
  (∃ bytes, fs w !! inp = Some (File bytes) ∧ inp ∈ no_read w) →
  ∃ cls,
    json_to_csv inp out enc w =
    (inr (PBool false),
     after w None [EvExists inp; EvPrint (MsgReading inp); EvOpen inp "r";
                   EvPrint (MsgUnexpected (Exception cls inp))]) ∧
    cls ∈ ["IsADirectoryError"; "PermissionError"].
Proof.
  intros [[n Hfs]|(bytes & Hfs & Hr)]; rewrite json_to_csv_closed_form;
    unfold closed_form, load; rewrite Hfs.
  - exists "IsADirectoryError". split; [done|]. apply list_elem_of_here.
  - rewrite decide_True by done. exists "PermissionError". split; [done|].
    apply list_elem_of_further, list_elem_of_here.
Qed.

(** X3.  Any exception raised between opening the input and having the
    table is caught: its handler prints it, nothing is opened for writing,
    no file changes, and the function returns [False].  An encoding that
    Python does not know is refused by [open], before [json.load]; the
    codec, the JSON parser and the DataFrame constructor fail after it. *)
Theorem failure_before_the_table inp out enc w bytes e :
  fs w !! inp = Some (File bytes) →
  inp ∉ no_read w →
  (codec_lookup enc = false ∧ e = LookupError enc) ∨
  (codec_lookup enc = true ∧
   (codec_decode enc bytes = inl e ∨
    ∃ text, codec_decode enc bytes = inr text ∧
      (json_loads text = inl e ∨
       ∃ data, json_loads text = inr data ∧ table_of data = Some (inl e)))) →
  json_to_csv inp out enc w =
  (inr (PBool false),
   after w None ((if codec_lookup enc then loading inp else opening inp) ++
                 [EvPrint (handler_message e)])).
Proof.
  intros Hfs Hr Hfail. rewrite json_to_csv_closed_form. unfold closed_form, load.
  rewrite Hfs, decide_False by done.
  destruct Hfail as [[-> ->]|[-> [->|(text & -> & [->|(data & -> & ->)])]]]; done.
Qed.

(** X4.  When the table is built but the output path may not be written,
    or is a directory, the function has already announced the table and
    the path; [to_csv] raises, the general handler prints the exception,
    and the function returns [False] with every file as it was. *)
Theorem unwritable_output_reported inp out enc w data df :
  reads w inp enc data →
  table_of data = Some (inr df) →
  output_path inp out ∈ no_write w ∨ (∃ n, fs w !! output_path inp out = Some (Directory n)) →
  ∃ cls,
    json_to_csv inp out enc w =
    (inr (PBool false),
     after w None (loading inp ++ saving df (output_path inp out) ++
                   [EvPrint (MsgUnexpected (Exception cls (output_path inp out)))])) ∧
    cls ∈ ["PermissionError"; "IsADirectoryError"].
Proof.
  intros Hr Ht Hw. rewrite (json_to_csv_table _ _ _ _ _ _ Hr Ht). unfold save.
  destruct (decide (output_path inp out ∈ no_write w)) as [Hin|Hin].
  - exists "PermissionError". split; [done|]. apply list_elem_of_here.
  - destruct Hw as [Hw|[n Hdir]]; [done|]. rewrite Hdir.
    exists "IsADirectoryError". split; [done|].
    apply list_elem_of_further, list_elem_of_here.
Qed.

(** X5.  The empty array and the empty object are converted: the table
    has no row and no column, the shape printed is (0, 0), the CSV is the
    header line alone (a pair of quotes, for the empty name of the label
    column), and the function returns [True]. *)
Theorem empty_document_header_only inp out enc w data bytes :
  reads w inp enc data →
  data = PList [] ∨ data = PDict [] →
  writes w (output_path inp out) enc
    (String quotechar (String quotechar EmptyString) +:+ linesep) bytes →
  (json_to_csv inp out enc w).1 = inr (PBool true) ∧
  fs (json_to_csv inp out enc w).2 !! output_path inp out = Some (File bytes) ∧
  EvPrint (MsgLoaded (0, 0)%nat []) ∈ log (json_to_csv inp out enc w).2.
Proof.
  intros Hr Hdata Hw.
  assert (table_of data = Some (inr empty_frame)) as Ht.
  { by destruct Hdata as [-> | ->]. }
  destruct (json_to_csv_True _ out _ _ _ _ bytes Hr Ht) as [Hret Hfile]; [done|].
  split_and!; [done..|].
  apply (json_to_csv_reports inp out enc w _ _ Hr Ht).
Qed.

Lemma scalars_cons v l :
  forallb (fun v => negb (is_list_like v)) (v :: l) = true →
  DataFrame_of_list None (v :: l) = inr (frame_of_scalars None (v :: l)).
Proof.
  intros Hs. unfold DataFrame_of_list. rewrite Hs.
  simpl in Hs. apply andb_true_iff in Hs as [Hv _]. by destruct v.
Qed.

Lemma csv_records_frame_of_scalars idx l :
  length idx = length l →
  csv_records (frame_of_scalars (Some idx) l) =
  [EmptyString; "0"] ::
  zip_with (fun lbl v => [label_text lbl; cell_text (map Some l) (Some v)]) idx l.
Proof.
  intros Hlen. unfold csv_records, header_fields. simpl. f_equal.
  assert (column_cells (frame_of_scalars (Some idx) l) 0 = map Some l) as Hcol.
  { unfold column_cells. simpl. rewrite map_map. done. }
  revert Hcol. generalize (frame_of_scalars (Some idx) l) as df.
  generalize (map Some l) as col. intros col df Hcol. clear Hlen.
  revert idx. induction l as [|v l IH]; intros [|lbl idx]; simpl; try done.
  rewrite IH. unfold row_fields. simpl. by rewrite Hcol.
Qed.

(** X6.  A non-empty array of scalars is not rejected: the table has one
    column, named 0, and one row per element; after the header [,0],
    record [i] of the CSV is the label [i] followed by the text of
    element [i]. *)
Theorem array_of_scalars_one_column inp out enc w (l : list pyval) :
  reads w inp enc (PList l) →
  forallb (fun v => negb (is_list_like v)) l = true →
  l ≠ [] →
  ∃ df body,
    DataFrame_of_list None l = inr df ∧
    columns df = [LInt 0] ∧
    csv_records df = [EmptyString; "0"] :: body ∧
    length body = length l ∧
    (∀ i v, l !! i = Some v →
            body !! i = Some [pretty (Z.of_nat i); cell_text (map Some l) (Some v)]) ∧
    (∀ bytes,
       writes w (output_path inp out) enc (csv_text df) bytes →
       (json_to_csv inp out enc w).1 = inr (PBool true) ∧
       fs (json_to_csv inp out enc w).2 !! output_path inp out = Some (File bytes)).
Proof.
  intros Hr Hs Hne. destruct l as [|v0 l0]; [done|]. set (l := v0 :: l0) in *.
  exists (frame_of_scalars None l). eexists. split_and!.
  - by apply scalars_cons.
  - done.
  - apply (csv_records_frame_of_scalars (default_index (length l)) l).
    apply length_default_index.
  - rewrite length_zip_with, length_default_index. lia.
  - intros i v Hv. rewrite lookup_zip_with. unfold default_index.
    change (map ?f ?k) with (f <$> k). rewrite list_lookup_fmap.
    rewrite lookup_seq_lt by (by apply lookup_lt_Some in Hv). simpl. by rewrite Hv.
  - intros bytes Hw. eapply json_to_csv_True; [exact Hr| |exact Hw].
    unfold table_of. f_equal. by apply scalars_cons.
Qed.

(** X7.  A non-empty object whose values are all scalars gives a table
    with one column, named 0, and one row per key, labelled by the keys in
    the order of the document; each record is the key followed by the text
    of its value. *)
Theorem object_of_scalars_one_column inp out enc w (d : list (string * pyval)) :
  reads w inp enc (PDict d) →
  forallb (fun kv => negb (is_list_like (snd kv))) d = true →
  d ≠ [] →
  ∃ df,
    DataFrame_from_dict_index d = inr df ∧
    columns df = [LInt 0] ∧
    index df = map (fun kv => LStr (fst kv)) d ∧
    csv_records df =
      [EmptyString; "0"] ::
      map (fun kv => [fst kv; cell_text (map (fun kv => Some (snd kv)) d) (Some (snd kv))]) d ∧
    (∀ bytes,
       writes w (output_path inp out) enc (csv_text df) bytes →
       (json_to_csv inp out enc w).1 = inr (PBool true) ∧
       fs (json_to_csv inp out enc w).2 !! output_path inp out = Some (File bytes)).
Proof.
  intros Hr Hs Hne.
  set (idx := map (fun kv : string * pyval => LStr (fst kv)) d).
  assert (DataFrame_from_dict_index d = inr (frame_of_scalars (Some idx) (map snd d))) as Hdf.
  { destruct d as [|[k v] d']; [done|].
    assert (forallb (fun v => negb (is_list_like v)) (map snd ((k, v) :: d')) = true) as Hs'.
    { rewrite forallb_forall in *. intros x (kv & <- & Hin)%in_map_iff. by apply Hs. }
    unfold DataFrame_from_dict_index.
    assert (is_list_like v = false) as Hv.
    { simpl in Hs. apply andb_true_iff in Hs as [Hv _]. by apply negb_true_iff. }
    destruct v; try done; unfold DataFrame_of_list; cbn [map snd]; cbn [map snd] in Hs';
      by rewrite Hs'. }
  exists (frame_of_scalars (Some idx) (map snd d)). split_and!; [done..| |].
  - rewrite csv_records_frame_of_scalars by (unfold idx; by rewrite !length_map).
    f_equal. unfold idx.
    assert (map Some (map snd d) = map (fun kv => Some (snd kv)) d) as -> by apply map_map.
    clear. generalize (map (fun kv : string * pyval => Some (snd kv)) d) as col. intros col.
    induction d as [|[k v] d IH]; simpl; [done|]. f_equal. apply IH.
  - intros bytes Hw. eapply json_to_csv_True; [exact Hr| |exact Hw].
    unfold table_of. by f_equal.
Qed.

(** X8.  For an array of objects the records follow the array: after the
    header, record [i] is the label [i] followed by the fields of element
    [i], one per column. *)
Theorem array_records_in_input_order inp out enc w (ds : list (list (string * pyval))) :
  reads w inp enc (PList (map PDict ds)) →
  ∃ df cols body,
    DataFrame_of_list None (map PDict ds) = inr df ∧
    columns df = map LStr cols ∧
    csv_records df = (EmptyString :: cols) :: body ∧
    length body = length ds ∧
    (∀ i d, ds !! i = Some d →
            body !! i =
            Some (pretty (Z.of_nat i) ::
                  imap (fun j c => cell_text (column_cells df j) (dict_get d c)) cols)) ∧
    (∀ bytes,
       writes w (output_path inp out) enc (csv_text df) bytes →
       (json_to_csv inp out enc w).1 = inr (PBool true) ∧
       fs (json_to_csv inp out enc w).2 !! output_path inp out = Some (File bytes)).
Proof.
  intros Hr. exists (frame_of_records None ds), (first_seen (all_keys ds)).
  eexists. split_and!.
  - apply DataFrame_of_list_objects.
  - apply columns_frame_of_records.
  - rewrite csv_records_frame_of_records. unfold header_fields.
    rewrite columns_frame_of_records, map_map. simpl. by rewrite map_id.
  - rewrite length_map, length_zip, length_default_index. lia.
  - intros i d Hd. change (map ?f ?k) with (f <$> k). rewrite list_lookup_fmap.
    rewrite lookup_zip_with. unfold default_index.
    change (map ?f ?k) with (f <$> k). rewrite list_lookup_fmap.
    rewrite lookup_seq_lt by (by apply lookup_lt_Some in Hd). simpl. by rewrite Hd.
  - intros bytes Hw. eapply json_to_csv_True; [exact Hr| |exact Hw].
    simpl. by rewrite DataFrame_of_list_objects.
Qed.

(** X9.  For an object of objects, empty ones included, the columns are
    the inner keys, each once, in the order of their first appearance
    across the values read in document order; the shape printed has one
    row for each outer key and that many columns. *)
Theorem object_columns_first_seen inp out enc w
  (rows : list (string * list (string * pyval))) :
  reads w inp enc (PDict (object_of rows)) →
  ∃ df cols,
    DataFrame_from_dict_index (object_of rows) = inr df ∧
    columns df = map LStr cols ∧
    EvPrint (MsgLoaded (length rows, length cols) (map LStr cols))
      ∈ log (json_to_csv inp out enc w).2 ∧
    NoDup cols ∧
    (∀ c, c ∈ cols ↔ ∃ kd, kd ∈ rows ∧ c ∈ keys (snd kd)) ∧
    (∀ l1 x l2 y l3,
       cols = l1 ++ x :: l2 ++ y :: l3 →
       ∃ pre post, all_keys (map snd rows) = pre ++ x :: post ∧ (x ∉ pre) ∧ (y ∉ pre)).
Proof.
  intros Hr.
  exists (frame_of_nested (keys rows) (nest rows [])), (first_seen (all_keys (map snd rows))).
  pose proof (columns_frame_of_nested (keys rows) rows) as Hcols.
  split_and!.
  - apply DataFrame_from_dict_index_objects.
  - done.
  - assert (table_of (PDict (object_of rows)) =
            Some (inr (frame_of_nested (keys rows) (nest rows [])))) as Ht.
    { unfold table_of. f_equal. apply DataFrame_from_dict_index_objects. }
    pose proof (json_to_csv_reports inp out enc w _ _ Hr Ht) as Hlog.
    unfold shape in Hlog. rewrite Hcols in Hlog.
    change (index (frame_of_nested (keys rows) (nest rows [])))
      with (map LStr (keys rows)) in Hlog.
    unfold keys in Hlog. by rewrite !length_map in Hlog.
  - apply NoDup_first_seen.
  - intros c. rewrite elem_of_first_seen, elem_of_all_keys. split.
    + intros (d & Hd & Hc). change (d ∈ snd <$> rows) in Hd.
      apply list_elem_of_fmap in Hd as (kd & -> & Hkd). eauto.
    + intros (kd & Hkd & Hc). exists (snd kd). split; [|done].
      change (snd kd ∈ snd <$> rows). apply list_elem_of_fmap. eauto.
  - intros l1 x l2 y l3. apply first_seen_order.
Qed.

(** X10.  For an object of objects with distinct keys, the table has one
    row for each outer key, in the order of the document, a key with an
    empty object included: its record is the key followed by an empty
    field for every column, and it counts in the number of rows printed. *)
Theorem object_rows_are_the_keys inp out enc w
  (rows : list (string * list (string * pyval))) :
  NoDup (keys rows) →
  Forall (fun kd => NoDup (keys (snd kd))) rows →
  reads w inp enc (PDict (object_of rows)) →
  ∃ df cols body,
    DataFrame_from_dict_index (object_of rows) = inr df ∧
    index df = map LStr (keys rows) ∧
    columns df = map LStr cols ∧
    csv_records df = (EmptyString :: cols) :: body ∧
    length body = length rows ∧
    (∀ i k d, rows !! i = Some (k, d) → ∃ fields, body !! i = Some (k :: fields)) ∧
    (∀ i k, rows !! i = Some (k, []) →
            body !! i = Some (k :: replicate (length cols) EmptyString)) ∧
    EvPrint (MsgLoaded (length rows, length cols) (map LStr cols))
      ∈ log (json_to_csv inp out enc w).2.
Proof.
  intros Hnd Hall Hr.
  set (df := frame_of_nested (keys rows) (nest rows [])).
  set (cols := first_seen (all_keys (map snd rows))).
  assert (columns df = map LStr cols) as Hcols by apply columns_frame_of_nested.
  exists df, cols. eexists. split_and!.
  - apply DataFrame_from_dict_index_objects.
  - done.
  - done.
  - unfold df. rewrite csv_records_frame_of_nested by done. fold df cols.
    unfold header_fields. rewrite Hcols, map_map. simpl. rewrite map_id. done.
  - apply length_map.
  - intros i k d Hi. eexists.
    change (map ?f ?l) with (f <$> l). rewrite list_lookup_fmap, Hi. done.
  - intros i k Hi.
    change (map ?f ?l) with (f <$> l). rewrite list_lookup_fmap, Hi. simpl.
    unfold emitted. simpl. do 2 f_equal. clearbody df. clear.
    generalize 0%nat as j. unfold imap.
    induction cols as [|c cols IH]; intros j; simpl; [done|]. f_equal.
    rewrite <- (IH (S j)). apply imap_ext. done.
  - assert (table_of (PDict (object_of rows)) = Some (inr df)) as Ht.
    { unfold table_of. f_equal. apply DataFrame_from_dict_index_objects. }
    pose proof (json_to_csv_reports inp out enc w _ _ Hr Ht) as Hlog.
    unfold shape in Hlog. rewrite Hcols in Hlog.
    change (index df) with (map LStr (keys rows)) in Hlog.
    unfold keys in Hlog. by rewrite !length_map in Hlog.
Qed.

Lemma from_nested_dict_not_objects nd (d : list (string * pyval)) :
  forallb (fun kv => isinstance_dict (snd kv)) d = false →
  ∃ v, v ∈ map snd d ∧ isinstance_dict v = false ∧
       from_nested_dict nd d = inl (AttributeError v "items").
Proof.
  revert nd. induction d as [|[k v] d IH]; intros nd; simpl; [done|].
  destruct v; simpl;
    try (intros _; eexists; split_and!; [apply list_elem_of_here|done..]).
  intros Hd. destruct (IH (fold_left (nested_add k) items nd) Hd) as (v & Hv & Hnot & ->).
  exists v. split_and!; [by apply list_elem_of_further|done..].
Qed.

(** X11.  An object whose first value is an object and which holds some
    value that is not an object is rejected: building the table raises
    [AttributeError] on such a value (it has no [items]), the general
    handler prints it, and the function returns [False] without writing. *)
Theorem object_with_a_stray_value_rejected inp out enc w k0 d0
  (rest : list (string * pyval)) :
  reads w inp enc (PDict ((k0, PDict d0) :: rest)) →
  forallb (fun kv => isinstance_dict (snd kv)) rest = false →
  ∃ v, v ∈ map snd rest ∧ isinstance_dict v = false ∧
       json_to_csv inp out enc w =
       (inr (PBool false),
        after w None (loading inp ++ [EvPrint (MsgUnexpected (AttributeError v "items"))])).
Proof.
  intros Hr Hrest.
  destruct (from_nested_dict_not_objects (fold_left (nested_add k0) d0 []) rest Hrest)
    as (v & Hv & Hnot & Hfail).
  exists v. split_and!; [done..|].
  rewrite json_to_csv_closed_form. unfold closed_form. rewrite (load_reads _ _ _ _ Hr).
  unfold table_of, DataFrame_from_dict_index. cbn [from_nested_dict]. by rewrite Hfail.
Qed.

Lemma load_VTable w inp enc evs df :
  load w inp enc = (evs, VTable df) →
  evs = loading inp ∧ ∃ data, reads w inp enc data ∧ table_of data = Some (inr df).
Proof.
  unfold load, reads.
  destruct (fs w !! inp) as [[b|n]|] eqn:Hfs; try done.
  destruct (decide (inp ∈ no_read w)); [done|].
  destruct (codec_lookup enc) eqn:Hcodec; [|done]. simpl.
  destruct (codec_decode enc b) as [e|text] eqn:Hdec; [done|].
  destruct (json_loads text) as [e|data] eqn:Hjs; [done|].
  destruct (table_of data) as [[e|df']|] eqn:Ht; try done.
  intros [= <- <-]. split; [done|]. exists data. split; [|done]. by exists b, text.
Qed.

Lemma load_opens_nothing_for_writing w inp enc q :
  EvOpen q "w" ∉ (load w inp enc).1.
Proof.
  unfold load.
  destruct (fs w !! inp) as [[b|n]|]; simpl;
    [destruct (decide (inp ∈ no_read w)); simpl;
     [|destruct (codec_lookup enc); simpl;
       [destruct (codec_decode enc b) as [e|text]; simpl;
        [|destruct (json_loads text) as [e|data]; simpl;
          [|destruct (table_of data) as [[e|df']|]; simpl]]|]]|..];
    rewrite ?not_elem_of_cons; split_and?; try done; apply not_elem_of_nil.
Qed.

Lemma save_opens_once w df p enc :
  ∃ tl, (save w df p enc).1.1 = saving df p ++ tl ∧ ∀ q, EvOpen q "w" ∉ tl.
Proof.
  unfold save. destruct (decide (p ∈ no_write w)).
  { eexists. split; [done|]. intros q. rewrite not_elem_of_cons. split; [done|apply not_elem_of_nil]. }
  assert (∀ e q, EvOpen q "w" ∉ [EvPrint (handler_message e)]) as Hh.
  { intros e q. rewrite not_elem_of_cons. split; [done|apply not_elem_of_nil]. }
  destruct (fs w !! p) as [[b|n']|];
    [destruct (codec_encode enc (csv_text df)) as [[e wr]|bytes]| |
     destruct (codec_encode enc (csv_text df)) as [[e wr]|bytes]];
    (eexists; split; [done|]); intros q; try apply Hh;
    rewrite ?not_elem_of_cons; split_and?; try done; apply not_elem_of_nil.
Qed.

(** X12.  The only path a call opens for writing is the output path, and
    it does so only after the input has been read and parsed and the table
    built and announced; nothing is opened for writing after that. *)
Theorem writes_only_after_the_table inp out enc w evs p :
  log (json_to_csv inp out enc w).2 = log w ++ evs →
  EvOpen p "w" ∈ evs →
  p = output_path inp out ∧
  ∃ data df tl,
    reads w inp enc data ∧ table_of data = Some (inr df) ∧
    evs = loading inp ++ saving df (output_path inp out) ++ tl ∧
    ∀ q, EvOpen q "w" ∉ tl.
Proof.
  rewrite json_to_csv_closed_form. unfold closed_form.
  pose proof (load_opens_nothing_for_writing w inp enc p) as Hload.
  destruct (load w inp enc) as [evs0 v] eqn:Hl. simpl in Hload.
  destruct v as [|e| |df]; simpl.
  - intros ->%app_inv_head. done.
  - intros <-%app_inv_head. rewrite elem_of_app, list_elem_of_singleton.
    intros [?|?]; [done|]. by destruct e.
  - intros ->%app_inv_head. done.
  - apply load_VTable in Hl as (-> & data & Hr & Ht).
    destruct (save_opens_once w df (output_path inp out) enc) as (tl & Hsave & Htl).
    destruct (save w df (output_path inp out) enc) as [[evs' written] ok].
    cbn [fst snd] in Hsave. subst evs'. unfold after. cbn [snd log].
    intros <-%app_inv_head Hin.
    split.
    + rewrite !elem_of_app in Hin. destruct Hin as [Hin|[Hin|Hin]].
      * done.
      * unfold saving in Hin. rewrite !elem_of_cons in Hin.
        destruct Hin as [?|[?|[?|[Heq|Hnil]]]]; try done; [by injection Heq|].
        by apply elem_of_nil in Hnil.
      * by apply Htl in Hin.
    + by exists data, df, tl.
Qed.
End Function.

(** * More on the script [main.py] *)

Section ScriptMore.
Context `{Runtime} `{Console} `{!Encodes}.

Ltac use_eqs :=
  repeat match goal with
         | Heq : ?x = _ |- context [?x] => rewrite Heq
         end.

Ltac run :=
  repeat (simpl; unfold say; rewrite ?print_emit, ?codec_lookup_utf8;
          unfold bind, emit, return_, raise, ret, lift, add_log, set_fs,
            open_r, json_load, to_csv, raise_JSONDecodeError_class;
          simpl; use_eqs).

Lemma main_py_outcome inp out w :
  (call (main_py inp out) w).1 = inr PNone ∧
  fs (call (main_py inp out) w).2 = files_after w inp out "utf-8" ∧
  no_read (call (main_py inp out) w).2 = no_read w ∧
  no_write (call (main_py inp out) w).2 = no_write w.
Proof.
  destruct w as [f nr nw lg].
  unfold files_after, load, save, call, main_py, try_except. run.
  destruct (f !! inp) as [[b|n]|] eqn:Hin; run; [|done..].
  destruct (decide (inp ∈ nr)); run; [done|].
  destruct (codec_decode "utf-8" b) as [e1|text]; run.
  { destruct e1 as [m|cls m]; run; [done|]. by destruct (decide (cls = "FileNotFoundError")). }
  destruct (json_loads text) as [e2|data]; run.
  { destruct e2 as [m|cls m]; run; [done|]. by destruct (decide (cls = "FileNotFoundError")). }
  destruct data as [| | | | |l|d]; try (run; done).
  - simpl. destruct (DataFrame_of_list None l) as [e3|df]; run.
    { destruct e3 as [m|cls m]; run; [done|]. by destruct (decide (cls = "FileNotFoundError")). }
    destruct (decide (out ∈ nw)); run; [done|].
    destruct (f !! out) as [[b'|n']|] eqn:Hout; run; try done;
      destruct (codec_encode "utf-8" (csv_text df)) as [[e4 wr]|bytes]; run; try done;
      destruct e4 as [m|cls m]; run; try done;
      by destruct (decide (cls = "FileNotFoundError")).
  - simpl. destruct (DataFrame_from_dict_index d) as [e3|df]; run.
    { destruct e3 as [m|cls m]; run; [done|]. by destruct (decide (cls = "FileNotFoundError")). }
    destruct (decide (out ∈ nw)); run; [done|].
    destruct (f !! out) as [[b'|n']|] eqn:Hout; run; try done;
      destruct (codec_encode "utf-8" (csv_text df)) as [[e4 wr]|bytes]; run; try done;
      destruct e4 as [m|cls m]; run; try done;
      by destruct (decide (cls = "FileNotFoundError")).
Qed.

Lemma json_to_csv_files inp out enc w :
  fs (json_to_csv inp (Some out) enc w).2 = files_after w inp out enc.
Proof.
  rewrite json_to_csv_closed_form. unfold closed_form, files_after.
  destruct (load w inp enc) as [evs v]. destruct v as [|e| |df]; try done.
  simpl. destruct (save w df out enc) as [[evs' written] ok]. simpl.
  by destruct written.
Qed.

(** X17.  On the same files, the script [main.py] and [json_to_csv] called
    with the same two paths and UTF-8 leave the same files: both write the
    same CSV, or neither writes. *)
Theorem main_py_same_files_as_json_to_csv inp out w :
  fs (call (main_py inp out) w).2 = fs (json_to_csv inp (Some out) "utf-8" w).2.
Proof.
  rewrite json_to_csv_files. apply main_py_outcome.
Qed.
End ScriptMore.

(** * The caller [main()] *)

Lemma append_cons x a b : String x a +:+ b = String x (a +:+ b).
Proof. reflexivity. Qed.

Lemma append_length a b :
  String.length (a +:+ b) = (String.length a + String.length b)%nat.
Proof.
  induction a as [|x a IH]; [done|]. rewrite append_cons. simpl. by rewrite IH.
Qed.

Lemma append_inv_head a b c : a +:+ b = a +:+ c → b = c.
Proof.
  induction a as [|x a IH]; [done|]. rewrite !append_cons. intros [= Heq]. auto.
Qed.

Lemma append_assoc a b c : (a +:+ b) +:+ c = a +:+ (b +:+ c).
Proof.
  induction a as [|x a IH]; [done|]. rewrite !append_cons. by rewrite IH.
Qed.

Lemma join_component_relative path b :
  starts_with_sep b = false → join_component path b = joint path +:+ b.
Proof.
  intros Hb. unfold join_component, joint. rewrite Hb.
  destruct (bool_decide (path = EmptyString) || ends_with_sep path); [done|].
  by rewrite append_assoc.
Qed.

Lemma json_path_eq cd : json_path cd = joint (dataset_path cd) +:+ "pokemonDB_dataset.json".
Proof. unfold json_path, dataset_path. simpl. by rewrite (join_component_relative _ "pokemonDB_dataset.json"). Qed.

Lemma csv_path_eq cd : csv_path cd = joint (dataset_path cd) +:+ "pokemonDB_converted.csv".
Proof. unfold csv_path, dataset_path. simpl. by rewrite (join_component_relative _ "pokemonDB_converted.csv"). Qed.

Lemma json_path_ne_csv_path cd : json_path cd ≠ csv_path cd.
Proof. rewrite json_path_eq, csv_path_eq. intros Heq%append_inv_head. discriminate. Qed.

Lemma joint_length path : (String.length path ≤ String.length (joint path))%nat.
Proof.
  unfold joint. destruct (bool_decide (path = EmptyString) || ends_with_sep path); [done|].
  rewrite append_length. lia.
Qed.

Lemma json_path_ne_dataset_path cd : json_path cd ≠ dataset_path cd.
Proof.
  rewrite json_path_eq. intros Heq. apply (f_equal String.length) in Heq.
  rewrite append_length in Heq. pose proof (joint_length (dataset_path cd)). simpl in Heq. lia.
Qed.

Lemma csv_path_ne_dataset_path cd : csv_path cd ≠ dataset_path cd.
Proof.
  rewrite csv_path_eq. intros Heq. apply (f_equal String.length) in Heq.
  rewrite append_length in Heq. pose proof (joint_length (dataset_path cd)). simpl in Heq. lia.
Qed.

Section MainFacts.
Context `{Runtime} `{Console} `{!Encodes}.
Variable new_directory_size : nat.

Lemma json_to_csv_bool inp out enc w :
  ∃ b, (json_to_csv inp out enc w).1 = inr (PBool b).
Proof.
  rewrite json_to_csv_closed_form. unfold closed_form.
  destruct (load w inp enc) as [evs v]. destruct v as [|e| |df]; try by exists false.
  destruct (save w df (output_path inp out) enc) as [[evs' written] ok]. by exists ok.
Qed.

(** [main()] when the folder is there or can be made: the conversion runs
    and its answer picks the last line. *)
Lemma main_runs_the_conversion cd s :
  is_Some (s_fs s !! dataset_path cd) ∨ dataset_path cd ∉ s_no_write s →
  ∃ b,
    (conversion cd (with_folder new_directory_size cd s)).1 = inr (PBool b) ∧
    run_caller (main new_directory_size cd) s =
    (inr PNone,
     add_step (Said (verdict_line b))
       (absorb (with_folder new_directory_size cd s)
          (conversion cd (with_folder new_directory_size cd s)).2)).
Proof.
  intros Hok.
  set (s1 := with_folder new_directory_size cd s).
  destruct (json_to_csv_bool (json_path cd) (Some (csv_path cd)) "utf-8" (world_of s1))
    as [b Hb].
  exists b. split; [done|].
  assert (∀ s0 : session, world_of s0 = world_of s1 → trace s0 = trace s1 →
    (let (c, s') :=
       bindC (call_function (json_to_csv (json_path cd) (Some (csv_path cd)) "utf-8"))
         (fun success =>
            if truthy success
            then tell (MainSuccess "pokemonDB_dataset.json" "pokemonDB_converted.csv")
            else tell MainFailure) s0 in
     match c with
     | Next _ => (inr PNone, s')
     | Return v => (inr v, s')
     | Raise e => (inl e, s')
     end) =
    (inr PNone, add_step (Said (verdict_line b)) (absorb s1 (conversion cd s1).2))) as Hrest.
  { intros s0 Hw Htr. unfold bindC, call_function, conversion. rewrite Hw.
    destruct (json_to_csv (json_path cd) (Some (csv_path cd)) "utf-8" (world_of s1))
      as [r w'] eqn:Hc.
    simpl in Hb. subst r. simpl. unfold absorb, tell. rewrite Htr.
    destruct b; simpl; by rewrite stdout_encodes. }
  unfold run_caller, main. unfold bindC at 1. unfold tell at 1; rewrite stdout_encodes.
  unfold bindC at 1. unfold inner at 1.
  fold (dataset_path cd) (json_path cd) (csv_path cd).
  unfold os_path_exists, bind, emit, add_log. simpl.
  unfold s1, with_folder in *.
  destruct (s_fs s !! dataset_path cd) as [n|] eqn:Hn; simpl.
  - unfold bindC at 1. unfold retC at 1. apply Hrest.
    + done.
    + simpl. by rewrite <- app_assoc.
  - destruct Hok as [[? ?]|Hw]; [done|].
    unfold bindC at 1. unfold bindC at 1. unfold tell at 1; rewrite stdout_encodes. unfold bindC at 1.
    unfold os_makedirs at 1. simpl. rewrite Hn, decide_False by done.
    unfold bindC at 1. unfold tell at 1; rewrite stdout_encodes. apply Hrest.
    + done.
    + simpl. by rewrite <- !app_assoc.
Qed.

(** [main()] when the folder is missing and may not be made: the exception
    of [os.makedirs] leaves the function. *)
Lemma main_refused cd s :
  s_fs s !! dataset_path cd = None →
  dataset_path cd ∈ s_no_write s →
  run_caller (main new_directory_size cd) s =
  (inl (Exception "PermissionError" (dataset_path cd)),
   mkSession (s_fs s) (s_no_read s) (s_no_write s)
     (trace s ++ [Said MainBanner; Inner (EvExists (dataset_path cd));
                  Said (MainFolderMissing "dataset"); Makedirs (dataset_path cd)])).
Proof.
  intros Hn Hw.
  unfold run_caller, main. unfold bindC at 1. unfold tell at 1; rewrite stdout_encodes.
  unfold bindC at 1. unfold inner at 1.
  fold (dataset_path cd) (json_path cd) (csv_path cd).
  unfold os_path_exists, bind, emit, add_log. simpl. rewrite Hn. simpl.
  unfold bindC at 1. unfold bindC at 1. unfold tell at 1; rewrite stdout_encodes. unfold bindC at 1.
  unfold os_makedirs at 1. simpl. rewrite Hn, decide_True by done. simpl.
  unfold add_step, absorb. simpl. by rewrite <- !app_assoc.
Qed.

Lemma json_to_csv_answer inp out enc w :
  (json_to_csv inp (Some out) enc w).1 = inr (PBool (answer w inp out enc)).
Proof.
  rewrite json_to_csv_closed_form. unfold closed_form, answer.
  destruct (load w inp enc) as [evs v]. destruct v as [|e| |df]; try done.
  simpl. by destruct (save w df out enc) as [[evs' written] ok].
Qed.

Lemma json_to_csv_permissions inp out enc w :
  no_read (json_to_csv inp out enc w).2 = no_read w ∧
  no_write (json_to_csv inp out enc w).2 = no_write w.
Proof.
  rewrite json_to_csv_closed_form. unfold closed_form.
  destruct (load w inp enc) as [evs v]. destruct v as [|e| |df]; try done.
  by destruct (save w df (output_path inp out) enc) as [[evs' written] ok].
Qed.

Lemma files_after_other w inp out enc p :
  p ≠ out → files_after w inp out enc !! p = fs w !! p.
Proof.
  intros Hp. unfold files_after. destruct (load w inp enc).2; try done.
  destruct (save w df out enc).1.2; [|done]. by rewrite lookup_insert_ne.
Qed.

Lemma load_same_verdict w w' inp enc :
  fs w' !! inp = fs w !! inp → no_read w' = no_read w →
  load w' inp enc = load w inp enc.
Proof. intros Hfs Hr. unfold load. by rewrite Hfs, Hr. Qed.

(** A second conversion, on the files the first one left. *)
Lemma conversion_again w w1 inp out enc :
  out ≠ inp →
  fs w1 = files_after w inp out enc →
  no_read w1 = no_read w →
  no_write w1 = no_write w →
  files_after w1 inp out enc = fs w1 ∧ answer w1 inp out enc = answer w inp out enc.
Proof.
  intros Hne Hfs Hnr Hnw.
  assert (load w1 inp enc = load w inp enc) as Hload.
  { apply load_same_verdict; [|done]. rewrite Hfs. apply files_after_other. congruence. }
  unfold files_after, answer in *. rewrite Hload.
  destruct (load w inp enc).2 as [|e| |df]; try done.
  unfold save in *. rewrite Hnw.
  destruct (decide (out ∈ no_write w)); simpl in *; [done|].
  destruct (fs w !! out) as [[b|n']|] eqn:Hout; simpl in *.
  - destruct (codec_encode enc (csv_text df)) as [[e wr]|bytes]; simpl in *;
      rewrite Hfs, lookup_insert_eq; simpl; by rewrite insert_insert_eq.
  - by rewrite Hfs, Hout.
  - destruct (codec_encode enc (csv_text df)) as [[e wr]|bytes]; simpl in *;
      rewrite Hfs, lookup_insert_eq; simpl; by rewrite insert_insert_eq.
Qed.

Lemma answer_true w inp out enc :
  answer w inp out enc = true ↔
  ∃ data df bytes,
    reads w inp enc data ∧ table_of data = Some (inr df) ∧
    writes w out enc (csv_text df) bytes.
Proof.
  unfold answer. split.
  - destruct (load w inp enc) as [evs v] eqn:Hload. simpl.
    destruct v as [|e| |df]; try done.
    destruct (save w df out enc) as [[evs' written] ok] eqn:Hsave. simpl. intros ->.
    apply load_VTable in Hload as (_ & data & Hr & Ht).
    apply save_true in Hsave as (bytes & Hw & _). by exists data, df, bytes.
  - intros (data & df & bytes & Hr & Ht & Hw).
    rewrite (load_reads _ _ _ _ Hr), Ht. simpl. by rewrite (save_writes _ _ _ _ _ Hw).
Qed.

Lemma with_folder_world cd s :
  no_read (world_of (with_folder new_directory_size cd s)) = s_no_read s ∧
  no_write (world_of (with_folder new_directory_size cd s)) = s_no_write s ∧
  is_Some (fs (world_of (with_folder new_directory_size cd s)) !! dataset_path cd) ∧
  ∀ p, p ≠ dataset_path cd →
       fs (world_of (with_folder new_directory_size cd s)) !! p = s_fs s !! p.
Proof.
  unfold with_folder. destruct (s_fs s !! dataset_path cd) as [n|] eqn:Hn; simpl.
  - rewrite Hn. by split_and!.
  - rewrite lookup_insert_eq. split_and!; [done..|].
    intros p Hp. by rewrite lookup_insert_ne.
Qed.

Lemma with_folder_trace cd s :
  ∃ pre, trace (with_folder new_directory_size cd s) = trace s ++ pre.
Proof.
  unfold with_folder. destruct (s_fs s !! dataset_path cd); simpl; by eexists.
Qed.

(** X18.  When the [dataset] folder is missing and may be created,
    [main()] says so, creates it, says it did, and calls the conversion,
    which finds no input there: [main()] ends normally on the failure
    line, and the new folder is the only change on disk. *)
Theorem main_makes_the_missing_folder cd s :
  s_fs s !! dataset_path cd = None →
  dataset_path cd ∉ s_no_write s →
  s_fs s !! json_path cd = None →
  run_caller (main new_directory_size cd) s =
  (inr PNone,
   mkSession (<[dataset_path cd := Directory new_directory_size]> (s_fs s))
     (s_no_read s) (s_no_write s)
     (trace s ++ [Said MainBanner; Inner (EvExists (dataset_path cd));
                  Said (MainFolderMissing "dataset"); Makedirs (dataset_path cd);
                  Said (MainFolderCreated "dataset");
                  Inner (EvExists (json_path cd));
                  Inner (EvPrint (MsgMissing (json_path cd)));
                  Said MainFailure])).
Proof.
  intros Hn Hw Hj.
  destruct (main_runs_the_conversion cd s) as (b & Hb & ->); [by right|].
  revert Hb. unfold conversion. rewrite json_to_csv_closed_form. unfold closed_form, load.
  unfold with_folder. rewrite Hn. simpl.
  rewrite lookup_insert_ne by (apply not_eq_sym, json_path_ne_dataset_path). rewrite Hj.
  simpl. intros [= <-]. unfold add_step, absorb. simpl. by rewrite <- !app_assoc.
Qed.

(** X19.  [main()] changes nothing on disk but the [dataset] folder and
    the CSV inside it; in particular the JSON input is as it was. *)
Theorem main_touches_only_the_folder_and_the_csv cd s :
  (∀ p, p ≠ dataset_path cd → p ≠ csv_path cd →
        s_fs (run_caller (main new_directory_size cd) s).2 !! p = s_fs s !! p) ∧
  s_fs (run_caller (main new_directory_size cd) s).2 !! json_path cd
    = s_fs s !! json_path cd.
Proof.
  assert (∀ p, p ≠ dataset_path cd → p ≠ csv_path cd →
    s_fs (run_caller (main new_directory_size cd) s).2 !! p = s_fs s !! p) as Hother.
  { intros p Hd Hc.
    destruct (s_fs s !! dataset_path cd) as [n|] eqn:Hn;
      [|destruct (decide (dataset_path cd ∈ s_no_write s)) as [Hw|Hw]].
    - destruct (main_runs_the_conversion cd s) as (b & _ & ->); [left; by eexists|].
      simpl. unfold conversion. rewrite json_to_csv_files, files_after_other by done.
      by apply with_folder_world.
    - by rewrite main_refused.
    - destruct (main_runs_the_conversion cd s) as (b & _ & ->); [by right|].
      simpl. unfold conversion. rewrite json_to_csv_files, files_after_other by done.
      by apply with_folder_world. }
  split; [done|]. apply Hother.
  - apply json_path_ne_dataset_path.
  - apply json_path_ne_csv_path.
Qed.

(** X20.  When the folder is there or can be made, [main()] ends normally
    and its last line is the success line exactly when the input was read,
    the table built and the CSV written (the file is then on disk);
    otherwise it is the failure line. *)
Theorem main_last_line_tells_the_outcome cd s :
  is_Some (s_fs s !! dataset_path cd) ∨ dataset_path cd ∉ s_no_write s →
  let w0 := world_of (with_folder new_directory_size cd s) in
  let r := run_caller (main new_directory_size cd) s in
  ∃ b tr,
    r.1 = inr PNone ∧
    trace r.2 = trace s ++ tr ++ [Said (verdict_line b)] ∧
    (b = true ↔
     ∃ data df bytes,
       reads w0 (json_path cd) "utf-8" data ∧ table_of data = Some (inr df) ∧
       writes w0 (csv_path cd) "utf-8" (csv_text df) bytes ∧
       s_fs r.2 !! csv_path cd = Some (File bytes)).
Proof.
  intros Hok w0 r. unfold r.
  destruct (main_runs_the_conversion cd s Hok) as (b & Hb & ->).
  unfold conversion in *. fold w0 in Hb |- *.
  rewrite json_to_csv_answer in Hb. injection Hb as Hb.
  destruct (with_folder_trace cd s) as [pre Hpre].
  exists b, (pre ++ map Inner (log (json_to_csv (json_path cd) (Some (csv_path cd)) "utf-8" w0).2)).
  split_and!.
  - done.
  - unfold add_step, absorb. cbn [trace snd]. rewrite Hpre. by rewrite <- !app_assoc.
  - rewrite <- Hb. rewrite answer_true. simpl. rewrite json_to_csv_files.
    split.
    + intros (data & df & bytes & Hr & Ht & Hw). exists data, df, bytes.
      split_and!; [done..|]. unfold files_after.
      rewrite (load_reads _ _ _ _ Hr), Ht. simpl. rewrite (save_writes _ _ _ _ _ Hw). simpl.
      apply lookup_insert_eq.
    + intros (data & df & bytes & Hr & Ht & Hw & _). by exists data, df, bytes.
Qed.

(** X21.  [main()] has no handler of its own: when the folder is missing
    and may not be created, the [PermissionError] of [os.makedirs] leaves
    [main()].  The existence test of the folder is all that was asked of
    the file system before: the conversion is not called, and no file
    changes. *)
Theorem main_stops_when_the_folder_cannot_be_made cd s :
  s_fs s !! dataset_path cd = None →
  dataset_path cd ∈ s_no_write s →
  let r := run_caller (main new_directory_size cd) s in
  r.1 = inl (Exception "PermissionError" (dataset_path cd)) ∧
  s_fs r.2 = s_fs s ∧
  ∃ steps,
    trace r.2 = trace s ++ steps ∧
    last steps = Some (Makedirs (dataset_path cd)) ∧
    ∀ ev, Inner ev ∈ steps → ev = EvExists (dataset_path cd).
Proof.
  intros Hn Hw r. unfold r. rewrite (main_refused cd s Hn Hw). cbn [fst snd].
  split_and!; [done..|]. eexists. split_and!; [done..|].
  intros ev Hev. rewrite !elem_of_cons in Hev.
  destruct Hev as [?|[Heq|[?|[?|Hnil]]]]; try done; [by injection Heq|].
  by apply elem_of_nil in Hnil.
Qed.
End MainFacts.

Section MainTwice.
Context `{Runtime} `{Console} `{!Encodes}.
Variable new_directory_size : nat.

(** X22.  Running [main()] a second time, on what the first run left,
    changes no file, ends the same way and prints the same last line. *)
Theorem main_twice cd s :
  let first := run_caller (main new_directory_size cd) s in
  let second := run_caller (main new_directory_size cd) first.2 in
  s_fs second.2 = s_fs first.2 ∧
  second.1 = first.1 ∧
  last (trace second.2) = last (trace first.2).
Proof.
  intros first second. unfold second, first. clear first second.
  destruct (decide (is_Some (s_fs s !! dataset_path cd) ∨ dataset_path cd ∉ s_no_write s))
    as [Hok|Hno].
  - destruct (main_runs_the_conversion new_directory_size cd s Hok) as (b & Hb & ->).
    set (sf := with_folder new_directory_size cd s) in *.
    set (s1 := add_step (Said (verdict_line b)) (absorb sf (conversion cd sf).2)).
    cbn [fst snd].
    destruct (with_folder_world new_directory_size cd s) as (Hnr & Hnw & Hd & _).
    fold sf in Hnr, Hnw, Hd.
    destruct (json_to_csv_permissions (json_path cd) (Some (csv_path cd)) "utf-8" (world_of sf))
      as [Hpr Hpw].
    assert (s_fs s1 = files_after (world_of sf) (json_path cd) (csv_path cd) "utf-8") as Hfs1.
    { unfold s1, conversion. simpl. apply json_to_csv_files. }
    assert (is_Some (s_fs s1 !! dataset_path cd)) as Hd1.
    { rewrite Hfs1, files_after_other by (apply not_eq_sym, csv_path_ne_dataset_path). done. }
    destruct (main_runs_the_conversion new_directory_size cd s1 (or_introl Hd1))
      as (b' & Hb' & ->).
    set (sf1 := with_folder new_directory_size cd s1) in *.
    assert (fs (world_of sf1) = s_fs s1 ∧ no_read (world_of sf1) = no_read (world_of sf) ∧
            no_write (world_of sf1) = no_write (world_of sf)) as (Hw1 & Hr1 & Hww1).
    { unfold sf1, with_folder. destruct Hd1 as [n ->]. simpl.
      unfold s1, conversion. simpl. by rewrite Hpr, Hpw. }
    destruct (conversion_again (world_of sf) (world_of sf1) (json_path cd) (csv_path cd) "utf-8")
      as [Hfiles Hans]; [apply not_eq_sym, json_path_ne_csv_path|congruence|done..|].
    unfold conversion in Hb, Hb'. rewrite json_to_csv_answer in Hb, Hb'.
    injection Hb as Hb. injection Hb' as Hb'.
    assert (b' = b) as -> by congruence.
    cbn [fst snd]. split_and!.
    + unfold conversion, add_step, absorb. cbn [s_fs].
      rewrite json_to_csv_files, Hfiles. done.
    + done.
    + unfold s1, add_step. cbn [trace]. by rewrite !last_snoc.
  - assert (s_fs s !! dataset_path cd = None) as Hn.
    { destruct (s_fs s !! dataset_path cd) eqn:Hd; [|done]. destruct Hno. left. by eexists. }
    assert (dataset_path cd ∈ s_no_write s) as Hw.
    { destruct (decide (dataset_path cd ∈ s_no_write s)); [done|]. destruct Hno. by right. }
    rewrite (main_refused _ cd s Hn Hw). cbn [fst snd].
    rewrite main_refused by done. simpl.
    split_and!; [done..|].
    by rewrite !last_app.
Qed.
End MainTwice.

(** * The script [OtraVersion/json_a_csv.py] *)

Section OtraFacts.
Context `{Runtime} `{Console} `{!Encodes}.
Variable frame_of_mixed_dict : list (string * pyval) -> exn + DataFrame.

Ltac step_caller :=
  unfold run_caller, json_a_csv;
  repeat (unfold bindC at 1; unfold inner at 1);
  unfold open_r, json_load, to_csv_no_index, bind, emit, add_log, lift, ret, raise;
  simpl.

(** X23.  [json_a_csv.py] has no handler: without [datos.json] the
    [FileNotFoundError] of [open] ends the script; nothing is written and
    nothing is printed. *)
Theorem json_a_csv_missing_input s :
  s_fs s !! "datos.json" = None →
  run_caller (json_a_csv frame_of_mixed_dict) s =
  (inl (Exception "FileNotFoundError" "datos.json"),
   mkSession (s_fs s) (s_no_read s) (s_no_write s)
     (trace s ++ [Inner (EvOpen "datos.json" "r")])).
Proof.
  intros Hfs. step_caller. rewrite Hfs. done.
Qed.

(** X24.  In [json_a_csv.py] an exception of the codec, of the JSON parser
    or of the DataFrame constructor ends the script with that exception:
    [salida.csv] is not opened, no file changes and the closing line is
    not printed. *)
Theorem json_a_csv_failure_leaves_the_script s bytes e :
  s_fs s !! "datos.json" = Some (File bytes) →
  "datos.json" ∉ s_no_read s →
  (codec_decode "utf-8" bytes = inl e ∨
   ∃ text, codec_decode "utf-8" bytes = inr text ∧
     (json_loads text = inl e ∨
      ∃ data, json_loads text = inr data ∧
              DataFrame_of frame_of_mixed_dict data = inl e)) →
  run_caller (json_a_csv frame_of_mixed_dict) s =
  (inl e,
   mkSession (s_fs s) (s_no_read s) (s_no_write s)
     (trace s ++ [Inner (EvOpen "datos.json" "r"); Inner EvJsonLoad])).
Proof.
  intros Hfs Hr Hfail. step_caller. rewrite Hfs.
  rewrite decide_False by done. rewrite codec_lookup_utf8. simpl.
  destruct Hfail as [->|(text & -> & [->|(data & -> & Hdf)])]; simpl;
    unfold absorb; simpl; rewrite <- ?app_assoc; try done.
  rewrite Hdf. simpl. by rewrite app_nil_r.
Qed.

Lemma csv_records_no_index_frame_of_records ds :
  csv_records_no_index (frame_of_records None ds) =
  first_seen (all_keys ds) ::
  map (fun d => imap (fun j c => cell_text (column_cells (frame_of_records None ds) j)
                                   (dict_get d c))
                  (first_seen (all_keys ds))) ds.
Proof.
  unfold csv_records_no_index. f_equal.
  - rewrite (columns_frame_of_records None ds), map_map. simpl. apply map_id.
  - assert (values (frame_of_records None ds)
            = map (fun d => map (dict_get d) (first_seen (all_keys ds))) ds) as ->.
    { unfold frame_of_records. simpl.
      by rewrite fast_unique_multiple_list_concat, fast_unique_nil. }
    rewrite map_map. apply map_ext. intros d.
    change (map (dict_get d) ?k) with (dict_get d <$> k). by rewrite imap_fmap.
Qed.

Lemma csv_records_labelled df :
  csv_records df =
  zip_with cons (EmptyString :: map label_text (index df)) (csv_records_no_index df).
Proof.
  unfold csv_records, csv_records_no_index, header_fields. cbn [zip_with]. f_equal.
  generalize (index df) as idx. generalize (values df) as rows.
  induction rows as [|row rows IH]; intros [|l idx]; cbn [zip_with map]; try done.
  by rewrite IH.
Qed.

(** The script on an array of objects that it can read and write. *)
Lemma json_a_csv_writes s (ds : list (list (string * pyval))) bytes :
  reads (world_of s) "datos.json" "utf-8" (PList (map PDict ds)) →
  writes (world_of s) "salida.csv" "utf-8"
    (csv_text_no_index (frame_of_records None ds)) bytes →
  run_caller (json_a_csv frame_of_mixed_dict) s =
  (inr PNone,
   mkSession (<["salida.csv" := File bytes]> (s_fs s)) (s_no_read s) (s_no_write s)
     (trace s ++ [Inner (EvOpen "datos.json" "r"); Inner EvJsonLoad;
                  Inner (EvOpen "salida.csv" "w"); Said (OtraGenerated "salida.csv")])).
Proof.
  intros (b & text & Hfs & Hr & Hcodec & Hdec & Hjs) (Hw & Hdir & Henc).
  simpl in Hfs, Hr, Hw, Hdir.
  step_caller. rewrite Hfs. rewrite decide_False by done. rewrite Hcodec. simpl.
  rewrite Hdec. simpl. rewrite Hjs. simpl.
  rewrite DataFrame_of_list_objects. simpl.
  rewrite decide_False by done. rewrite Henc.
  destruct (s_fs s !! "salida.csv") as [[b'|n]|] eqn:Hout; simpl;
    [|by destruct (Hdir n)|];
    unfold tell; rewrite stdout_encodes;
    unfold add_step, absorb; simpl; rewrite ?app_nil_r, <- ?app_assoc; done.
Qed.

(** X25.  For an array of objects in [datos.json], [json_a_csv.py] writes
    [salida.csv] and prints its closing line.  The CSV has no label column
    ([index=False]): the header is the column names in first-seen order,
    and each record has exactly one field per column, for the elements in
    the order of the array. *)
Theorem json_a_csv_array_of_objects s (ds : list (list (string * pyval))) bytes :
  let df := frame_of_records None ds in
  let cols := first_seen (all_keys ds) in
  reads (world_of s) "datos.json" "utf-8" (PList (map PDict ds)) →
  writes (world_of s) "salida.csv" "utf-8" (csv_text_no_index df) bytes →
  run_caller (json_a_csv frame_of_mixed_dict) s =
  (inr PNone,
   mkSession (<["salida.csv" := File bytes]> (s_fs s)) (s_no_read s) (s_no_write s)
     (trace s ++ [Inner (EvOpen "datos.json" "r"); Inner EvJsonLoad;
                  Inner (EvOpen "salida.csv" "w"); Said (OtraGenerated "salida.csv")])) ∧
  csv_text_no_index df =
    String.concat EmptyString (map writerow (csv_records_no_index df)) ∧
  csv_records_no_index df =
    cols :: map (fun d => imap (fun j c => cell_text (column_cells df j) (dict_get d c)) cols)
              ds ∧
  Forall (fun fields => length fields = length cols) (csv_records_no_index df).
Proof.
  intros df cols Hr Hw. split_and!.
  - by apply (json_a_csv_writes s ds bytes).
  - done.
  - apply csv_records_no_index_frame_of_records.
  - unfold df. rewrite (csv_records_no_index_frame_of_records ds). fold cols.
    apply Forall_cons. split; [done|]. apply Forall_forall.
    intros fields (d & -> & _)%list_elem_of_fmap. by rewrite length_imap.
Qed.

(** X26.  Run on the same array of objects, [json_to_csv] and
    [json_a_csv.py] write the same records but for the labels: the file of
    [json_to_csv] holds the records [json_a_csv.py] writes to [salida.csv],
    each with the label of its row put in front (the empty name, in front
    of the header). *)
Theorem json_to_csv_adds_the_labels inp out enc w s
  (ds : list (list (string * pyval))) bytes bytes' :
  let df := frame_of_records None ds in
  reads w inp enc (PList (map PDict ds)) →
  reads (world_of s) "datos.json" "utf-8" (PList (map PDict ds)) →
  writes w (output_path inp out) enc (csv_text df) bytes →
  writes (world_of s) "salida.csv" "utf-8" (csv_text_no_index df) bytes' →
  ∃ records records',
    fs (json_to_csv inp out enc w).2 !! output_path inp out = Some (File bytes) ∧
    s_fs (run_caller (json_a_csv frame_of_mixed_dict) s).2 !! "salida.csv"
      = Some (File bytes') ∧
    codec_encode enc (String.concat EmptyString (map writerow records)) = inr bytes ∧
    codec_encode "utf-8" (String.concat EmptyString (map writerow records')) = inr bytes' ∧
    length records' = S (length ds) ∧
    records =
      zip_with cons (EmptyString :: map label_text (default_index (length ds))) records'.
Proof.
  intros df Hr Hr' Hw Hw'. unfold df in *. clear df.
  exists (csv_records (frame_of_records None ds)),
    (csv_records_no_index (frame_of_records None ds)).
  assert (table_of (PList (map PDict ds)) = Some (inr (frame_of_records None ds))) as Ht.
  { simpl. by rewrite DataFrame_of_list_objects. }
  split_and!.
  - by apply (json_to_csv_True _ _ _ _ _ _ _ Hr Ht Hw).
  - rewrite (json_a_csv_writes s ds bytes' Hr' Hw'). simpl. apply lookup_insert_eq.
  - by destruct Hw as (_ & _ & ?).
  - by destruct Hw' as (_ & _ & ?).
  - unfold csv_records_no_index. simpl. by rewrite !length_map.
  - apply csv_records_labelled.
Qed.
End OtraFacts.

(** * The theorems on concrete files *)

(** The files below are converted on a UTF-8 terminal, unless another
    standard output is named. *)
#[local] Existing Instance Ref.console.
#[local] Existing Instance Ref.console_encodes.

(** The input is on disk, may be read, and parses as stated. *)
Ltac on_disk :=
  eexists _, _;
  split_and!; [reflexivity|apply not_elem_of_empty|reflexivity|reflexivity|
               vm_compute; reflexivity].

(** A decidable side condition, by evaluation. *)
Ltac decided := refine (bool_decide_unpack _ _); vm_compute; exact I.

(** The output may be written and the text encodes. *)
Ltac writable :=
  split_and!; [apply not_elem_of_empty|intros n; vm_compute; discriminate|
               vm_compute; reflexivity].

(** No file at all: the call stops at the existence test. *)
Lemma missing_input_checked_first_witness :
  json_to_csv "dataset/pokedex.json" None "utf-8" (Ref.disk []) =
  (inr (PBool false),
   after (Ref.disk []) None
     [EvExists "dataset/pokedex.json"; EvPrint (MsgMissing "dataset/pokedex.json")]).
Proof. apply (missing_input_checked_first (H := Ref.runtime)). reflexivity. Defined.

(** A trailing comma in the array: the parser refuses the document. *)
Lemma malformed_json_rejected_witness :
  let w := Ref.disk [("broken.json", Ref.json "[{'name':'Bulbasaur'},]")] in
  json_to_csv "broken.json" None "utf-8" w =
  (inr (PBool false),
   after w None (loading "broken.json" ++
                 [EvPrint (MsgDecodeError (JSONDecodeError "Expecting value"))])) ∧
  fs (json_to_csv "broken.json" None "utf-8" w).2 = fs w.
Proof.
  intros w.
  apply (malformed_json_rejected (H := Ref.runtime) "broken.json" None "utf-8" w
           (Ref.json "[{'name':'Bulbasaur'},]") (Ref.json "[{'name':'Bulbasaur'},]")).
  - reflexivity.
  - apply not_elem_of_empty.
  - reflexivity.
  - reflexivity.
  - vm_compute. reflexivity.
Defined.

(** An object, then a number: the constructor cannot iterate over the
    number. *)
Lemma unsupported_shape_rejected_witness :
  let data := PList [PDict [("a", PInt 1)]; PInt 2] in
  let w := Ref.disk [("mixed.json", Ref.json "[{'a':1},2]")] in
  ∃ evs,
    json_to_csv "mixed.json" None "utf-8" w = (inr (PBool false), after w None evs) ∧
    (∀ p, EvOpen p "w" ∉ evs) ∧
    (is_list_like data = false →
     evs = loading "mixed.json" ++ [EvPrint MsgIncompatible]) ∧
    (∀ d l, data = PList (PDict d :: l) →
       ∃ ds v post,
         l = map PDict ds ++ v :: post ∧
         isinstance_dict v = false ∧ is_iterable v = false ∧
         evs = loading "mixed.json" ++
               [EvPrint (MsgUnexpected (TypeError_not_iterable v))]).
Proof.
  intros data w.
  apply (unsupported_shape_rejected (H := Ref.runtime) "mixed.json" None "utf-8" w data).
  - on_disk.
  - reflexivity.
Defined.

(** Two objects with three keys between them, written next to the script. *)
Lemma success_returns_True_witness :
  let w := Ref.pokedex_array in
  let r := json_to_csv "dataset/pokedex.json" None "utf-8" w in
  r.1 = inr (PBool true) ∧
  fs r.2 !! "pokedex_converted.csv" =
    Some (File (Ref.lines [",name,type,hp"; "0,Bulbasaur,Grass,"; "1,Charmander,Fire,39.0"])) ∧
  EvPrint (MsgLoaded (2, 3) [LStr "name"; LStr "type"; LStr "hp"]) ∈ log r.2.
Proof.
  intros w r.
  apply (success_returns_True (H := Ref.runtime) "dataset/pokedex.json" None "utf-8" w
           (PList (map PDict
              [[("name", PStr "Bulbasaur"); ("type", PStr "Grass")];
               [("name", PStr "Charmander"); ("hp", PInt 39); ("type", PStr "Fire")]]))
           (frame_of_records None
              [[("name", PStr "Bulbasaur"); ("type", PStr "Grass")];
               [("name", PStr "Charmander"); ("hp", PInt 39); ("type", PStr "Fire")]])).
  - on_disk.
  - reflexivity.
  - writable.
Defined.

(** The same conversion run twice, input and output apart. *)
Lemma convert_twice_witness :
  let w := Ref.pokedex_array in
  let first := json_to_csv "dataset/pokedex.json" (Some "dataset/pokedex.csv") "utf-8" w in
  let second :=
    json_to_csv "dataset/pokedex.json" (Some "dataset/pokedex.csv") "utf-8" first.2 in
  fs second.2 = fs first.2 ∧ second.1 = first.1.
Proof.
  intros w.
  apply (convert_twice (H := Ref.runtime) "dataset/pokedex.json"
           (Some "dataset/pokedex.csv") "utf-8" w).
  vm_compute. reflexivity.
Defined.

(** Two objects; [hp] is met last and stands last, though first in the
    alphabet. *)
Lemma array_of_objects_table_witness :
  let ds := [[("name", PStr "Bulbasaur"); ("type", PStr "Grass")];
             [("name", PStr "Charmander"); ("hp", PInt 39); ("type", PStr "Fire")]] in
  let w := Ref.pokedex_array in
  let r := json_to_csv "dataset/pokedex.json" None "utf-8" w in
  ∃ df cols,
    DataFrame_of_list None (map PDict ds) = inr df ∧
    EvPrint (MsgLoaded (length ds, length cols) (map LStr cols)) ∈ log r.2 ∧
    length (index df) = length ds ∧
    length (values df) = length ds ∧
    columns df = map LStr cols ∧
    NoDup cols ∧
    (∀ k, k ∈ cols ↔ ∃ d, d ∈ ds ∧ k ∈ keys d) ∧
    (∀ l1 x l2 y l3,
       cols = l1 ++ x :: l2 ++ y :: l3 →
       ∃ pre post, all_keys ds = pre ++ x :: post ∧ (x ∉ pre) ∧ (y ∉ pre)) ∧
    (∀ bytes,
       writes w (output_path "dataset/pokedex.json" None) "utf-8" (csv_text df) bytes →
       r.1 = inr (PBool true) ∧
       fs r.2 !! output_path "dataset/pokedex.json" None = Some (File bytes)).
Proof.
  intros ds w r.
  apply (array_of_objects_table (H := Ref.runtime) "dataset/pokedex.json" None "utf-8" w ds).
  on_disk.
Defined.

(** The keyed example of the specification, with a third key whose object
    is empty. *)
Lemma object_of_objects_table_witness :
  let rows := [("001", [("name", PStr "Bulbasaur")]); ("002", []);
               ("004", [("name", PStr "Charmander")])] in
  let w := Ref.disk [("keyed.json",
             Ref.json "{'001':{'name':'Bulbasaur'},'002':{},'004':{'name':'Charmander'}}")] in
  let r := json_to_csv "keyed.json" None "utf-8" w in
  ∃ df cols body,
    DataFrame_from_dict_index (object_of rows) = inr df ∧
    columns df = map LStr cols ∧
    EvPrint (MsgLoaded (length rows, length cols) (map LStr cols)) ∈ log r.2 ∧
    index df = map LStr (keys rows) ∧
    csv_records df = (EmptyString :: cols) :: body ∧
    body = map (fun kd =>
                  fst kd :: imap (fun j c =>
                              cell_text (column_cells df j) (dict_get (snd kd) c)) cols)
               rows ∧
    (∀ bytes,
       writes w (output_path "keyed.json" None) "utf-8" (csv_text df) bytes →
       r.1 = inr (PBool true) ∧
       fs r.2 !! output_path "keyed.json" None = Some (File bytes)).
Proof.
  intros rows w r.
  apply (object_of_objects_table (H := Ref.runtime) "keyed.json" None "utf-8" w rows).
  - decided.
  - decided.
  - on_disk.
Defined.

(** The first object has no [hp]: its record ends in an empty field. *)
Lemma one_field_per_column_witness :
  let ds := [[("name", PStr "Bulbasaur"); ("type", PStr "Grass")];
             [("name", PStr "Charmander"); ("hp", PInt 39); ("type", PStr "Fire")]] in
  let data := PList (map PDict ds) in
  let labelled := zip (default_index (length ds)) ds in
  let w := Ref.pokedex_array in
  let r := json_to_csv "dataset/pokedex.json" None "utf-8" w in
  ∃ df cols body,
    table_of data = Some (inr df) ∧
    columns df = map LStr cols ∧
    NoDup cols ∧
    csv_records df = (EmptyString :: cols) :: body ∧
    length body = length labelled ∧
    (∀ i lbl d,
       labelled !! i = Some (lbl, d) →
       ∃ fields,
         body !! i = Some fields ∧
         keys d ⊆ cols ∧
         hd_error fields = Some (label_text lbl) ∧
         length fields = S (length cols) ∧
         ∀ j c, cols !! j = Some c →
                fields !! S j =
                Some (match dict_get d c with
                      | Some v => cell_text (column_cells df j) (Some v)
                      | None => EmptyString
                      end)) ∧
    (∀ bytes,
       writes w (output_path "dataset/pokedex.json" None) "utf-8" (csv_text df) bytes →
       r.1 = inr (PBool true) ∧
       fs r.2 !! output_path "dataset/pokedex.json" None = Some (File bytes)).
Proof.
  intros ds data labelled w r.
  apply (one_field_per_column (H := Ref.runtime) "dataset/pokedex.json" None "utf-8" w
           data labelled).
  - apply (array_of_objects ds). decided.
  - on_disk.
Defined.

(** An object and an array as field values. *)
Lemma nested_value_written_as_repr_witness :
  let ds := [[("name", PStr "Bulbasaur");
              ("stats", PDict [("hp", PInt 45); ("legendary", PBool false)]);
              ("moves", PList [PStr "Tackle"; PStr "Growl"])]] in
  let data := PList (map PDict ds) in
  let labelled := zip (default_index (length ds)) ds in
  let w := Ref.disk [("nested.json",
             Ref.json "[{'name':'Bulbasaur','stats':{'hp':45,'legendary':false},'moves':['Tackle','Growl']}]")] in
  let r := json_to_csv "nested.json" None "utf-8" w in
  ∃ df cols body,
    table_of data = Some (inr df) ∧
    columns df = map LStr cols ∧
    csv_text df = String.concat EmptyString (map writerow ((EmptyString :: cols) :: body)) ∧
    length body = length labelled ∧
    (∀ i lbl d c v,
       labelled !! i = Some (lbl, d) →
       dict_get d c = Some v →
       is_list_like v = true →
       ∃ j fields,
         cols !! j = Some c ∧
         body !! i = Some fields ∧
         fields !! S j = Some (py_repr v) ∧
         writerow fields =
           join (String delimiter EmptyString) (map quote_field fields) +:+ linesep ∧
         read_field (quote_field (py_repr v)) = py_repr v) ∧
    (∀ bytes,
       writes w (output_path "nested.json" None) "utf-8" (csv_text df) bytes →
       r.1 = inr (PBool true) ∧
       fs r.2 !! output_path "nested.json" None = Some (File bytes)).
Proof.
  intros ds data labelled w r.
  apply (nested_value_written_as_repr (H := Ref.runtime) "nested.json" None "utf-8" w
           data labelled).
  - apply (array_of_objects ds). decided.
  - on_disk.
Defined.

(** * Where the specification and the code part *)

(** C2.  The specification's own example: the header written is [,name];
    no column is called [index]. *)
Lemma object_header_has_no_index_name :
  let r := json_to_csv "dataset/pokedex.json" (Some "dataset/pokedex.csv") "utf-8"
             Ref.pokedex_object in
  r.1 = inr (PBool true) ∧
  Ref.file_at "dataset/pokedex.csv" r.2 =
    Some (Ref.lines [",name"; "001,Bulbasaur"; "004,Charmander"]) ∧
  Ref.file_at "dataset/pokedex.csv" r.2 ≠
    Some (Ref.lines ["index,name"; "001,Bulbasaur"; "004,Charmander"]).
Proof. vm_compute. split_and!; [reflexivity..|discriminate]. Qed.

(** C3.  An array of numbers has no element that is an object, and is
    converted all the same: one column labelled [0], answer [True]. *)
Lemma array_of_numbers_is_converted :
  let w := Ref.disk [("numbers.json", "[1, 2]")] in
  let r := json_to_csv "numbers.json" (Some "numbers.csv") "utf-8" w in
  reads w "numbers.json" "utf-8" (PList [PInt 1; PInt 2]) ∧
  Exists (fun v => isinstance_dict v = false) [PInt 1; PInt 2] ∧
  r.1 = inr (PBool true) ∧
  Ref.file_at "numbers.csv" r.2 = Some (Ref.lines [",0"; "0,1"; "1,2"]) ∧
  fs r.2 ≠ fs w.
Proof.
  intros w r. split_and!.
  - on_disk.
  - by constructor.
  - vm_compute. reflexivity.
  - vm_compute. reflexivity.
  - intros Heq. assert (Ref.file_at "numbers.csv" r.2 = Ref.file_at "numbers.csv" w) as Hf.
    { unfold Ref.file_at. by rewrite Heq. }
    vm_compute in Hf. discriminate.
Qed.

(** C4.  [NaN] is not a value of the JSON grammar, and Python's parser
    takes it for a float: the document is converted, and the answer is
    [True]. *)
Lemma nan_is_converted :
  let w := Ref.disk [("nan.json", "[NaN]")] in
  let r := json_to_csv "nan.json" (Some "nan.csv") "utf-8" w in
  Ref.rfc8259 "[NaN]" = false ∧
  Ref.rfc8259 "[1]" = true ∧
  reads w "nan.json" "utf-8" (PList [PFloat "nan"]) ∧
  r.1 = inr (PBool true) ∧
  Ref.file_at "nan.csv" r.2 = Some (Ref.lines [",0"; "0,"]) ∧
  fs r.2 ≠ fs w.
Proof.
  intros w r. split_and!.
  - vm_compute. reflexivity.
  - vm_compute. reflexivity.
  - on_disk.
  - vm_compute. reflexivity.
  - vm_compute. reflexivity.
  - intros Heq. assert (Ref.file_at "nan.csv" r.2 = Ref.file_at "nan.csv" w) as Hf.
    { unfold Ref.file_at. by rewrite Heq. }
    vm_compute in Hf. discriminate.
Qed.

(** C5.  A table of one column, and a record of two fields: the row label
    comes first, also for an array. *)
Lemma array_record_has_a_label_field :
  let w := Ref.disk [("one.json", Ref.json "[{'a':'x'}]")] in
  let r := json_to_csv "one.json" (Some "one.csv") "utf-8" w in
  ∃ df,
    table_of (PList [PDict [("a", PStr "x")]]) = Some (inr df) ∧
    columns df = [LStr "a"] ∧
    csv_records df = [[EmptyString; "a"]; ["0"; "x"]] ∧
    r.1 = inr (PBool true) ∧
    Ref.file_at "one.csv" r.2 = Some (Ref.lines [",a"; "0,x"]) ∧
    length ["0"; "x"] ≠ length (columns df).
Proof.
  eexists. split_and!; [reflexivity| | | | |]; vm_compute; try reflexivity.
  discriminate.
Qed.

(** C6.  A nested object is written with Python's quotes: the field is not
    the JSON text of the value, and no JSON text at all, as the parser
    rejects it. *)
Lemma nested_object_is_not_json :
  let w := Ref.disk [("nested.json", Ref.json "[{'a':{'b':1}}]")] in
  let r := json_to_csv "nested.json" (Some "nested.csv") "utf-8" w in
  r.1 = inr (PBool true) ∧
  Ref.file_at "nested.csv" r.2 = Some (Ref.lines [",a"; "0,{'b': 1}"]) ∧
  Ref.file_at "nested.csv" r.2 ≠ Some (Ref.lines [",a"; Ref.json "0,'{''b'': 1}'"]) ∧
  Ref.loads "{'b': 1}" = inl (JSONDecodeError "Expecting value") ∧
  Ref.loads (Ref.json "{'b': 1}") = inr (PDict [("b", PInt 1)]).
Proof. vm_compute. split_and!; [reflexivity..|discriminate|reflexivity|reflexivity]. Qed.

(** C8.  Two rows written, and the value returned is [True], not [2]. *)
Lemma two_rows_return_True :
  let r := json_to_csv "dataset/pokedex.json" (Some "dataset/pokedex.csv") "utf-8"
             Ref.pokedex_array in
  Ref.file_at "dataset/pokedex.csv" r.2 =
    Some (Ref.lines [",name,type,hp"; "0,Bulbasaur,Grass,"; "1,Charmander,Fire,39.0"]) ∧
  r.1 = inr (PBool true) ∧
  r.1 ≠ inr (PInt 2).
Proof. vm_compute. split_and!; [reflexivity..|discriminate]. Qed.


(** Rows of the object constructor.  The rows are the outer keys, in the
    order of the document: an outer key whose object is empty has a row of
    empty fields, and a row does not move up because its keys are met
    early. *)
Example empty_object_has_an_empty_row :
  let w := Ref.disk [("pokedex.json", Ref.json "{'001':{'name':'Bulbasaur'},'002':{}}")] in
  let r := json_to_csv "pokedex.json" (Some "pokedex.csv") "utf-8" w in
  Ref.file_at "pokedex.csv" r.2 = Some (Ref.lines [",name"; "001,Bulbasaur"; "002,"]).
Proof. vm_compute. reflexivity. Qed.

Example rows_follow_the_document :
  let w := Ref.disk [("t.json", Ref.json "{'r1':{'a':'x'},'r2':{'b':'y'},'r3':{'a':'z'}}")] in
  let r := json_to_csv "t.json" (Some "t.csv") "utf-8" w in
  Ref.file_at "t.csv" r.2 = Some (Ref.lines [",a,b"; "r1,x,"; "r2,,y"; "r3,z,"]).
Proof. vm_compute. reflexivity. Qed.

(** * The further theorems on concrete files *)

(** The Pokédex array: the CSV is the one file that changes. *)
Lemma only_the_output_changes_witness :
  let w := Ref.pokedex_array in
  let w' := (json_to_csv "dataset/pokedex.json" None "utf-8" w).2 in
  (fs w' = fs w ∨
   ∃ bytes, fs w' = <[output_path "dataset/pokedex.json" None := File bytes]> (fs w)) ∧
  no_read w' = no_read w ∧ no_write w' = no_write w ∧
  ∃ evs, log w' = log w ++ evs.
Proof.
  intros w.
  apply (only_the_output_changes (H := Ref.runtime) (H0 := Ref.console)
           (H1 := Ref.console_encodes) "dataset/pokedex.json" None "utf-8" w).
Defined.

(** The folder itself given as the input. *)
Lemma unreadable_input_reported_witness :
  let w := mkWorld {[ "dataset" := Directory 4096 ]} ∅ ∅ [] in
  ∃ cls,
    json_to_csv "dataset" None "utf-8" w =
    (inr (PBool false),
     after w None [EvExists "dataset"; EvPrint (MsgReading "dataset"); EvOpen "dataset" "r";
                   EvPrint (MsgUnexpected (Exception cls "dataset"))]) ∧
    cls ∈ ["IsADirectoryError"; "PermissionError"].
Proof.
  intros w. apply (unreadable_input_reported (H := Ref.runtime) "dataset" None "utf-8" w).
  left. exists 4096%nat. reflexivity.
Defined.

(** An array that holds an object and a number: the constructor fails. *)
Lemma failure_before_the_table_witness :
  let w := Ref.disk [("mixed.json", Ref.json "[{'a':1},2]")] in
  json_to_csv "mixed.json" None "utf-8" w =
  (inr (PBool false),
   after w None ((if codec_lookup "utf-8" then loading "mixed.json"
                  else opening "mixed.json") ++
                 [EvPrint (handler_message (TypeError_not_iterable (PInt 2)))])).
Proof.
  intros w.
  apply (failure_before_the_table (H := Ref.runtime) "mixed.json" None "utf-8" w
           (Ref.json "[{'a':1},2]") (TypeError_not_iterable (PInt 2))).
  - reflexivity.
  - apply not_elem_of_empty.
  - right. split; [reflexivity|].
    right. exists (Ref.json "[{'a':1},2]"). split; [reflexivity|].
    right. exists (PList [PDict [("a", PInt 1)]; PInt 2]).
    split; vm_compute; reflexivity.
Defined.

(** The Pokédex array, and a CSV that may not be written. *)
Lemma unwritable_output_reported_witness :
  let ds := [[("name", PStr "Bulbasaur"); ("type", PStr "Grass")];
             [("name", PStr "Charmander"); ("hp", PInt 39); ("type", PStr "Fire")]] in
  let w := mkWorld (fs Ref.pokedex_array) ∅ {[ "pokedex_converted.csv" ]} [] in
  ∃ cls,
    json_to_csv "dataset/pokedex.json" None "utf-8" w =
    (inr (PBool false),
     after w None
       (loading "dataset/pokedex.json" ++
        saving (frame_of_records None ds) (output_path "dataset/pokedex.json" None) ++
        [EvPrint (MsgUnexpected
                    (Exception cls (output_path "dataset/pokedex.json" None)))])) ∧
    cls ∈ ["PermissionError"; "IsADirectoryError"].
Proof.
  intros ds w.
  apply (unwritable_output_reported (H := Ref.runtime) "dataset/pokedex.json" None "utf-8" w
           (PList (map PDict ds)) (frame_of_records None ds)).
  - on_disk.
  - reflexivity.
  - left. decided.
Defined.

(** The empty array. *)
Lemma empty_document_header_only_witness :
  let w := Ref.disk [("empty.json", "[]")] in
  let r := json_to_csv "empty.json" None "utf-8" w in
  r.1 = inr (PBool true) ∧
  fs r.2 !! output_path "empty.json" None =
    Some (File (String quotechar (String quotechar EmptyString) +:+ linesep)) ∧
  EvPrint (MsgLoaded (0, 0)%nat []) ∈ log r.2.
Proof.
  intros w r.
  apply (empty_document_header_only (H := Ref.runtime) "empty.json" None "utf-8" w (PList [])).
  - on_disk.
  - left. reflexivity.
  - writable.
Defined.

(** Three numbers. *)
Lemma array_of_scalars_one_column_witness :
  let l := [PInt 1; PInt 2; PInt 3] in
  let w := Ref.disk [("numbers.json", "[1,2,3]")] in
  let r := json_to_csv "numbers.json" None "utf-8" w in
  ∃ df body,
    DataFrame_of_list None l = inr df ∧
    columns df = [LInt 0] ∧
    csv_records df = [EmptyString; "0"] :: body ∧
    length body = length l ∧
    (∀ i v, l !! i = Some v →
            body !! i = Some [pretty (Z.of_nat i); cell_text (map Some l) (Some v)]) ∧
    (∀ bytes,
       writes w (output_path "numbers.json" None) "utf-8" (csv_text df) bytes →
       r.1 = inr (PBool true) ∧
       fs r.2 !! output_path "numbers.json" None = Some (File bytes)).
Proof.
  intros l w r.
  apply (array_of_scalars_one_column (H := Ref.runtime) "numbers.json" None "utf-8" w l).
  - on_disk.
  - reflexivity.
  - discriminate.
Defined.

(** Two numbers under two keys. *)
Lemma object_of_scalars_one_column_witness :
  let d := [("hp", PInt 45); ("attack", PInt 49)] in
  let w := Ref.disk [("stats.json", Ref.json "{'hp':45,'attack':49}")] in
  let r := json_to_csv "stats.json" None "utf-8" w in
  ∃ df,
    DataFrame_from_dict_index d = inr df ∧
    columns df = [LInt 0] ∧
    index df = map (fun kv => LStr (fst kv)) d ∧
    csv_records df =
      [EmptyString; "0"] ::
      map (fun kv => [fst kv; cell_text (map (fun kv => Some (snd kv)) d) (Some (snd kv))]) d ∧
    (∀ bytes,
       writes w (output_path "stats.json" None) "utf-8" (csv_text df) bytes →
       r.1 = inr (PBool true) ∧
       fs r.2 !! output_path "stats.json" None = Some (File bytes)).
Proof.
  intros d w r.
  apply (object_of_scalars_one_column (H := Ref.runtime) "stats.json" None "utf-8" w d).
  - on_disk.
  - reflexivity.
  - discriminate.
Defined.

(** The Pokédex array: Bulbasaur is record 0, Charmander record 1. *)
Lemma array_records_in_input_order_witness :
  let ds := [[("name", PStr "Bulbasaur"); ("type", PStr "Grass")];
             [("name", PStr "Charmander"); ("hp", PInt 39); ("type", PStr "Fire")]] in
  let w := Ref.pokedex_array in
  let r := json_to_csv "dataset/pokedex.json" None "utf-8" w in
  ∃ df cols body,
    DataFrame_of_list None (map PDict ds) = inr df ∧
    columns df = map LStr cols ∧
    csv_records df = (EmptyString :: cols) :: body ∧
    length body = length ds ∧
    (∀ i d, ds !! i = Some d →
            body !! i =
            Some (pretty (Z.of_nat i) ::
                  imap (fun j c => cell_text (column_cells df j) (dict_get d c)) cols)) ∧
    (∀ bytes,
       writes w (output_path "dataset/pokedex.json" None) "utf-8" (csv_text df) bytes →
       r.1 = inr (PBool true) ∧
       fs r.2 !! output_path "dataset/pokedex.json" None = Some (File bytes)).
Proof.
  intros ds w r.
  apply (array_records_in_input_order (H := Ref.runtime)
           "dataset/pokedex.json" None "utf-8" w ds).
  on_disk.
Defined.

(** Two keyed objects; the second brings the key [hp]. *)
Lemma object_columns_first_seen_witness :
  let rows := [("001", [("name", PStr "Bulbasaur"); ("type", PStr "Grass")]);
               ("004", [("hp", PInt 39); ("name", PStr "Charmander")])] in
  let w := Ref.disk [("keyed.json",
             Ref.json "{'001':{'name':'Bulbasaur','type':'Grass'},'004':{'hp':39,'name':'Charmander'}}")] in
  ∃ df cols,
    DataFrame_from_dict_index (object_of rows) = inr df ∧
    columns df = map LStr cols ∧
    EvPrint (MsgLoaded (length rows, length cols) (map LStr cols))
      ∈ log (json_to_csv "keyed.json" None "utf-8" w).2 ∧
    NoDup cols ∧
    (∀ c, c ∈ cols ↔ ∃ kd, kd ∈ rows ∧ c ∈ keys (snd kd)) ∧
    (∀ l1 x l2 y l3,
       cols = l1 ++ x :: l2 ++ y :: l3 →
       ∃ pre post, all_keys (map snd rows) = pre ++ x :: post ∧ (x ∉ pre) ∧ (y ∉ pre)).
Proof.
  intros rows w.
  apply (object_columns_first_seen (H := Ref.runtime) "keyed.json" None "utf-8" w rows).
  on_disk.
Defined.

(** Three keys, one of them with an empty object. *)
Lemma object_rows_are_the_keys_witness :
  let rows := [("001", [("name", PStr "Bulbasaur")]); ("002", []);
               ("004", [("name", PStr "Charmander")])] in
  let w := Ref.disk [("keyed.json",
             Ref.json "{'001':{'name':'Bulbasaur'},'002':{},'004':{'name':'Charmander'}}")] in
  ∃ df cols body,
    DataFrame_from_dict_index (object_of rows) = inr df ∧
    index df = map LStr (keys rows) ∧
    columns df = map LStr cols ∧
    csv_records df = (EmptyString :: cols) :: body ∧
    length body = length rows ∧
    (∀ i k d, rows !! i = Some (k, d) → ∃ fields, body !! i = Some (k :: fields)) ∧
    (∀ i k, rows !! i = Some (k, []) →
            body !! i = Some (k :: replicate (length cols) EmptyString)) ∧
    EvPrint (MsgLoaded (length rows, length cols) (map LStr cols))
      ∈ log (json_to_csv "keyed.json" None "utf-8" w).2.
Proof.
  intros rows w.
  apply (object_rows_are_the_keys (H := Ref.runtime) "keyed.json" None "utf-8" w rows).
  - decided.
  - decided.
  - on_disk.
Defined.

(** An object first, a number second. *)
Lemma object_with_a_stray_value_rejected_witness :
  let w := Ref.disk [("stray.json", Ref.json "{'001':{'name':'Bulbasaur'},'count':1}")] in
  ∃ v, v ∈ map snd [("count", PInt 1)] ∧ isinstance_dict v = false ∧
       json_to_csv "stray.json" None "utf-8" w =
       (inr (PBool false),
        after w None (loading "stray.json" ++
                      [EvPrint (MsgUnexpected (AttributeError v "items"))])).
Proof.
  intros w.
  apply (object_with_a_stray_value_rejected (H := Ref.runtime) "stray.json" None "utf-8" w
           "001" [("name", PStr "Bulbasaur")] [("count", PInt 1)]).
  - on_disk.
  - reflexivity.
Defined.

(** The Pokédex array: the one file opened for writing is the CSV. *)
Lemma writes_only_after_the_table_witness :
  let w := Ref.pokedex_array in
  let evs := log (json_to_csv "dataset/pokedex.json" None "utf-8" w).2 in
  "pokedex_converted.csv" = output_path "dataset/pokedex.json" None ∧
  ∃ data df tl,
    reads w "dataset/pokedex.json" "utf-8" data ∧ table_of data = Some (inr df) ∧
    evs = loading "dataset/pokedex.json" ++
          saving df (output_path "dataset/pokedex.json" None) ++ tl ∧
    ∀ q, EvOpen q "w" ∉ tl.
Proof.
  intros w evs.
  apply (writes_only_after_the_table (H := Ref.runtime) "dataset/pokedex.json" None "utf-8"
           w evs "pokedex_converted.csv").
  - reflexivity.
  - apply (list_elem_of_lookup_2 _ 7). vm_compute. reflexivity.
Defined.

(** No file at all: [open] fails and the first handler answers. *)
Lemma main_py_missing_input_witness :
  call (main_py "dataset/pokedex.json" "dataset/pokedex.csv") (Ref.disk []) =
  (inr PNone,
   after (Ref.disk []) None
     (script_opening "dataset/pokedex.json" ++
      [EvPrint (MsgScript (ScriptNotFound "dataset/pokedex.json"))])).
Proof.
  apply (main_py_missing_input (H := Ref.runtime)). reflexivity.
Defined.

(** A trailing comma in the array. *)
Lemma main_py_malformed_json_witness :
  let w := Ref.disk [("broken.json", Ref.json "[{'name':'Bulbasaur'},]")] in
  call (main_py "broken.json" "broken.csv") w =
  (inr PNone,
   after w None (script_opening "broken.json" ++
                 [EvJsonLoad; EvPrint (MsgScript ScriptIncompatible)])).
Proof.
  intros w.
  apply (main_py_malformed_json (H := Ref.runtime) "broken.json" "broken.csv" w
           (Ref.json "[{'name':'Bulbasaur'},]") (Ref.json "[{'name':'Bulbasaur'},]")
           "Expecting value").
  - reflexivity.
  - apply not_elem_of_empty.
  - reflexivity.
  - vm_compute. reflexivity.
Defined.

(** A document that is a single number. *)
Lemma main_py_scalar_root_witness :
  let w := Ref.disk [("scalar.json", "42")] in
  ∃ e, call (main_py "scalar.json" "scalar.csv") w =
       (inr PNone,
        after w None (script_opening "scalar.json" ++
                      [EvJsonLoad; EvPrint (MsgScript ScriptIncompatible);
                       EvPrint (MsgScript (ScriptUnexpected (Exception "TypeError" e)))])).
Proof.
  intros w.
  apply (main_py_scalar_root (H := Ref.runtime) "scalar.json" "scalar.csv" w (PInt 42)).
  - on_disk.
  - reflexivity.
Defined.

(** The Pokédex array: the script and the function write the same CSV. *)
Lemma main_py_same_files_as_json_to_csv_witness :
  let w := Ref.pokedex_array in
  fs (call (main_py "dataset/pokedex.json" "dataset/pokedex.csv") w).2 =
  fs (json_to_csv "dataset/pokedex.json" (Some "dataset/pokedex.csv") "utf-8" w).2.
Proof.
  intros w.
  apply (main_py_same_files_as_json_to_csv (H := Ref.runtime) (H0 := Ref.console)
           (H1 := Ref.console_encodes) "dataset/pokedex.json" "dataset/pokedex.csv" w).
Defined.

(** An empty disk: [main()] makes the folder and reports the missing input. *)
Lemma main_makes_the_missing_folder_witness :
  let s := Home.session_of [] in
  run_caller (main (H := Ref.runtime) Home.new_directory_size Home.here) s =
  (inr PNone,
   mkSession (<[dataset_path Home.here := Directory Home.new_directory_size]> (s_fs s))
     (s_no_read s) (s_no_write s)
     (trace s ++ [Said MainBanner; Inner (EvExists (dataset_path Home.here));
                  Said (MainFolderMissing "dataset"); Makedirs (dataset_path Home.here);
                  Said (MainFolderCreated "dataset");
                  Inner (EvExists (json_path Home.here));
                  Inner (EvPrint (MsgMissing (json_path Home.here)));
                  Said MainFailure])).
Proof.
  intros s.
  apply (main_makes_the_missing_folder (H := Ref.runtime) Home.new_directory_size Home.here s).
  - reflexivity.
  - apply not_elem_of_empty.
  - reflexivity.
Defined.

(** The folder and the Pokédex are there: the last line tells of a CSV. *)
Lemma main_last_line_tells_the_outcome_witness :
  let s := Home.with_dataset in
  let w0 := world_of (with_folder Home.new_directory_size Home.here s) in
  let r := run_caller (main (H := Ref.runtime) Home.new_directory_size Home.here) s in
  ∃ b tr,
    r.1 = inr PNone ∧
    trace r.2 = trace s ++ tr ++ [Said (verdict_line b)] ∧
    (b = true ↔
     ∃ data df bytes,
       reads w0 (json_path Home.here) "utf-8" data ∧ table_of data = Some (inr df) ∧
       writes w0 (csv_path Home.here) "utf-8" (csv_text df) bytes ∧
       s_fs r.2 !! csv_path Home.here = Some (File bytes)).
Proof.
  intros s.
  apply (main_last_line_tells_the_outcome (H := Ref.runtime)
           Home.new_directory_size Home.here s).
  left. exists (Directory 4096). reflexivity.
Defined.

(** The folder and the Pokédex are there: the input stays as it is. *)
Lemma main_touches_only_the_folder_and_the_csv_witness :
  let s := Home.with_dataset in
  let r := run_caller (main (H := Ref.runtime) Home.new_directory_size Home.here) s in
  (∀ p, p ≠ dataset_path Home.here → p ≠ csv_path Home.here →
        s_fs r.2 !! p = s_fs s !! p) ∧
  s_fs r.2 !! json_path Home.here = s_fs s !! json_path Home.here.
Proof.
  intros s.
  apply (main_touches_only_the_folder_and_the_csv (H := Ref.runtime) (H0 := Ref.console)
           (H1 := Ref.console_encodes) Home.new_directory_size Home.here s).
Defined.

(** The folder and the Pokédex are there: the second run repeats the
    first. *)
Lemma main_twice_witness :
  let s := Home.with_dataset in
  let first := run_caller (main (H := Ref.runtime) Home.new_directory_size Home.here) s in
  let second :=
    run_caller (main (H := Ref.runtime) Home.new_directory_size Home.here) first.2 in
  s_fs second.2 = s_fs first.2 ∧
  second.1 = first.1 ∧
  last (trace second.2) = last (trace first.2).
Proof.
  intros s.
  apply (main_twice (H := Ref.runtime) (H0 := Ref.console) (H1 := Ref.console_encodes)
           Home.new_directory_size Home.here s).
Defined.

(** A directory of the script in which nothing may be created. *)
Lemma main_stops_when_the_folder_cannot_be_made_witness :
  let s := mkSession ∅ ∅ {[ "/home/ude/dataset" ]} [] in
  let r := run_caller (main (H := Ref.runtime) Home.new_directory_size Home.here) s in
  r.1 = inl (Exception "PermissionError" (dataset_path Home.here)) ∧
  s_fs r.2 = s_fs s ∧
  ∃ steps,
    trace r.2 = trace s ++ steps ∧
    last steps = Some (Makedirs (dataset_path Home.here)) ∧
    ∀ ev, Inner ev ∈ steps → ev = EvExists (dataset_path Home.here).
Proof.
  intros s.
  apply (main_stops_when_the_folder_cannot_be_made (H := Ref.runtime)
           Home.new_directory_size Home.here s).
  - reflexivity.
  - decided.
Defined.

(** No [datos.json] in the working directory. *)
Lemma json_a_csv_missing_input_witness :
  let s := Home.session_of [] in
  run_caller (json_a_csv (H := Ref.runtime) Home.frame_of_mixed_dict) s =
  (inl (Exception "FileNotFoundError" "datos.json"),
   mkSession (s_fs s) (s_no_read s) (s_no_write s)
     (trace s ++ [Inner (EvOpen "datos.json" "r")])).
Proof.
  intros s.
  apply (json_a_csv_missing_input (H := Ref.runtime) Home.frame_of_mixed_dict s).
  reflexivity.
Defined.

(** [datos.json] holds a single number: the constructor refuses it. *)
Lemma json_a_csv_failure_leaves_the_script_witness :
  let s := Home.session_of [("datos.json", File "42")] in
  run_caller (json_a_csv (H := Ref.runtime) Home.frame_of_mixed_dict) s =
  (inl (Exception "ValueError" "DataFrame constructor not properly called!"),
   mkSession (s_fs s) (s_no_read s) (s_no_write s)
     (trace s ++ [Inner (EvOpen "datos.json" "r"); Inner EvJsonLoad])).
Proof.
  intros s.
  apply (json_a_csv_failure_leaves_the_script (H := Ref.runtime) Home.frame_of_mixed_dict s
           "42" (Exception "ValueError" "DataFrame constructor not properly called!")).
  - reflexivity.
  - apply not_elem_of_empty.
  - right. exists "42". split; [reflexivity|].
    right. exists (PInt 42). split; vm_compute; reflexivity.
Defined.

(** The Pokédex array as [datos.json]: three fields a record, no labels. *)
Lemma json_a_csv_array_of_objects_witness :
  let ds := [[("name", PStr "Bulbasaur"); ("type", PStr "Grass")];
             [("name", PStr "Charmander"); ("hp", PInt 39); ("type", PStr "Fire")]] in
  let s := Home.session_of
    [("datos.json",
      File (Ref.json "[{'name':'Bulbasaur','type':'Grass'},{'name':'Charmander','hp':39,'type':'Fire'}]"))] in
  let bytes := Ref.lines ["name,type,hp"; "Bulbasaur,Grass,"; "Charmander,Fire,39.0"] in
  let df := frame_of_records None ds in
  let cols := first_seen (all_keys ds) in
  run_caller (json_a_csv (H := Ref.runtime) Home.frame_of_mixed_dict) s =
  (inr PNone,
   mkSession (<["salida.csv" := File bytes]> (s_fs s)) (s_no_read s) (s_no_write s)
     (trace s ++ [Inner (EvOpen "datos.json" "r"); Inner EvJsonLoad;
                  Inner (EvOpen "salida.csv" "w"); Said (OtraGenerated "salida.csv")])) ∧
  csv_text_no_index df =
    String.concat EmptyString (map writerow (csv_records_no_index df)) ∧
  csv_records_no_index df =
    cols :: map (fun d => imap (fun j c => cell_text (column_cells df j) (dict_get d c)) cols)
              ds ∧
  Forall (fun fields => length fields = length cols) (csv_records_no_index df).
Proof.
  intros ds s bytes.
  apply (json_a_csv_array_of_objects (H := Ref.runtime) Home.frame_of_mixed_dict s ds bytes).
  - on_disk.
  - writable.
Defined.

(** The Pokédex array given to both programs. *)
Lemma json_to_csv_adds_the_labels_witness :
  let ds := [[("name", PStr "Bulbasaur"); ("type", PStr "Grass")];
             [("name", PStr "Charmander"); ("hp", PInt 39); ("type", PStr "Fire")]] in
  let w := Ref.pokedex_array in
  let s := Home.session_of
    [("datos.json",
      File (Ref.json "[{'name':'Bulbasaur','type':'Grass'},{'name':'Charmander','hp':39,'type':'Fire'}]"))] in
  let bytes := Ref.lines [",name,type,hp"; "0,Bulbasaur,Grass,"; "1,Charmander,Fire,39.0"] in
  let bytes' := Ref.lines ["name,type,hp"; "Bulbasaur,Grass,"; "Charmander,Fire,39.0"] in
  ∃ records records',
    fs (json_to_csv "dataset/pokedex.json" None "utf-8" w).2
      !! output_path "dataset/pokedex.json" None = Some (File bytes) ∧
    s_fs (run_caller (json_a_csv (H := Ref.runtime) Home.frame_of_mixed_dict) s).2
      !! "salida.csv" = Some (File bytes') ∧
    codec_encode "utf-8" (String.concat EmptyString (map writerow records)) = inr bytes ∧
    codec_encode "utf-8" (String.concat EmptyString (map writerow records')) = inr bytes' ∧
    length records' = S (length ds) ∧
    records =
      zip_with cons (EmptyString :: map label_text (default_index (length ds))) records'.
Proof.
  intros ds w s bytes bytes'.
  apply (json_to_csv_adds_the_labels (H := Ref.runtime) Home.frame_of_mixed_dict
           "dataset/pokedex.json" None "utf-8" w s ds bytes bytes').
  - on_disk.
  - on_disk.
  - writable.
  - writable.
Defined.
